(** * The RDS instance reconciler of [pkg/controller/rds/rdsinstance.go]

    A shallow embedding of the managed-resource lifecycle reconciler and the
    properties of its phases.

    The record the reconciler works on is held behind a pointer in the Go
    code and mutated in place; here it is one component of an explicit state
    that every phase threads through, next to the log of the calls made to
    the collaborators (record store, reference resolver, connection
    publisher, provider client, password generator).  Collaborators are
    consumed through their interfaces only: a call is logged and answers
    with the value the collaborator returns, and it does not write to the
    record.  Condition transition times are not modelled. *)

From Stdlib Require Import String List ZArith Bool Lia.
Import ListNotations.
Open Scope string_scope.

(** ** Go's [error] values

    A Go [error] that may be [nil] is an [option error].  The source never
    inspects an error except through the classifiers of the packages it
    imports, so an error carries the class those classifiers look for and
    the text [Error()] returns. *)

Inductive ErrorClass : Type :=
| KubeNotFound        (* what kerrors.IsNotFound recognises *)
| RDSAlreadyExists    (* what rds.IsErrorAlreadyExists recognises *)
| RDSNotFound         (* what rds.IsErrorNotFound recognises *)
| ReferencesAccess    (* what resource.IsReferencesAccessError recognises *)
| Unclassified.

Record error : Type := mkError { class : ErrorClass; Error : string }.

Definition isNil {A : Type} (e : option A) : bool :=
  match e with None => true | Some _ => false end.

Module kerrors.
(** Modelled from the spec: [k8s.io/apimachinery/pkg/api/errors.IsNotFound],
    the record store's "not found" classifier. *)
Definition IsNotFound (err : error) : bool :=
  match class err with KubeNotFound => true | _ => false end.
End kerrors.

Module errors.
(** Modelled from the spec: [Wrap] of [github.com/pkg/errors], missing from
    the sources.  A nil error stays nil ("no phase silently swallows a
    persist failure"); a wrapped error carries the message in front and no
    longer answers to the classifiers. *)
Definition Wrap (err : option error) (message : string) : option error :=
  match err with
  | None => None
  | Some e => Some (mkError Unclassified (message ++ ": " ++ Error e))
  end.

(** Modelled from the spec: [Errorf] of [github.com/pkg/errors], missing from
    the sources, applied to the formatted message. *)
Definition Errorf (message : string) : error := mkError Unclassified message.
End errors.

(** ** [runtimev1alpha1]: conditions, reclaim policies, secret keys *)

Module runtimev1alpha1.

(** Modelled from the spec: the condition types of section 3, "Ready, Synced,
    ReferencesResolved", missing from the sources (crossplane-runtime). *)
Definition ConditionType := string.
Definition TypeReady : ConditionType := "Ready".
Definition TypeSynced : ConditionType := "Synced".
Definition TypeReferencesResolved : ConditionType := "ReferencesResolved".

Inductive ConditionStatus : Type := ConditionTrue | ConditionFalse | ConditionUnknown.

Inductive ConditionReason : Type :=
| ReasonNone
| ReasonAvailable | ReasonUnavailable | ReasonCreating | ReasonDeleting
| ReasonReconcileSuccess | ReasonReconcileError
| ReasonReferenceResolveSuccess | ReasonResolveReferencesBlocked.

(** Modelled from the spec: a condition is "a (type, status, reason, message,
    transition-time) tuple"; the transition time is left out. *)
Record Condition : Type := mkCondition {
  Type_ : ConditionType;
  Status : ConditionStatus;
  Reason : ConditionReason;
  Message : string
}.

(** Modelled from the spec: the condition vocabulary of section 6, missing
    from the sources (crossplane-runtime).  [Creating], [Available],
    [Unavailable] and [Deleting] are entries of type Ready,
    [ReconcileSuccess] and [ReconcileError] of type Synced, the two
    reference-resolution conditions of type ReferencesResolved. *)
Definition Creating : Condition :=
  mkCondition TypeReady ConditionFalse ReasonCreating "".
Definition Deleting : Condition :=
  mkCondition TypeReady ConditionFalse ReasonDeleting "".
Definition Available : Condition :=
  mkCondition TypeReady ConditionTrue ReasonAvailable "".
Definition Unavailable : Condition :=
  mkCondition TypeReady ConditionFalse ReasonUnavailable "".
Definition ReconcileSuccess : Condition :=
  mkCondition TypeSynced ConditionTrue ReasonReconcileSuccess "".
Definition ReconcileError (err : error) : Condition :=
  mkCondition TypeSynced ConditionFalse ReasonReconcileError (Error err).
Definition ReferenceResolutionSuccess : Condition :=
  mkCondition TypeReferencesResolved ConditionTrue ReasonReferenceResolveSuccess "".
Definition ReferenceResolutionBlocked (err : error) : Condition :=
  mkCondition TypeReferencesResolved ConditionFalse ReasonResolveReferencesBlocked (Error err).

(** Modelled from the spec: one write of [ConditionedStatus.SetConditions],
    missing from the sources.  "Each setCondition call replaces the entry
    for its type - last write wins per type"; a condition whose type has no
    entry yet is appended. *)
Definition setCondition (l : list Condition) (new : Condition) : list Condition :=
  if existsb (fun existing => Type_ existing =? Type_ new) l
  then map (fun existing => if Type_ existing =? Type_ new then new else existing) l
  else l ++ [new].

(** Modelled from the spec: the variadic [SetConditions(c...)], one write
    per condition, in the order given. *)
Definition SetConditions (l : list Condition) (c : list Condition) : list Condition :=
  fold_left setCondition c l.

(** Modelled from the spec: [ConditionedStatus.GetCondition], missing from
    the sources: the entry of the given type, or an entry of unknown status
    when there is none. *)
Fixpoint GetCondition (l : list Condition) (ct : ConditionType) : Condition :=
  match l with
  | [] => mkCondition ct ConditionUnknown ReasonNone ""
  | c :: rest => if Type_ c =? ct then c else GetCondition rest ct
  end.

(** Modelled from the spec: the reclaim policies, "Delete | Retain", and the
    keys of the published connection details, missing from the sources. *)
Definition ReclaimPolicy := string.
Definition ReclaimDelete : ReclaimPolicy := "Delete".
Definition ReclaimRetain : ReclaimPolicy := "Retain".

Definition ResourceCredentialsSecretUserKey : string := "username".
Definition ResourceCredentialsSecretPasswordKey : string := "password".
Definition ResourceCredentialsSecretEndpointKey : string := "endpoint".

End runtimev1alpha1.

(** ** [databasev1alpha2]: the managed-resource record *)

Module databasev1alpha2.

Definition Time := Z.

Record ObjectReference : Type := mkObjectReference {
  RefNamespace : string;
  RefName : string
}.

(** Modelled from the spec: the record's identity, deletion intent and
    finalizers - the part of the object metadata the reconciler reads or
    writes. *)
Record ObjectMeta : Type := mkObjectMeta {
  Namespace : string;
  Name : string;
  UID : string;
  DeletionTimestamp : option Time;
  Finalizers : list string
}.

(** Modelled from the spec: the desired spec of section 3.  The sizing and
    configuration parameters, which the reconciler only hands on to the
    provider, are left out. *)
Record RDSInstanceSpec : Type := mkRDSInstanceSpec {
  ProviderReference : option ObjectReference;
  ReclaimPolicy : runtimev1alpha1.ReclaimPolicy;
  MasterUsername : string;
  Engine : string
}.

(** Modelled from the spec: the observed status of section 3. *)
Record RDSInstanceStatus : Type := mkRDSInstanceStatus {
  Conditions : list runtimev1alpha1.Condition;
  Bindable : bool;
  State : string;
  Endpoint : string;
  ProviderID : string;
  InstanceName : string
}.

Record RDSInstance : Type := mkRDSInstance {
  Meta : ObjectMeta;
  Spec : RDSInstanceSpec;
  Status : RDSInstanceStatus
}.

(** Go's zero value [RDSInstance{}]. *)
Definition zero : RDSInstance :=
  mkRDSInstance (mkObjectMeta "" "" "" None [])
                (mkRDSInstanceSpec None "" "" "")
                (mkRDSInstanceStatus [] false "" "" "" "").

(** Modelled from the spec: the external states the sync phase names. *)
Definition RDSInstanceStateAvailable : string := "available".
Definition RDSInstanceStateCreating : string := "creating".
Definition RDSInstanceStateFailed : string := "failed".

(** Field assignments. *)
Definition withStatus (f : RDSInstanceStatus -> RDSInstanceStatus) (i : RDSInstance) : RDSInstance :=
  mkRDSInstance (Meta i) (Spec i) (f (Status i)).

Definition withMeta (f : ObjectMeta -> ObjectMeta) (i : RDSInstance) : RDSInstance :=
  mkRDSInstance (f (Meta i)) (Spec i) (Status i).

Definition setConditionsField (l : list runtimev1alpha1.Condition) (s : RDSInstanceStatus) :=
  mkRDSInstanceStatus l (Bindable s) (State s) (Endpoint s) (ProviderID s) (InstanceName s).

Definition setBindableField (b : bool) (s : RDSInstanceStatus) :=
  mkRDSInstanceStatus (Conditions s) b (State s) (Endpoint s) (ProviderID s) (InstanceName s).

Definition setState (v : string) (s : RDSInstanceStatus) :=
  mkRDSInstanceStatus (Conditions s) (Bindable s) v (Endpoint s) (ProviderID s) (InstanceName s).

Definition setEndpoint (v : string) (s : RDSInstanceStatus) :=
  mkRDSInstanceStatus (Conditions s) (Bindable s) (State s) v (ProviderID s) (InstanceName s).

Definition setProviderID (v : string) (s : RDSInstanceStatus) :=
  mkRDSInstanceStatus (Conditions s) (Bindable s) (State s) (Endpoint s) v (InstanceName s).

Definition setInstanceName (v : string) (s : RDSInstanceStatus) :=
  mkRDSInstanceStatus (Conditions s) (Bindable s) (State s) (Endpoint s) (ProviderID s) v.

Definition setFinalizers (f : list string) (m : ObjectMeta) :=
  mkObjectMeta (Namespace m) (Name m) (UID m) (DeletionTimestamp m) f.

(** [instance.Status.SetConditions(c...)] *)
Definition SetConditions (c : list runtimev1alpha1.Condition) (i : RDSInstance) : RDSInstance :=
  withStatus (fun s => setConditionsField (runtimev1alpha1.SetConditions (Conditions s) c) s) i.

(** [instance.GetCondition(ct)] *)
Definition GetCondition (i : RDSInstance) (ct : runtimev1alpha1.ConditionType) :=
  runtimev1alpha1.GetCondition (Conditions (Status i)) ct.

End databasev1alpha2.

(** ** [meta] and [resource]: helpers over the record *)

Module meta.
Import databasev1alpha2.

(** Modelled from the spec: [meta.AddFinalizer], missing from the sources.
    The finalizers are "a set of opaque markers" held as a list: adding a
    marker that is present changes nothing. *)
Definition AddFinalizer (finalizer : string) (i : RDSInstance) : RDSInstance :=
  withMeta (fun m =>
    if existsb (String.eqb finalizer) (Finalizers m) then m
    else setFinalizers (Finalizers m ++ [finalizer]) m) i.

(** Modelled from the spec: [meta.RemoveFinalizer], missing from the
    sources: every occurrence of the marker is removed. *)
Definition RemoveFinalizer (finalizer : string) (i : RDSInstance) : RDSInstance :=
  withMeta (fun m =>
    setFinalizers (filter (fun e => negb (e =? finalizer)) (Finalizers m)) m) i.
End meta.

Module resource.
Import databasev1alpha2.

Definition ConnectionDetails := list (string * string).

(** Modelled from the spec: [resource.Ignore], missing from the sources:
    nil when the classifier accepts the error ("absorbed locally"), the
    error itself otherwise. *)
Definition Ignore (is_ : option error -> bool) (err : option error) : option error :=
  if is_ err then None else err.

(** Modelled from the spec: [resource.IsConditionTrue], missing from the
    sources: the condition's status is true. *)
Definition IsConditionTrue (c : runtimev1alpha1.Condition) : bool :=
  match runtimev1alpha1.Status c with
  | runtimev1alpha1.ConditionTrue => true
  | _ => false
  end.

(** Modelled from the spec: [resource.IsReferencesAccessError], the
    resolver's "access blocked" classifier. *)
Definition IsReferencesAccessError (err : error) : bool :=
  match class err with ReferencesAccess => true | _ => false end.

(** Modelled from the spec: [resource.SetBindable], missing from the
    sources: "mark record bindable (eligible for consumption by
    dependents)". *)
Definition SetBindable (i : RDSInstance) : RDSInstance :=
  withStatus (setBindableField true) i.

(** The reference resolver: [resolve(record) -> error]. *)
Record ManagedReferenceResolver : Type := mkManagedReferenceResolver {
  ResolveReferences : RDSInstance -> option error
}.

(** The credential publisher: [publish(record, details) -> error]. *)
Record ManagedConnectionPublisher : Type := mkManagedConnectionPublisher {
  PublishConnection : RDSInstance -> ConnectionDetails -> option error
}.
End resource.

(** ** [rds]: the provider client *)

Module rds.
Import databasev1alpha2.

(** Modelled from the spec: what the provider's get reports, "(externalState,
    endpoint, providerID)", next to the name. *)
Record Instance : Type := mkInstance {
  Name : string;
  ARN : string;
  Status : string;
  Endpoint : string
}.

(** Modelled from the spec: the provider client interface of section 6,
    [create(name, credential, spec)], [get(name)], [delete(name)].  The
    external reference [create] and [delete] also return is discarded by the
    reconciler and left out. *)
Record Client : Type := mkClient {
  CreateInstance : string -> string -> RDSInstanceSpec -> option error;
  GetInstance : string -> Instance + error;
  DeleteInstance : string -> option error
}.

(** Modelled from the spec: [rds.IsErrorAlreadyExists] of [pkg/clients/rds],
    the provider's "already exists" classifier.  A nil error is not one. *)
Definition IsErrorAlreadyExists (err : option error) : bool :=
  match err with
  | Some e => match class e with RDSAlreadyExists => true | _ => false end
  | None => false
  end.

(** Modelled from the spec: [rds.IsErrorNotFound] of [pkg/clients/rds], the
    provider's "not found" classifier.  A nil error is not one. *)
Definition IsErrorNotFound (err : option error) : bool :=
  match err with
  | Some e => match class e with RDSNotFound => true | _ => false end
  | None => false
  end.
End rds.

(** ** [reconcile]: requests and results *)

Module reconcile.
Record NamespacedName : Type := mkNamespacedName {
  Namespace : string;
  Name : string
}.

Record Request : Type := mkRequest { Key : NamespacedName }.

(** [RequeueAfter] is a [time.Duration], in nanoseconds. *)
Record Result : Type := mkResult {
  Requeue : bool;
  RequeueAfter : Z
}.

(** [reconcile.Result{}] *)
Definition empty : Result := mkResult false 0.
End reconcile.

Module time.
Definition Second : Z := 1000000000.
End time.

(** ** [client]: the record store *)

Module client.
Import databasev1alpha2.

(** [get(key) -> record] and [update(record) -> error].  [Get] answers
    with the stored record or with an error. *)
Record Client : Type := mkClient {
  Get : reconcile.NamespacedName -> RDSInstance + error;
  Update : RDSInstance -> option error
}.
End client.

(** ** The state a reconciliation runs in *)

Import databasev1alpha2.

(** The calls made to the collaborators, with their arguments. *)
Inductive Call : Type :=
| CallGet (key : reconcile.NamespacedName)
| CallUpdate (obj : RDSInstance)
| CallResolveReferences (obj : RDSInstance)
| CallPublishConnection (obj : RDSInstance) (c : resource.ConnectionDetails)
| CallRetrieveAwsConfigFromProvider (ref : option ObjectReference)
| CallGeneratePassword (length : nat)
| CallCreateInstance (name password : string) (spec : RDSInstanceSpec)
| CallGetInstance (name : string)
| CallDeleteInstance (name : string).

(** [instance] is what the Go pointer [instance] points to; [calls] is the
    log of collaborator calls, oldest first. *)
Record State : Type := mkState {
  instance : RDSInstance;
  calls : list Call
}.

Definition M (A : Type) : Type := State -> A * State.

Definition ret {A : Type} (a : A) : M A := fun s => (a, s).

Definition bind {A B : Type} (m : M A) (k : A -> M B) : M B :=
  fun s => let (a, s') := m s in k a s'.

Declare Scope go_scope.
Delimit Scope go_scope with go.
Notation "x <- m ;; k" := (bind m (fun x => k))
  (at level 61, m at next level, right associativity) : go_scope.
Notation "m ;; k" := (bind m (fun _ => k))
  (at level 61, right associativity) : go_scope.
Open Scope go_scope.

(** Read, overwrite and update the record behind the pointer. *)
Definition load : M RDSInstance := fun s => (instance s, s).

Definition store (i : RDSInstance) : M unit :=
  fun s => (tt, mkState i (calls s)).

Definition modify (f : RDSInstance -> RDSInstance) : M unit :=
  fun s => (tt, mkState (f (instance s)) (calls s)).

(** A call to a collaborator: logged, answered with [answer]. *)
Definition call {A : Type} (c : Call) (answer : A) : M A :=
  fun s => (answer, mkState (instance s) (calls s ++ [c])).

(** ** The controller *)

Definition controllerName : string := "rds.aws.crossplane.io".
Definition finalizer : string := "finalizer." ++ controllerName.

(** Amounts of time we wait before requeuing a reconcile. *)
Definition aLongWait : Z := 60 * time.Second.

Definition errUpdateManagedStatus : string := "cannot update managed resource status".

Definition result : reconcile.Result := reconcile.mkResult false 0.
Definition resultRequeue : reconcile.Result := reconcile.mkResult true 0.

Definition Outcome : Type := reconcile.Result * option error.

(** The three interfaces embedded in the Go [Reconciler] struct. *)
Record Embedded : Type := mkEmbedded {
  Client : client.Client;
  ManagedReferenceResolver : resource.ManagedReferenceResolver;
  ManagedConnectionPublisher : resource.ManagedConnectionPublisher
}.

(** [Reconciler]: the embedded interfaces and the four function fields,
    which tests substitute.  The [*RDSInstance] argument of the function
    fields is the [instance] of the state. *)
Record Reconciler : Type := mkReconciler {
  embedded :> Embedded;
  connect : M (rds.Client + error);
  create : rds.Client -> M Outcome;
  sync : rds.Client -> M Outcome;
  delete : rds.Client -> M Outcome
}.

(** The promoted methods of the embedded interfaces, called on the current
    record. *)
Definition Get (r : Embedded) (key : reconcile.NamespacedName) : M (option error) :=
  answer <- call (CallGet key) (client.Get (Client r) key) ;;
  match answer with
  | inl fetched => store fetched ;; ret None
  | inr err => ret (Some err)
  end.

Definition Update (r : Embedded) : M (option error) :=
  i <- load ;;
  call (CallUpdate i) (client.Update (Client r) i).

Definition ResolveReferences (r : Embedded) : M (option error) :=
  i <- load ;;
  call (CallResolveReferences i)
       (resource.ResolveReferences (ManagedReferenceResolver r) i).

Definition PublishConnection (r : Embedded) (c : resource.ConnectionDetails) : M (option error) :=
  i <- load ;;
  call (CallPublishConnection i c)
       (resource.PublishConnection (ManagedConnectionPublisher r) i c).

(** fail - helper function to set fail condition with reason and message *)
Definition fail (r : Embedded) (err : error) : M Outcome :=
  modify (SetConditions [runtimev1alpha1.ReconcileError err]) ;;
  uerr <- Update r ;;
  ret (reconcile.mkResult true 0, uerr).

Section Controller.

(** Package-level functions of the packages the controller imports: the
    AWS configuration lookup of [utils], the client constructor of [rds],
    the password generator of [util]. *)
Variable Config : Type.
Variable RetrieveAwsConfigFromProvider : option ObjectReference -> Config + error.
Variable NewClient : Config -> rds.Client.
Variable GeneratePassword : nat -> string + error.

Definition _connect (r : Embedded) : M (rds.Client + error) :=
  i <- load ;;
  config <- call (CallRetrieveAwsConfigFromProvider (ProviderReference (Spec i)))
                 (RetrieveAwsConfigFromProvider (ProviderReference (Spec i))) ;;
  match config with
  | inr err => ret (inr err)
  | inl config => ret (inl (NewClient config))
  end.

Definition _create (r : Embedded) (client : rds.Client) : M Outcome :=
  modify (SetConditions [runtimev1alpha1.Creating]) ;;
  i <- load ;;
  let resourceName := Engine (Spec i) ++ "-" ++ UID (Meta i) in
  (* generate new password *)
  generated <- call (CallGeneratePassword 20) (GeneratePassword 20) ;;
  match generated with
  | inr err => fail r err
  | inl password =>
    (* Create DB Instance *)
    err <- call (CallCreateInstance resourceName password (Spec i))
                (rds.CreateInstance client resourceName password (Spec i)) ;;
    match resource.Ignore rds.IsErrorAlreadyExists err with
    | Some err => fail r err
    | None =>
      published <-
        (if negb (rds.IsErrorAlreadyExists err) then
           PublishConnection r
             [(runtimev1alpha1.ResourceCredentialsSecretUserKey, MasterUsername (Spec i));
              (runtimev1alpha1.ResourceCredentialsSecretPasswordKey, password)]
         else ret None) ;;
      match published with
      | Some err => fail r err
      | None =>
        modify (withStatus (setInstanceName resourceName)) ;;
        modify (meta.AddFinalizer finalizer) ;;
        modify (SetConditions [runtimev1alpha1.ReconcileSuccess]) ;;
        uerr <- Update r ;;
        ret (resultRequeue, uerr)
      end
    end
  end.

Definition _sync (r : Embedded) (client : rds.Client) : M Outcome :=
  (* Search for the RDS instance in AWS *)
  i <- load ;;
  answer <- call (CallGetInstance (InstanceName (Status i)))
                 (rds.GetInstance client (InstanceName (Status i))) ;;
  match answer with
  | inr err => fail r err
  | inl db =>
    (* Save resource status *)
    modify (withStatus (setState (rds.Status db))) ;;
    modify (withStatus (setEndpoint (rds.Endpoint db))) ;;
    modify (withStatus (setProviderID (rds.ARN db))) ;;
    if rds.Status db =? RDSInstanceStateCreating then
      modify (SetConditions [runtimev1alpha1.Creating; runtimev1alpha1.ReconcileSuccess]) ;;
      uerr <- Update r ;;
      ret (resultRequeue, uerr)
    else if rds.Status db =? RDSInstanceStateFailed then
      modify (SetConditions [runtimev1alpha1.Unavailable; runtimev1alpha1.ReconcileSuccess]) ;;
      uerr <- Update r ;;
      ret (result, uerr)
    else if rds.Status db =? RDSInstanceStateAvailable then
      modify (SetConditions [runtimev1alpha1.Available]) ;;
      modify resource.SetBindable ;;
      (* after the switch *)
      i <- load ;;
      published <-
        PublishConnection r
          [(runtimev1alpha1.ResourceCredentialsSecretUserKey, MasterUsername (Spec i));
           (runtimev1alpha1.ResourceCredentialsSecretEndpointKey, Endpoint (Status i))] ;;
      match published with
      | Some err => fail r err
      | None =>
        modify (SetConditions [runtimev1alpha1.ReconcileSuccess]) ;;
        uerr <- Update r ;;
        ret (result, uerr)
      end
    else
      fail r (errors.Errorf ("unexpected resource status: " ++ rds.Status db))
  end.

Definition _delete (r : Embedded) (client : rds.Client) : M Outcome :=
  modify (SetConditions [runtimev1alpha1.Deleting]) ;;
  i <- load ;;
  failed <-
    (if ReclaimPolicy (Spec i) =? runtimev1alpha1.ReclaimDelete then
       err <- call (CallDeleteInstance (InstanceName (Status i)))
                   (rds.DeleteInstance client (InstanceName (Status i))) ;;
       ret (if negb (rds.IsErrorNotFound err) then err else None)
     else ret None) ;;
  match failed with
  | Some err => fail r err
  | None =>
    modify (meta.RemoveFinalizer finalizer) ;;
    modify (SetConditions [runtimev1alpha1.ReconcileSuccess]) ;;
    uerr <- Update r ;;
    ret (result, uerr)
  end.

(** Lines 225-238 of [Reconcile]: reference resolution.  [Some] is the
    early return of the failure branch, [None] falls through to the phase
    selection. *)
Definition resolveReferences (r : Embedded) : M (option Outcome) :=
  i <- load ;;
  if negb (resource.IsConditionTrue
             (GetCondition i runtimev1alpha1.TypeReferencesResolved)) then
    err <- ResolveReferences r ;;
    match err with
    | Some err =>
      let condition :=
        if resource.IsReferencesAccessError err
        then runtimev1alpha1.ReferenceResolutionBlocked err
        else runtimev1alpha1.ReconcileError err in
      modify (SetConditions [condition]) ;;
      uerr <- Update r ;;
      ret (Some (reconcile.mkResult false aLongWait,
                 errors.Wrap uerr errUpdateManagedStatus))
    | None =>
      (* Add ReferenceResolutionSuccess to the conditions *)
      modify (SetConditions [runtimev1alpha1.ReferenceResolutionSuccess]) ;;
      ret None
    end
  else ret None.

(** Reconcile reads that state of the cluster for a Instance object and
    makes changes based on the state read and what is in the Instance.Spec *)
Definition Reconcile (r : Reconciler) (request : reconcile.Request) : M Outcome :=
  (* Fetch the CRD instance *)
  store zero ;;
  err <- Get r (reconcile.Key request) ;;
  match err with
  | Some err =>
    if kerrors.IsNotFound err then ret (reconcile.empty, None)
    else ret (reconcile.empty, Some err)
  | None =>
    connected <- connect r ;;
    match connected with
    | inr err => fail r err
    | inl rdsClient =>
      returned <- resolveReferences r ;;
      match returned with
      | Some out => ret out
      | None =>
        i <- load ;;
        (* Check for deletion *)
        if negb (isNil (DeletionTimestamp (Meta i))) then delete r rdsClient
        (* Create cluster instance *)
        else if InstanceName (Status i) =? "" then create r rdsClient
        (* Sync cluster instance status with cluster status *)
        else sync r rdsClient
      end
    end
  end.

(** The reconciler [SetupWithManager] registers: the function fields are
    the reconciler's own methods.  [e] stands for the client, resolver and
    publisher obtained from the manager. *)
Definition SetupWithManager (e : Embedded) : Reconciler :=
  mkReconciler e (_connect e) (_create e) (_sync e) (_delete e).

End Controller.

(** ** Notions the statements are written with *)

(** The external resource name the create phase derives for a record. *)
Definition nameOf (i : RDSInstance) : string :=
  Engine (Spec i) ++ "-" ++ UID (Meta i).

(** The record once the create phase has written its first condition. *)
Definition creating (i : RDSInstance) : RDSInstance :=
  SetConditions [runtimev1alpha1.Creating] i.

(** The record carries condition [c]: [c] is the entry for its type. *)
Definition HasCondition (i : RDSInstance) (c : runtimev1alpha1.Condition) : Prop :=
  GetCondition i (runtimev1alpha1.Type_ c) = c.

(** The phase selection of lines 240-251, on the state reached there. *)
Definition selected (r : Reconciler) (rdsClient : rds.Client) (s : State) : Outcome * State :=
  match DeletionTimestamp (Meta (instance s)) with
  | Some _ => delete r rdsClient s
  | None =>
    if InstanceName (Status (instance s)) =? ""
    then create r rdsClient s
    else sync r rdsClient s
  end.

(** The state in which [connect] runs: the fetched record, the fetch logged. *)
Definition fetchedState (request : reconcile.Request) (fetched : RDSInstance) (s : State) : State :=
  mkState fetched (calls s ++ [CallGet (reconcile.Key request)]).

(** The reconciler with its create phase replaced. *)
Definition withCreate (r : Reconciler) (create' : rds.Client -> M Outcome) : Reconciler :=
  mkReconciler r (connect r) create' (sync r) (delete r).

(** The connection details handed to the publisher, oldest first. *)
Definition published (l : list Call) : list resource.ConnectionDetails :=
  flat_map (fun c => match c with CallPublishConnection _ d => [d] | _ => [] end) l.

(** The names handed to the provider's delete, oldest first. *)
Definition providerDeletes (l : list Call) : list string :=
  flat_map (fun c => match c with CallDeleteInstance n => [n] | _ => [] end) l.

(** The records handed to the store's update, oldest first. *)
Definition persisted (l : list Call) : list RDSInstance :=
  flat_map (fun c => match c with CallUpdate i => [i] | _ => [] end) l.

(** Unfolding of the monadic plumbing. *)
Ltac run :=
  unfold fail, Update, PublishConnection, ResolveReferences,
         bind, ret, load, store, modify, call;
  simpl.

(** The records the collaborators were shown, oldest first. *)
Definition shown (l : list Call) : list RDSInstance :=
  flat_map (fun c => match c with
                     | CallUpdate i | CallResolveReferences i | CallPublishConnection i _ => [i]
                     | _ => []
                     end) l.

(** The connection details the create phase publishes. *)
Definition credentials (i : RDSInstance) (password : string) : resource.ConnectionDetails :=
  [(runtimev1alpha1.ResourceCredentialsSecretUserKey, MasterUsername (Spec i));
   (runtimev1alpha1.ResourceCredentialsSecretPasswordKey, password)].

(** The record a successful create phase leaves. *)
Definition created (i : RDSInstance) : RDSInstance :=
  SetConditions [runtimev1alpha1.ReconcileSuccess]
    (meta.AddFinalizer finalizer
       (withStatus (setInstanceName (Engine (Spec i) ++ "-" ++ UID (Meta i)))
          (SetConditions [runtimev1alpha1.Creating] i))).

(** The record a failed create phase leaves. *)
Definition createFailed (i : RDSInstance) (err : error) : RDSInstance :=
  SetConditions [runtimev1alpha1.ReconcileError err]
    (SetConditions [runtimev1alpha1.Creating] i).

(** The record once the external state, endpoint and provider identifier
    have been copied into its status. *)
Definition observed (i : RDSInstance) (db : rds.Instance) : RDSInstance :=
  withStatus (setProviderID (rds.ARN db))
    (withStatus (setEndpoint (rds.Endpoint db))
       (withStatus (setState (rds.Status db)) i)).

(** The connection details the sync phase publishes. *)
Definition connection (i : RDSInstance) (db : rds.Instance) : resource.ConnectionDetails :=
  [(runtimev1alpha1.ResourceCredentialsSecretUserKey, MasterUsername (Spec i));
   (runtimev1alpha1.ResourceCredentialsSecretEndpointKey, rds.Endpoint db)].

(** The available record as the publisher is shown it. *)
Definition ready (i : RDSInstance) (db : rds.Instance) : RDSInstance :=
  resource.SetBindable (SetConditions [runtimev1alpha1.Available] (observed i db)).

(** A record with the provider's view copied into its status, the given
    conditions and bindable mark, and everything else as in [i]. *)
Definition synced (i : RDSInstance) (db : rds.Instance)
           (conditions : list runtimev1alpha1.Condition) (bindable : bool) : RDSInstance :=
  mkRDSInstance (Meta i) (Spec i)
    (mkRDSInstanceStatus conditions bindable (rds.Status db) (rds.Endpoint db) (rds.ARN db)
                         (InstanceName (Status i))).

(** The record a completed delete phase leaves. *)
Definition released (i : RDSInstance) : RDSInstance :=
  SetConditions [runtimev1alpha1.ReconcileSuccess]
    (meta.RemoveFinalizer finalizer (SetConditions [runtimev1alpha1.Deleting] i)).

(** The record a failed delete phase leaves. *)
Definition deleteFailed (i : RDSInstance) (err : error) : RDSInstance :=
  SetConditions [runtimev1alpha1.ReconcileError err]
    (SetConditions [runtimev1alpha1.Deleting] i).

(** Whether the record's ReferencesResolved condition is true. *)
Definition referencesResolved (i : RDSInstance) : bool :=
  resource.IsConditionTrue (GetCondition i runtimev1alpha1.TypeReferencesResolved).

(** The condition a failed resolution is reported with. *)
Definition resolutionFailure (err : error) : runtimev1alpha1.Condition :=
  if resource.IsReferencesAccessError err
  then runtimev1alpha1.ReferenceResolutionBlocked err
  else runtimev1alpha1.ReconcileError err.

(** The reconciler with its three phases replaced. *)
Definition withPhases (r : Reconciler) (create' sync' delete' : rds.Client -> M Outcome) : Reconciler :=
  mkReconciler r (connect r) create' sync' delete'.

(** A computation that leaves the record's deletion timestamp as it found
    it, from every state. *)
Definition keepsDeletionTimestamp {A : Type} (m : M A) : Prop :=
  forall s, DeletionTimestamp (Meta (instance (snd (m s)))) = DeletionTimestamp (Meta (instance s)).

(** ** A concrete world

    A record, a provider client and collaborators that answer with fixed
    values; the statements below are instantiated on them. *)

Module World.

Definition providerRef : ObjectReference := mkObjectReference "crossplane-system" "aws".

Definition fresh : RDSInstance :=
  mkRDSInstance
    (mkObjectMeta "default" "db" "7c1e" None [])
    (mkRDSInstanceSpec (Some providerRef) runtimev1alpha1.ReclaimDelete "admin" "postgres")
    (mkRDSInstanceStatus [] false "" "" "" "").

(** [fresh] after a successful create phase. *)
Definition provisioned : RDSInstance :=
  withStatus (setInstanceName "postgres-7c1e") (meta.AddFinalizer finalizer fresh).

Definition deleted (i : RDSInstance) : RDSInstance :=
  withMeta (fun m => mkObjectMeta (Namespace m) (Name m) (UID m) (Some 1572480000%Z) (Finalizers m)) i.

Definition retained (i : RDSInstance) : RDSInstance :=
  mkRDSInstance (Meta i)
    (mkRDSInstanceSpec (ProviderReference (Spec i)) runtimev1alpha1.ReclaimRetain
                       (MasterUsername (Spec i)) (Engine (Spec i)))
    (Status i).

Definition key : reconcile.NamespacedName := reconcile.mkNamespacedName "default" "db".
Definition request : reconcile.Request := reconcile.mkRequest key.

Definition boom (c : ErrorClass) : error := mkError c "boom".

Definition db (status : string) : rds.Instance :=
  rds.mkInstance "postgres-7c1e" "arn:aws:rds:db" status "db.example.com:5432".

(** A provider whose calls answer as given. *)
Definition provider (created : option error) (got : rds.Instance + error)
           (removed : option error) : rds.Client :=
  rds.mkClient (fun _ _ _ => created) (fun _ => got) (fun _ => removed).

Definition healthy : rds.Client := provider None (inl (db "available")) None.

(** Collaborators: the store holds [stored] (or fails with [missing]),
    resolution and publishing answer as given, updates succeed. *)
Definition collaborators (stored : RDSInstance + error)
           (resolved published : option error) : Embedded :=
  mkEmbedded
    (client.mkClient (fun _ => stored) (fun _ => None))
    (resource.mkManagedReferenceResolver (fun _ => resolved))
    (resource.mkManagedConnectionPublisher (fun _ _ => published)).

Definition Config : Type := unit.
Definition RetrieveAwsConfigFromProvider (ref : option ObjectReference) : Config + error :=
  match ref with
  | Some _ => inl tt
  | None => inr (boom Unclassified)
  end.
Definition GeneratePassword (n : nat) : string + error := inl "s3cr3t-s3cr3t-s3cr3t".

(** The reconciler as [SetupWithManager] wires it, over the given
    collaborators and provider. *)
Definition reconciler (e : Embedded) (p : rds.Client) : Reconciler :=
  SetupWithManager Config RetrieveAwsConfigFromProvider (fun _ => p) GeneratePassword e.

Definition start (i : RDSInstance) : State := mkState i [].

(** A password generator that fails. *)
Definition noEntropy (n : nat) : string + error := inr (boom Unclassified).


(** A store that holds [fresh] and a resolver that is denied access. *)
Definition blocked : Reconciler :=
  reconciler (collaborators (inl fresh) (Some (boom ReferencesAccess)) None) healthy.
Definition blockedConnected : State :=
  snd (connect blocked (fetchedState request fresh (start zero))).

(** A store that has no record under the key. *)
Definition gone : Reconciler :=
  reconciler (collaborators (inr (boom KubeNotFound)) None None) healthy.

(** A store that holds a provisioned record marked for deletion. *)
Definition leaving : Reconciler :=
  reconciler (collaborators (inl (deleted provisioned)) None None) healthy.

(** Providers that answer create and delete with a classified error. *)
Definition taken : rds.Client := provider (Some (boom RDSAlreadyExists)) (inl (db "creating")) None.
Definition broken : rds.Client := provider (Some (boom Unclassified)) (inr (boom Unclassified)) None.
Definition vanished : rds.Client := provider None (inr (boom RDSNotFound)) (Some (boom RDSNotFound)).

(** Collaborators that succeed, and collaborators whose publisher fails. *)
Definition willing : Embedded := collaborators (inl provisioned) None None.
Definition mute : Embedded := collaborators (inl provisioned) None (Some (boom Unclassified)).

End World.

(** ** Notions of the statements on the whole controller *)

(** A computation that leaves a projection of the record as it found it,
    from every state. *)
Definition keeps {A B : Type} (proj : RDSInstance -> B) (m : M A) : Prop :=
  forall s, proj (instance (snd (m s))) = proj (instance s).

(** The calls to the provider client in a log, oldest first. *)
Definition providerCalls (l : list Call) : list Call :=
  filter (fun c => match c with
                   | CallCreateInstance _ _ _ | CallGetInstance _ | CallDeleteInstance _ => true
                   | _ => false
                   end) l.

(** The calls to the reference resolver in a log. *)
Definition resolverCalls (l : list Call) : list RDSInstance :=
  flat_map (fun c => match c with CallResolveReferences i => [i] | _ => [] end) l.

(** How a phase ends when it persists: the calls [pre], then the update of
    the record [i'] it leaves, whose answer it returns next to [res]. *)
Definition finishes (r : Embedded) (s : State) (pre : list Call)
           (res : reconcile.Result) (i' : RDSInstance) : Outcome * State :=
  ((res, client.Update (Client r) i'), mkState i' (calls s ++ pre ++ [CallUpdate i'])).

(** An outcome that persisted exactly once since [s]: the update is the last
    call, it was shown the record the phase leaves, and its answer is the
    error returned. *)
Definition persistedOnce (r : Embedded) (s : State) (out : Outcome * State) : Prop :=
  (exists earlier, calls (snd out) = (earlier ++ [CallUpdate (instance (snd out))])%list)
  /\ persisted (calls (snd out)) = (persisted (calls s) ++ [instance (snd out)])%list
  /\ snd (fst out) = client.Update (Client r) (instance (snd out)).

(** The part of the status only the sync phase writes. *)
Definition externalView (i : RDSInstance) : string * string * string * bool :=
  (databasev1alpha2.State (Status i), Endpoint (Status i), ProviderID (Status i),
   Bindable (Status i)).

(** Calls that stay within one call to the provider, one to the publisher,
    one to the resolver and one update. *)
Definition frugal (l : list Call) : Prop :=
  length (providerCalls l) <= 1
  /\ length (published l) <= 1
  /\ length (resolverCalls l) <= 1
  /\ length (persisted l) <= 1.

(** ** [v1alpha1]: the generated deep copies of the AKS cluster spec

    The Go code copies structs that hold pointers.  Memory is a heap of
    cells, one store per pointed-to type; [new] adds a cell holding the zero
    value at the end of a store.  A pointer is nil or an address: the index
    of a cell in the store of its type or, for a pointer to a
    [v1.LocalObjectReference], also the [ProviderRef] field of a spec cell,
    as Go's [&spec.ProviderRef] gives it.  Dereferencing nil panics: a
    computation on the heap may fail. *)

Module v1alpha1.

Section DeepCopy.

(** The value types of the fields, declared outside the sources, with
    their Go zero values: [v1.ObjectReference], [v1.LocalObjectReference],
    and the fields of [AKSClusterSpec] that are no pointers and that the
    copy functions do not name. *)
Context {ObjectReference LocalObjectReference Plain : Type}.
Variable zeroObjectReference : ObjectReference.
Variable zeroLocalObjectReference : LocalObjectReference.
Variable zeroPlain : Plain.

(** A pointer to an [int] or to a [v1.ObjectReference]: nil, or the index
    of a cell. *)
Definition Ptr : Type := option nat.

(** Where a [v1.LocalObjectReference] can be: in a cell of its store, or in
    the [ProviderRef] field of the spec in a cell of the spec store. *)
Inductive LocalAddr : Type :=
| Cell (a : nat)
| ProviderRefOf (a : nat).

(** A pointer to a [v1.LocalObjectReference]: nil, or an address. *)
Definition LocalPtr : Type := option LocalAddr.

(** [AKSClusterSpec], as far as the copy functions show it: the pointer
    fields they name, the [ProviderRef] they assign, and the rest. *)
Record AKSClusterSpec : Type := mkAKSClusterSpec {
  Fields : Plain;
  NodeCount : Ptr;                   (* *int *)
  ClaimRef : Ptr;                    (* *v1.ObjectReference *)
  ClassRef : Ptr;                    (* *v1.ObjectReference *)
  ConnectionSecretRef : LocalPtr;    (* *v1.LocalObjectReference *)
  ProviderRef : LocalObjectReference
}.

Definition zeroAKSClusterSpec : AKSClusterSpec :=
  mkAKSClusterSpec zeroPlain None None None None zeroLocalObjectReference.

Definition withNodeCount (p : Ptr) (v : AKSClusterSpec) : AKSClusterSpec :=
  mkAKSClusterSpec (Fields v) p (ClaimRef v) (ClassRef v) (ConnectionSecretRef v) (ProviderRef v).

Definition withClaimRef (p : Ptr) (v : AKSClusterSpec) : AKSClusterSpec :=
  mkAKSClusterSpec (Fields v) (NodeCount v) p (ClassRef v) (ConnectionSecretRef v) (ProviderRef v).

Definition withClassRef (p : Ptr) (v : AKSClusterSpec) : AKSClusterSpec :=
  mkAKSClusterSpec (Fields v) (NodeCount v) (ClaimRef v) p (ConnectionSecretRef v) (ProviderRef v).

Definition withConnectionSecretRef (p : LocalPtr) (v : AKSClusterSpec) : AKSClusterSpec :=
  mkAKSClusterSpec (Fields v) (NodeCount v) (ClaimRef v) (ClassRef v) p (ProviderRef v).

Definition withProviderRef (r : LocalObjectReference) (v : AKSClusterSpec) : AKSClusterSpec :=
  mkAKSClusterSpec (Fields v) (NodeCount v) (ClaimRef v) (ClassRef v) (ConnectionSecretRef v) r.

Record Heap : Type := mkHeap {
  ints : list Z;
  references : list ObjectReference;
  locals : list LocalObjectReference;
  specs : list AKSClusterSpec
}.

(** Overwrite the cell at an index; a list has no cell past its end. *)
Fixpoint set {T : Type} (l : list T) (n : nat) (v : T) : list T :=
  match l, n with
  | [], _ => []
  | _ :: rest, O => v :: rest
  | x :: rest, S n' => x :: set rest n' v
  end.

(** Computations on the heap; [None] is a panic. *)
Definition Mem (A : Type) : Type := Heap -> option (A * Heap).

Definition retM {A : Type} (a : A) : Mem A := fun h => Some (a, h).

Definition bindM {A B : Type} (m : Mem A) (k : A -> Mem B) : Mem B :=
  fun h => match m h with
           | Some (a, h') => k a h'
           | None => None
           end.

Declare Scope mem_scope.
Notation "x <- m ;; k" := (bindM m (fun x => k))
  (at level 61, m at next level, right associativity) : mem_scope.
Notation "m ;; k" := (bindM m (fun _ => k))
  (at level 61, right associativity) : mem_scope.
Local Open Scope list_scope.
Local Open Scope nat_scope.
Local Open Scope mem_scope.

(** The address a pointer holds; nil has none. *)
Definition deref {A : Type} (p : option A) : Mem A :=
  fun h => match p with Some a => Some (a, h) | None => None end.

Definition getSpec (a : nat) : Mem AKSClusterSpec :=
  fun h => match nth_error (specs h) a with Some v => Some (v, h) | None => None end.

Definition putSpec (a : nat) (v : AKSClusterSpec) : Mem unit :=
  fun h => if a <? length (specs h)
           then Some (tt, mkHeap (ints h) (references h) (locals h) (set (specs h) a v))
           else None.

Definition newSpec : Mem nat :=
  fun h => Some (length (specs h),
                 mkHeap (ints h) (references h) (locals h) (specs h ++ [zeroAKSClusterSpec])).

Definition getInt (a : nat) : Mem Z :=
  fun h => match nth_error (ints h) a with Some v => Some (v, h) | None => None end.

Definition putInt (a : nat) (v : Z) : Mem unit :=
  fun h => if a <? length (ints h)
           then Some (tt, mkHeap (set (ints h) a v) (references h) (locals h) (specs h))
           else None.

Definition newInt : Mem nat :=
  fun h => Some (length (ints h),
                 mkHeap (ints h ++ [0%Z]) (references h) (locals h) (specs h)).

Definition getReference (a : nat) : Mem ObjectReference :=
  fun h => match nth_error (references h) a with Some v => Some (v, h) | None => None end.

Definition putReference (a : nat) (v : ObjectReference) : Mem unit :=
  fun h => if a <? length (references h)
           then Some (tt, mkHeap (ints h) (set (references h) a v) (locals h) (specs h))
           else None.

Definition newReference : Mem nat :=
  fun h => Some (length (references h),
                 mkHeap (ints h) (references h ++ [zeroObjectReference]) (locals h) (specs h)).

(** The [v1.LocalObjectReference] at an address, on a heap. *)
Definition localAt (h : Heap) (t : LocalAddr) : option LocalObjectReference :=
  match t with
  | Cell a => nth_error (locals h) a
  | ProviderRefOf a => option_map ProviderRef (nth_error (specs h) a)
  end.

Definition getLocal (t : LocalAddr) : Mem LocalObjectReference :=
  fun h => match localAt h t with Some v => Some (v, h) | None => None end.

Definition putLocal (t : LocalAddr) (v : LocalObjectReference) : Mem unit :=
  fun h => match t with
           | Cell a =>
             if a <? length (locals h)
             then Some (tt, mkHeap (ints h) (references h) (set (locals h) a v) (specs h))
             else None
           | ProviderRefOf a =>
             match nth_error (specs h) a with
             | Some c => Some (tt, mkHeap (ints h) (references h) (locals h)
                                          (set (specs h) a (withProviderRef v c)))
             | None => None
             end
           end.

Definition newLocal : Mem LocalAddr :=
  fun h => Some (Cell (length (locals h)),
                 mkHeap (ints h) (references h) (locals h ++ [zeroLocalObjectReference]) (specs h)).

(** DeepCopyInto is an autogenerated deepcopy function, copying the
    receiver, writing into out. in must be non-nil.  [from] and [to] are
    the Go pointers [in] and [out]. *)
Definition DeepCopyInto (from to : Ptr) : Mem unit :=
  src <- deref from ;;
  out <- deref to ;;
  (* *out = *in *)
  v <- getSpec src ;; putSpec out v ;;
  i <- getSpec src ;;
  (if isNil (NodeCount i) then retM tt else
     (* in, out := &in.NodeCount, &out.NodeCount; *out = new(int) *)
     p <- newInt ;;
     o <- getSpec out ;; putSpec out (withNodeCount (Some p) o) ;;
     (* **out = **in *)
     o <- getSpec out ;; target <- deref (NodeCount o) ;;
     i <- getSpec src ;; source <- deref (NodeCount i) ;;
     x <- getInt source ;; putInt target x) ;;
  i <- getSpec src ;;
  (if isNil (ClaimRef i) then retM tt else
     p <- newReference ;;
     o <- getSpec out ;; putSpec out (withClaimRef (Some p) o) ;;
     o <- getSpec out ;; target <- deref (ClaimRef o) ;;
     i <- getSpec src ;; source <- deref (ClaimRef i) ;;
     x <- getReference source ;; putReference target x) ;;
  i <- getSpec src ;;
  (if isNil (ClassRef i) then retM tt else
     p <- newReference ;;
     o <- getSpec out ;; putSpec out (withClassRef (Some p) o) ;;
     o <- getSpec out ;; target <- deref (ClassRef o) ;;
     i <- getSpec src ;; source <- deref (ClassRef i) ;;
     x <- getReference source ;; putReference target x) ;;
  i <- getSpec src ;;
  (if isNil (ConnectionSecretRef i) then retM tt else
     p <- newLocal ;;
     o <- getSpec out ;; putSpec out (withConnectionSecretRef (Some p) o) ;;
     o <- getSpec out ;; target <- deref (ConnectionSecretRef o) ;;
     i <- getSpec src ;; source <- deref (ConnectionSecretRef i) ;;
     x <- getLocal source ;; putLocal target x) ;;
  (* out.ProviderRef = in.ProviderRef *)
  i <- getSpec src ;;
  o <- getSpec out ;; putSpec out (withProviderRef (ProviderRef i) o).

(** DeepCopy is an autogenerated deepcopy function, copying the receiver,
    creating a new AKSClusterSpec. *)
Definition DeepCopy (src : Ptr) : Mem Ptr :=
  match src with
  | None => retM None
  | Some _ =>
    out <- newSpec ;;
    DeepCopyInto src (Some out) ;;
    retM (Some out)
  end.

(** What a pointer points to: nothing for nil, the cell's content
    otherwise; no answer for an index past the store. *)
Definition pointee {T : Type} (cells : list T) (p : Ptr) : option (option T) :=
  match p with
  | None => Some None
  | Some a => match nth_error cells a with Some v => Some (Some v) | None => None end
  end.

Definition localPointee (h : Heap) (p : LocalPtr) : option (option LocalObjectReference) :=
  match p with
  | None => Some None
  | Some t => match localAt h t with Some v => Some (Some v) | None => None end
  end.

(** A spec as a value: every pointer replaced by what it points to. *)
Record Value : Type := mkValue {
  vFields : Plain;
  vNodeCount : option Z;
  vClaimRef : option ObjectReference;
  vClassRef : option ObjectReference;
  vConnectionSecretRef : option LocalObjectReference;
  vProviderRef : LocalObjectReference
}.

Definition value (h : Heap) (a : nat) : option Value :=
  match nth_error (specs h) a with
  | None => None
  | Some v =>
    match pointee (ints h) (NodeCount v), pointee (references h) (ClaimRef v),
          pointee (references h) (ClassRef v), localPointee h (ConnectionSecretRef v) with
    | Some n, Some c, Some k, Some s => Some (mkValue (Fields v) n c k s (ProviderRef v))
    | _, _, _, _ => None
    end
  end.

(** Go has no dangling pointers: every pointer of every spec on the heap is
    nil or an address on the heap. *)
Definition inStore {T : Type} (cells : list T) (p : Ptr) : bool :=
  match p with None => true | Some a => a <? length cells end.

Definition localInHeap (h : Heap) (p : LocalPtr) : bool :=
  match p with
  | None => true
  | Some (Cell a) => a <? length (locals h)
  | Some (ProviderRefOf a) => a <? length (specs h)
  end.

Definition specInHeap (h : Heap) (v : AKSClusterSpec) : bool :=
  inStore (ints h) (NodeCount v) && inStore (references h) (ClaimRef v)
  && inStore (references h) (ClassRef v) && localInHeap h (ConnectionSecretRef v).

Definition wellFormed (h : Heap) : bool := forallb (specInHeap h) (specs h).

(** The spec has a pointer into the spec cell [out]: its connection secret
    is the [ProviderRef] field of that cell. *)
Definition pointsInto (v : AKSClusterSpec) (out : nat) : bool :=
  match ConnectionSecretRef v with
  | Some (ProviderRefOf b) => b =? out
  | _ => false
  end.

(** The second heap holds every cell of the first, at the same index and
    with the same content, but for the spec cell [out]. *)
Definition keepsCells (out : nat) (h h' : Heap) : Prop :=
  (exists more, ints h' = ints h ++ more)
  /\ (exists more, references h' = references h ++ more)
  /\ (exists more, locals h' = locals h ++ more)
  /\ (forall b, b <> out -> b < length (specs h) ->
                nth_error (specs h') b = nth_error (specs h) b).

(** A pointer of a copy is nil or names a cell that was not in the store
    before the copy. *)
Definition newIn {T : Type} (cells : list T) (p : Ptr) : Prop :=
  match p with None => True | Some a => length cells <= a end.

Definition newLocalIn (h : Heap) (p : LocalPtr) : Prop :=
  match p with
  | None => True
  | Some (Cell a) => length (locals h) <= a
  | Some (ProviderRefOf _) => False
  end.

Definition sharesNothing (h : Heap) (v : AKSClusterSpec) : Prop :=
  newIn (ints h) (NodeCount v) /\ newIn (references h) (ClaimRef v)
  /\ newIn (references h) (ClassRef v) /\ newLocalIn h (ConnectionSecretRef v).

(** The cell a copy of [p]'s target takes, and the pointer to it. *)
Definition copyCell {T : Type} (cells : list T) (zero : T) (p : Ptr) : list T :=
  match p with Some a => [nth a cells zero] | None => [] end.

Definition freshPtr {T : Type} (cells : list T) (p : Ptr) : Ptr :=
  match p with Some _ => Some (length cells) | None => None end.

Definition freshLocal (h : Heap) (p : LocalPtr) : LocalPtr :=
  match p with Some _ => Some (Cell (length (locals h))) | None => None end.

(** The cell the copy of the connection secret takes when the spec [i] is
    copied into the cell [out]: what the pointer of [i] points to once [i]
    has been assigned to [out]. *)
Definition copyLocal (h : Heap) (i : AKSClusterSpec) (out : nat) : list LocalObjectReference :=
  match ConnectionSecretRef i with
  | None => []
  | Some (Cell a) => [nth a (locals h) zeroLocalObjectReference]
  | Some (ProviderRefOf b) =>
    [if b =? out then ProviderRef i else ProviderRef (nth b (specs h) zeroAKSClusterSpec)]
  end.

(** The heap [DeepCopyInto] leaves when it copies the spec [i] into the
    cell [out], another cell than the one [i] is in. *)
Definition copiedInto (h : Heap) (i : AKSClusterSpec) (out : nat) : Heap :=
  let claims := references h ++ copyCell (references h) zeroObjectReference (ClaimRef i) in
  mkHeap
    (ints h ++ copyCell (ints h) 0%Z (NodeCount i))
    (claims ++ copyCell (references h) zeroObjectReference (ClassRef i))
    (locals h ++ copyLocal h i out)
    (set (specs h) out
         (mkAKSClusterSpec (Fields i)
            (freshPtr (ints h) (NodeCount i))
            (freshPtr (references h) (ClaimRef i))
            (freshPtr claims (ClassRef i))
            (freshLocal h (ConnectionSecretRef i))
            (ProviderRef i))).

(** The heap [DeepCopyInto] leaves when [in] and [out] are the same
    pointer, to the cell [a] that holds [i]. *)
Definition zeroCell {A T : Type} (zero : T) (p : option A) : list T :=
  match p with Some _ => [zero] | None => [] end.

Definition copiedOntoItself (h : Heap) (i : AKSClusterSpec) (a : nat) : Heap :=
  let claims := references h ++ zeroCell zeroObjectReference (ClaimRef i) in
  mkHeap
    (ints h ++ zeroCell 0%Z (NodeCount i))
    (claims ++ zeroCell zeroObjectReference (ClassRef i))
    (locals h ++ zeroCell zeroLocalObjectReference (ConnectionSecretRef i))
    (set (specs h) a
         (mkAKSClusterSpec (Fields i)
            (freshPtr (ints h) (NodeCount i))
            (freshPtr (references h) (ClaimRef i))
            (freshPtr claims (ClassRef i))
            (freshLocal h (ConnectionSecretRef i))
            (ProviderRef i))).

(** The connection secret of [i] after [i] was copied into the cell [out],
    seen from the original and from the copy: what it was, unless the
    original pointed into the target cell, whose [ProviderRef] the copy has
    overwritten. *)
Definition secretAfter (h : Heap) (i : AKSClusterSpec) (out : nat)
  : option (option LocalObjectReference) :=
  if pointsInto i out then Some (Some (ProviderRef i))
  else localPointee h (ConnectionSecretRef i).

(** A value with everything its pointers point to replaced by the zero
    value. *)
Definition zeroed (v : Value) : Value :=
  mkValue (vFields v)
          (option_map (fun _ => 0%Z) (vNodeCount v))
          (option_map (fun _ => zeroObjectReference) (vClaimRef v))
          (option_map (fun _ => zeroObjectReference) (vClassRef v))
          (option_map (fun _ => zeroLocalObjectReference) (vConnectionSecretRef v))
          (vProviderRef v).

(** A value with another connection secret. *)
Definition withSecret (s : option LocalObjectReference) (v : Value) : Value :=
  mkValue (vFields v) (vNodeCount v) (vClaimRef v) (vClassRef v) s (vProviderRef v).

End DeepCopy.

End v1alpha1.

(** ** A concrete heap *)

Module Cluster.

(** The value types are strings here, with the empty string for zero. *)
Definition Heap : Type := @v1alpha1.Heap string string string.

Definition DeepCopyInto : v1alpha1.Ptr -> v1alpha1.Ptr -> v1alpha1.Mem unit :=
  @v1alpha1.DeepCopyInto string string string "" "".

Definition DeepCopy : v1alpha1.Ptr -> v1alpha1.Mem v1alpha1.Ptr :=
  @v1alpha1.DeepCopy string string string "" "" "".

(** Cell 0 holds a spec with a node count, a claim and a connection secret
    and no class; cell 1 holds the zero spec. *)
Definition heap : Heap :=
  v1alpha1.mkHeap [3%Z] ["claim"] ["secret"]
    [v1alpha1.mkAKSClusterSpec "aks" (Some 0) (Some 0) None (Some (v1alpha1.Cell 0)) "provider";
     v1alpha1.zeroAKSClusterSpec "" ""].

(** What cell 0 holds, as a value. *)
Definition original : @v1alpha1.Value string string string :=
  v1alpha1.mkValue "aks" (Some 3%Z) (Some "claim") None (Some "secret") "provider".

(** The heap after [DeepCopy] of cell 0: the copy is in cell 2 and points
    to cell 1 of each store. *)
Definition copied : Heap :=
  v1alpha1.mkHeap [3%Z; 3%Z] ["claim"; "claim"] ["secret"; "secret"]
    [v1alpha1.mkAKSClusterSpec "aks" (Some 0) (Some 0) None (Some (v1alpha1.Cell 0)) "provider";
     v1alpha1.zeroAKSClusterSpec "" "";
     v1alpha1.mkAKSClusterSpec "aks" (Some 1) (Some 1) None (Some (v1alpha1.Cell 1)) "provider"].

(** A heap on which the connection secret of the spec in cell 0 is the
    [ProviderRef] field of the spec in cell 1. *)
Definition aliased : Heap :=
  v1alpha1.mkHeap [] [] []
    [v1alpha1.mkAKSClusterSpec "aks" None None None (Some (v1alpha1.ProviderRefOf 1)) "provider";
     v1alpha1.mkAKSClusterSpec "other" None None None None "elsewhere"].

End Cluster.

(** ** More of the concrete world *)

Module Scenes.

(** A record that names no provider, so that no provider client can be
    built for it, marked for deletion. *)
Definition orphan : RDSInstance :=
  World.deleted
    (mkRDSInstance (Meta World.provisioned)
                   (mkRDSInstanceSpec None runtimev1alpha1.ReclaimDelete "admin" "postgres")
                   (Status World.provisioned)).

(** A record whose reclaim policy was never set. *)
Definition unset : RDSInstance :=
  mkRDSInstance (Meta World.provisioned)
                (mkRDSInstanceSpec (Some World.providerRef) "" "admin" "postgres")
                (Status World.provisioned).

Definition holding (i : RDSInstance) : Embedded := World.collaborators (inl i) None None.

(** The reconciler as wired, over a store that holds [i] and collaborators
    that succeed. *)
Definition over (i : RDSInstance) : Reconciler := World.reconciler (holding i) World.healthy.


(** A store that cannot be reached. *)
Definition unreachable : Reconciler :=
  World.reconciler (World.collaborators (inr (World.boom Unclassified)) None None) World.healthy.

End Scenes.

(** ** Conditions: last write wins per type *)

Module ConditionFacts.
Import runtimev1alpha1.

Lemma GetCondition_replace_other (new : Condition) (ct : ConditionType) (l : list Condition) :
  (Type_ new =? ct) = false ->
  GetCondition
    (map (fun existing => if Type_ existing =? Type_ new then new else existing) l) ct
  = GetCondition l ct.
Proof.
  intros Hne. induction l as [|c l IH]; simpl; [reflexivity|].
  rewrite IH. destruct (Type_ c =? Type_ new) eqn:Ec.
  - apply String.eqb_eq in Ec. rewrite Ec, Hne. reflexivity.
  - reflexivity.
Qed.

Lemma GetCondition_replace (new : Condition) (ct : ConditionType) (l : list Condition) :
  existsb (fun existing => Type_ existing =? Type_ new) l = true ->
  GetCondition
    (map (fun existing => if Type_ existing =? Type_ new then new else existing) l) ct
  = if Type_ new =? ct then new else GetCondition l ct.
Proof.
  destruct (Type_ new =? ct) eqn:Hct.
  - apply String.eqb_eq in Hct. subst ct.
    induction l as [|c l IH]; simpl; [discriminate|].
    destruct (Type_ c =? Type_ new) eqn:Ec.
    + intros _. rewrite String.eqb_refl. reflexivity.
    + simpl. rewrite Ec. exact IH.
  - intros _. apply GetCondition_replace_other; exact Hct.
Qed.

Lemma GetCondition_append (new : Condition) (ct : ConditionType) (l : list Condition) :
  existsb (fun existing => Type_ existing =? Type_ new) l = false ->
  GetCondition (l ++ [new]) ct
  = if Type_ new =? ct then new else GetCondition l ct.
Proof.
  induction l as [|c l IH]; simpl.
  - intros _. destruct (Type_ new =? ct) eqn:E; [reflexivity|].
    reflexivity.
  - intros H. apply orb_false_iff in H. destruct H as [Hc Hl].
    rewrite (IH Hl).
    destruct (Type_ c =? ct) eqn:Ect; [|reflexivity].
    apply String.eqb_eq in Ect. subst ct. rewrite String.eqb_sym, Hc. reflexivity.
Qed.

(** Reading a type after one write: the written condition for its own
    type, the previous entry for any other. *)
Lemma GetCondition_setCondition (l : list Condition) (new : Condition) (ct : ConditionType) :
  GetCondition (setCondition l new) ct
  = if Type_ new =? ct then new else GetCondition l ct.
Proof.
  unfold setCondition.
  destruct (existsb (fun existing => Type_ existing =? Type_ new) l) eqn:E.
  - apply GetCondition_replace; exact E.
  - apply GetCondition_append; exact E.
Qed.

(** A write leaves no second entry of its type behind: every entry of the
    written type is the written condition. *)
Lemma setCondition_unique (l : list Condition) (new c : Condition) :
  In c (setCondition l new) -> Type_ c = Type_ new -> c = new.
Proof.
  unfold setCondition.
  destruct (existsb (fun existing => Type_ existing =? Type_ new) l) eqn:E.
  - intros Hin Ht. apply in_map_iff in Hin. destruct Hin as [x [Hx _]].
    destruct (Type_ x =? Type_ new) eqn:Ex; [congruence|].
    subst x. apply String.eqb_neq in Ex. contradiction.
  - intros Hin Ht. apply in_app_or in Hin. destruct Hin as [Hin|[Hin|[]]]; [|congruence].
    exfalso. assert (Hn : existsb (fun existing => Type_ existing =? Type_ new) l = true).
    { apply existsb_exists. exists c. split; [exact Hin|]. apply String.eqb_eq; exact Ht. }
    congruence.
Qed.

Lemma In_setCondition (l : list Condition) (new : Condition) :
  In new (setCondition l new).
Proof.
  unfold setCondition.
  destruct (existsb (fun existing => Type_ existing =? Type_ new) l) eqn:E.
  - apply existsb_exists in E. destruct E as [x [Hx Ex]].
    apply in_map_iff. exists x. rewrite Ex. split; [reflexivity|exact Hx].
  - apply in_or_app. right. left. reflexivity.
Qed.

End ConditionFacts.

(** The entry of type [ct] after [SetConditions [c]]. *)
Lemma GetCondition_SetConditions1 (i : RDSInstance) (c : runtimev1alpha1.Condition)
      (ct : runtimev1alpha1.ConditionType) :
  GetCondition (SetConditions [c] i) ct
  = if runtimev1alpha1.Type_ c =? ct then c else GetCondition i ct.
Proof.
  unfold GetCondition, SetConditions. simpl.
  apply ConditionFacts.GetCondition_setCondition.
Qed.

(** The entry of type [ct] after [SetConditions [c1; c2]]. *)
Lemma GetCondition_SetConditions2 (i : RDSInstance) (c1 c2 : runtimev1alpha1.Condition)
      (ct : runtimev1alpha1.ConditionType) :
  GetCondition (SetConditions [c1; c2] i) ct
  = if runtimev1alpha1.Type_ c2 =? ct then c2
    else if runtimev1alpha1.Type_ c1 =? ct then c1 else GetCondition i ct.
Proof.
  unfold GetCondition, SetConditions. simpl.
  rewrite !ConditionFacts.GetCondition_setCondition. reflexivity.
Qed.

(** Writes that are not to the conditions do not change what is read. *)
Lemma GetCondition_withMeta (f : ObjectMeta -> ObjectMeta) (i : RDSInstance)
      (ct : runtimev1alpha1.ConditionType) :
  GetCondition (withMeta f i) ct = GetCondition i ct.
Proof. reflexivity. Qed.

Lemma GetCondition_SetBindable (i : RDSInstance) (ct : runtimev1alpha1.ConditionType) :
  GetCondition (resource.SetBindable i) ct = GetCondition i ct.
Proof. reflexivity. Qed.

Lemma GetCondition_setInstanceName (n : string) (i : RDSInstance)
      (ct : runtimev1alpha1.ConditionType) :
  GetCondition (withStatus (setInstanceName n) i) ct = GetCondition i ct.
Proof. reflexivity. Qed.

(** ** Finalizers *)

Lemma AddFinalizer_In (f : string) (i : RDSInstance) :
  In f (Finalizers (Meta (meta.AddFinalizer f i))).
Proof.
  unfold meta.AddFinalizer, withMeta. simpl.
  destruct (existsb (String.eqb f) (Finalizers (Meta i))) eqn:E.
  - apply existsb_exists in E. destruct E as [x [Hx Ex]].
    apply String.eqb_eq in Ex. subst x. exact Hx.
  - simpl. apply in_or_app. right. left. reflexivity.
Qed.

Lemma RemoveFinalizer_not_In (f : string) (i : RDSInstance) :
  ~ In f (Finalizers (Meta (meta.RemoveFinalizer f i))).
Proof.
  unfold meta.RemoveFinalizer, withMeta. simpl. intros H.
  apply filter_In in H. destruct H as [_ H].
  rewrite String.eqb_refl in H. discriminate.
Qed.

Lemma RemoveFinalizer_others (f g : string) (i : RDSInstance) :
  g <> f ->
  In g (Finalizers (Meta i)) -> In g (Finalizers (Meta (meta.RemoveFinalizer f i))).
Proof.
  unfold meta.RemoveFinalizer, withMeta. simpl. intros Hne H.
  apply filter_In. split; [exact H|].
  apply String.eqb_neq in Hne. rewrite Hne. reflexivity.
Qed.

(** ** The skeleton of [Reconcile] *)

Lemma Reconcile_fetch_failed (r : Reconciler) (request : reconcile.Request) (s : State) (err : error) :
  client.Get (Client r) (reconcile.Key request) = inr err ->
  Reconcile r request s
  = ((reconcile.empty, if kerrors.IsNotFound err then None else Some err),
     mkState zero (calls s ++ [CallGet (reconcile.Key request)])).
Proof.
  intros Hget. unfold Reconcile, Get, bind, store, call, ret. simpl.
  rewrite Hget. destruct (kerrors.IsNotFound err); reflexivity.
Qed.

Lemma Reconcile_connect_failed (r : Reconciler) (request : reconcile.Request) (s s1 : State)
      (fetched : RDSInstance) (err : error) :
  client.Get (Client r) (reconcile.Key request) = inl fetched ->
  connect r (fetchedState request fetched s) = (inr err, s1) ->
  Reconcile r request s = fail r err s1.
Proof.
  intros Hget Hconnect. unfold Reconcile, Get, bind, store, call, ret. simpl.
  rewrite Hget. unfold fetchedState in Hconnect. simpl. rewrite Hconnect. reflexivity.
Qed.

Lemma Reconcile_resolution_returned (r : Reconciler) (request : reconcile.Request)
      (s s1 s2 : State) (fetched : RDSInstance) (rdsClient : rds.Client) (out : Outcome) :
  client.Get (Client r) (reconcile.Key request) = inl fetched ->
  connect r (fetchedState request fetched s) = (inl rdsClient, s1) ->
  resolveReferences r s1 = (Some out, s2) ->
  Reconcile r request s = (out, s2).
Proof.
  intros Hget Hconnect Hresolve. unfold Reconcile, Get, bind, store, call, ret. simpl.
  rewrite Hget. unfold fetchedState in Hconnect. simpl. rewrite Hconnect, Hresolve. reflexivity.
Qed.

Lemma Reconcile_selects (r : Reconciler) (request : reconcile.Request)
      (s s1 s2 : State) (fetched : RDSInstance) (rdsClient : rds.Client) :
  client.Get (Client r) (reconcile.Key request) = inl fetched ->
  connect r (fetchedState request fetched s) = (inl rdsClient, s1) ->
  resolveReferences r s1 = (None, s2) ->
  Reconcile r request s = selected r rdsClient s2.
Proof.
  intros Hget Hconnect Hresolve. unfold Reconcile, Get, bind, store, call, ret, load. simpl.
  rewrite Hget. unfold fetchedState in Hconnect. simpl. rewrite Hconnect, Hresolve.
  unfold selected. destruct (DeletionTimestamp (Meta (instance s2))); simpl; [reflexivity|].
  destruct (InstanceName (Status (instance s2)) =? ""); reflexivity.
Qed.

(** For every fetched record, [Reconcile] either returns before the phase
    selection, whatever the phases are, or runs the selected phase. *)
Lemma Reconcile_returns_early_or_selects (r : Reconciler) (request : reconcile.Request)
      (s : State) (fetched : RDSInstance) :
  client.Get (Client r) (reconcile.Key request) = inl fetched ->
  (exists returned,
      forall create' sync' delete',
        Reconcile (withPhases r create' sync' delete') request s = returned)
  \/ (exists rdsClient s2,
      forall create' sync' delete',
        Reconcile (withPhases r create' sync' delete') request s
        = match DeletionTimestamp (Meta (instance s2)) with
          | Some _ => delete' rdsClient s2
          | None =>
            if InstanceName (Status (instance s2)) =? ""
            then create' rdsClient s2
            else sync' rdsClient s2
          end).
Proof.
  intros Hget.
  destruct (connect r (fetchedState request fetched s)) as [[rdsClient|err] s1] eqn:Hconnect.
  - destruct (resolveReferences r s1) as [[out|] s2] eqn:Hresolve.
    + left. exists (out, s2). intros c y d.
      exact (Reconcile_resolution_returned (withPhases r c y d)
               request s s1 s2 fetched rdsClient out Hget Hconnect Hresolve).
    + right. exists rdsClient, s2. intros c y d.
      exact (Reconcile_selects (withPhases r c y d)
               request s s1 s2 fetched rdsClient Hget Hconnect Hresolve).
  - left. exists (fail r err s1). intros c y d.
    exact (Reconcile_connect_failed (withPhases r c y d)
             request s s1 fetched err Hget Hconnect).
Qed.

(** C9: when the record store reports NotFound, [Reconcile] returns the empty
    result and a nil error; the record in hand is still the zero value (no
    condition was set) and the only call made is the fetch itself: no
    provider call, no publish, no update. *)
Theorem Reconcile_record_not_found
        (r : Reconciler) (request : reconcile.Request) (s : State) (err : error) :
  client.Get (Client r) (reconcile.Key request) = inr err ->
  kerrors.IsNotFound err = true ->
  Reconcile r request s
  = ((reconcile.mkResult false 0, None),
     mkState zero (calls s ++ [CallGet (reconcile.Key request)]))
  /\ Conditions (Status (instance (snd (Reconcile r request s)))) = [].
Proof.
  intros Hget Hnf.
  rewrite (Reconcile_fetch_failed r request s err Hget), Hnf.
  split; reflexivity.
Qed.

(** ** What a run leaves in the call log *)

Lemma published_app (l l' : list Call) : published (l ++ l') = (published l ++ published l')%list.
Proof. apply flat_map_app. Qed.

Lemma providerDeletes_app (l l' : list Call) :
  providerDeletes (l ++ l') = (providerDeletes l ++ providerDeletes l')%list.
Proof. apply flat_map_app. Qed.

Lemma persisted_app (l l' : list Call) : persisted (l ++ l') = (persisted l ++ persisted l')%list.
Proof. apply flat_map_app. Qed.

(** [fail] writes the error condition, persists and asks for an immediate
    requeue; it touches nothing but the conditions. *)
Lemma fail_runs (r : Embedded) (err : error) (s : State) :
  let i' := SetConditions [runtimev1alpha1.ReconcileError err] (instance s) in
  fail r err s
  = ((reconcile.mkResult true 0, client.Update (Client r) i'),
     mkState i' (calls s ++ [CallUpdate i'])).
Proof. reflexivity. Qed.

(** ** The create phase *)

Section CreatePhase.

Variable GeneratePassword : nat -> string + error.
Variable r : Embedded.
Variable client : rds.Client.
Variable s : State.

Lemma create_password_failed (err : error) :
  GeneratePassword 20 = inr err ->
  _create GeneratePassword r client s
  = ((reconcile.mkResult true 0, client.Update (Client r) (createFailed (instance s) err)),
     mkState (createFailed (instance s) err)
             (calls s ++ [CallGeneratePassword 20;
                          CallUpdate (createFailed (instance s) err)])).
Proof.
  intros Hpw. unfold _create. run. rewrite Hpw. run.
  rewrite <- app_assoc. reflexivity.
Qed.

Lemma create_provider_failed (password : string) (err : error) :
  GeneratePassword 20 = inl password ->
  rds.CreateInstance client (nameOf (instance s)) password (Spec (instance s)) = Some err ->
  rds.IsErrorAlreadyExists (Some err) = false ->
  _create GeneratePassword r client s
  = ((reconcile.mkResult true 0, client.Update (Client r) (createFailed (instance s) err)),
     mkState (createFailed (instance s) err)
             (calls s ++ [CallGeneratePassword 20;
                          CallCreateInstance (nameOf (instance s)) password (Spec (instance s));
                          CallUpdate (createFailed (instance s) err)])).
Proof.
  intros Hpw Hcreate Hclass. unfold _create. run. rewrite Hpw. run.
  unfold nameOf in Hcreate. simpl in Hcreate. rewrite Hcreate. unfold resource.Ignore. rewrite Hclass. run.
  rewrite <- !app_assoc. reflexivity.
Qed.

Lemma create_already_exists (password : string) (err : error) :
  GeneratePassword 20 = inl password ->
  rds.CreateInstance client (nameOf (instance s)) password (Spec (instance s)) = Some err ->
  rds.IsErrorAlreadyExists (Some err) = true ->
  _create GeneratePassword r client s
  = ((resultRequeue, client.Update (Client r) (created (instance s))),
     mkState (created (instance s))
             (calls s ++ [CallGeneratePassword 20;
                          CallCreateInstance (nameOf (instance s)) password (Spec (instance s));
                          CallUpdate (created (instance s))])).
Proof.
  intros Hpw Hcreate Hclass. unfold _create. run. rewrite Hpw. run.
  unfold nameOf in Hcreate. simpl in Hcreate. rewrite Hcreate. unfold resource.Ignore. rewrite Hclass. run.
  rewrite <- !app_assoc. reflexivity.
Qed.

Lemma create_publish_failed (password : string) (err : error) :
  GeneratePassword 20 = inl password ->
  rds.CreateInstance client (nameOf (instance s)) password (Spec (instance s)) = None ->
  resource.PublishConnection (ManagedConnectionPublisher r) (creating (instance s))
                             (credentials (instance s) password) = Some err ->
  _create GeneratePassword r client s
  = ((reconcile.mkResult true 0, client.Update (Client r) (createFailed (instance s) err)),
     mkState (createFailed (instance s) err)
             (calls s ++ [CallGeneratePassword 20;
                          CallCreateInstance (nameOf (instance s)) password (Spec (instance s));
                          CallPublishConnection (creating (instance s)) (credentials (instance s) password);
                          CallUpdate (createFailed (instance s) err)])).
Proof.
  intros Hpw Hcreate Hpub. unfold _create. run. rewrite Hpw. run.
  unfold nameOf in Hcreate. simpl in Hcreate. rewrite Hcreate. unfold resource.Ignore. run.
  unfold creating, credentials in Hpub.
  rewrite Hpub. run.
  rewrite <- !app_assoc. reflexivity.
Qed.

Lemma create_succeeded (password : string) :
  GeneratePassword 20 = inl password ->
  rds.CreateInstance client (nameOf (instance s)) password (Spec (instance s)) = None ->
  resource.PublishConnection (ManagedConnectionPublisher r) (creating (instance s))
                             (credentials (instance s) password) = None ->
  _create GeneratePassword r client s
  = ((resultRequeue, client.Update (Client r) (created (instance s))),
     mkState (created (instance s))
             (calls s ++ [CallGeneratePassword 20;
                          CallCreateInstance (nameOf (instance s)) password (Spec (instance s));
                          CallPublishConnection (creating (instance s)) (credentials (instance s) password);
                          CallUpdate (created (instance s))])).
Proof.
  intros Hpw Hcreate Hpub. unfold _create. run. rewrite Hpw. run.
  unfold nameOf in Hcreate. simpl in Hcreate. rewrite Hcreate. unfold resource.Ignore. run.
  unfold creating, credentials in Hpub.
  rewrite Hpub. run.
  rewrite <- !app_assoc. reflexivity.
Qed.

End CreatePhase.

Section CreatedFacts.

Variable i : RDSInstance.

Lemma Creating_set : HasCondition (SetConditions [runtimev1alpha1.Creating] i) runtimev1alpha1.Creating.
Proof. unfold HasCondition. rewrite GetCondition_SetConditions1. reflexivity. Qed.

Lemma created_InstanceName :
  InstanceName (Status (created i)) = Engine (Spec i) ++ "-" ++ UID (Meta i).
Proof. reflexivity. Qed.

Lemma created_finalizer : In finalizer (Finalizers (Meta (created i))).
Proof.
  unfold created.
  change (Meta (SetConditions ?c ?x)) with (Meta x).
  apply AddFinalizer_In.
Qed.

Lemma created_ReconcileSuccess : HasCondition (created i) runtimev1alpha1.ReconcileSuccess.
Proof. unfold HasCondition, created. rewrite GetCondition_SetConditions1. reflexivity. Qed.

Lemma created_Creating : HasCondition (created i) runtimev1alpha1.Creating.
Proof.
  unfold HasCondition, created. rewrite GetCondition_SetConditions1.
  exact Creating_set.
Qed.

Lemma created_no_ReconcileError (err : error) :
  ~ HasCondition (created i) (runtimev1alpha1.ReconcileError err).
Proof.
  unfold HasCondition. intros H.
  change (runtimev1alpha1.Type_ (runtimev1alpha1.ReconcileError err))
    with (runtimev1alpha1.Type_ runtimev1alpha1.ReconcileSuccess) in H.
  rewrite created_ReconcileSuccess in H. discriminate H.
Qed.

Variable err : error.

Lemma createFailed_ReconcileError :
  HasCondition (createFailed i err) (runtimev1alpha1.ReconcileError err).
Proof. unfold HasCondition, createFailed. rewrite GetCondition_SetConditions1. reflexivity. Qed.

Lemma createFailed_Creating : HasCondition (createFailed i err) runtimev1alpha1.Creating.
Proof.
  unfold HasCondition, createFailed. rewrite GetCondition_SetConditions1.
  exact Creating_set.
Qed.

Lemma createFailed_InstanceName :
  InstanceName (Status (createFailed i err)) = InstanceName (Status i).
Proof. reflexivity. Qed.

Lemma createFailed_Meta : Meta (createFailed i err) = Meta i.
Proof. reflexivity. Qed.

End CreatedFacts.

(** C3: when the provider's create reports AlreadyExists, the create phase
    publishes nothing, sets [Status.InstanceName] to the derived name, adds
    the owned finalizer, leaves the record with the Creating and
    ReconcileSuccess conditions and no ReconcileError one, persists it and
    returns an immediate requeue. *)
Theorem create_AlreadyExists_succeeds_without_publishing
        (GeneratePassword : nat -> string + error) (r : Embedded) (client : rds.Client)
        (s : State) (password : string) (err : error) :
  let resourceName := Engine (Spec (instance s)) ++ "-" ++ UID (Meta (instance s)) in
  GeneratePassword 20 = inl password ->
  rds.CreateInstance client resourceName password (Spec (instance s)) = Some err ->
  rds.IsErrorAlreadyExists (Some err) = true ->
  let out := _create GeneratePassword r client s in
  let i' := instance (snd out) in
  published (calls (snd out)) = published (calls s)
  /\ InstanceName (Status i') = resourceName
  /\ In finalizer (Finalizers (Meta i'))
  /\ HasCondition i' runtimev1alpha1.ReconcileSuccess
  /\ HasCondition i' runtimev1alpha1.Creating
  /\ (forall e, ~ HasCondition i' (runtimev1alpha1.ReconcileError e))
  /\ persisted (calls (snd out)) = (persisted (calls s) ++ [i'])%list
  /\ fst out = (reconcile.mkResult true 0, client.Update (Client r) i').
Proof.
  intros resourceName Hpw Hcreate Hclass out i'. subst out i'.
  rewrite (create_already_exists GeneratePassword r client s password err Hpw Hcreate Hclass).
  simpl fst. simpl snd. simpl instance. simpl calls.
  rewrite published_app, persisted_app. simpl. rewrite ?app_nil_r.
  repeat split.
  - apply created_finalizer.
  - apply created_ReconcileSuccess.
  - apply created_Creating.
  - intros e. apply created_no_ReconcileError.
Qed.

(** C4: when the provider's create fails with an error that is not
    AlreadyExists, the create phase sets the ReconcileError condition,
    persists and returns an immediate requeue; [Status.InstanceName] and the
    finalizers are what they were (an empty name stays empty) and nothing is
    published.  A later phase selection on the record it leaves, for a
    record that was in the create phase, selects the create phase again. *)
Theorem create_provider_error_keeps_name_empty
        (GeneratePassword : nat -> string + error) (r : Embedded) (client : rds.Client)
        (s : State) (password : string) (err : error) :
  let resourceName := Engine (Spec (instance s)) ++ "-" ++ UID (Meta (instance s)) in
  GeneratePassword 20 = inl password ->
  rds.CreateInstance client resourceName password (Spec (instance s)) = Some err ->
  rds.IsErrorAlreadyExists (Some err) = false ->
  let out := _create GeneratePassword r client s in
  let i' := instance (snd out) in
  HasCondition i' (runtimev1alpha1.ReconcileError err)
  /\ persisted (calls (snd out)) = (persisted (calls s) ++ [i'])%list
  /\ fst out = (reconcile.mkResult true 0, client.Update (Client r) i')
  /\ InstanceName (Status i') = InstanceName (Status (instance s))
  /\ (InstanceName (Status (instance s)) = "" -> InstanceName (Status i') = "")
  /\ Finalizers (Meta i') = Finalizers (Meta (instance s))
  /\ published (calls (snd out)) = published (calls s)
  /\ (InstanceName (Status (instance s)) = "" ->
      DeletionTimestamp (Meta (instance s)) = None ->
      forall (next : Reconciler) (rdsClient : rds.Client) (log : list Call),
        selected next rdsClient (mkState i' log) = create next rdsClient (mkState i' log)).
Proof.
  intros resourceName Hpw Hcreate Hclass out i'. subst out i'.
  rewrite (create_provider_failed GeneratePassword r client s password err Hpw Hcreate Hclass).
  simpl fst. simpl snd. simpl instance. simpl calls.
  rewrite published_app, persisted_app. simpl. rewrite ?app_nil_r.
  split; [apply createFailed_ReconcileError|].
  split; [reflexivity|]. split; [reflexivity|]. split; [reflexivity|].
  split; [intros H; exact H|]. split; [reflexivity|]. split; [reflexivity|].
  intros Hname Hdel next rdsClient log. unfold selected. simpl instance.
  rewrite createFailed_Meta, createFailed_InstanceName, Hdel, Hname. reflexivity.
Qed.

(** C10: the create phase writes the Creating condition before its first
    collaborator call (the password generator): every record a collaborator
    is shown during the phase carries it, and so does the record the phase
    returns with, on every path.  On the three failure paths (password
    generation, provider error other than AlreadyExists, publish) the record
    carries the ReconcileError condition next to it. *)
Theorem create_always_leaves_Creating
        (GeneratePassword : nat -> string + error) (r : Embedded) (client : rds.Client)
        (s : State) :
  let resourceName := Engine (Spec (instance s)) ++ "-" ++ UID (Meta (instance s)) in
  let marked := SetConditions [runtimev1alpha1.Creating] (instance s) in
  let out := _create GeneratePassword r client s in
  let i' := instance (snd out) in
  HasCondition i' runtimev1alpha1.Creating
  /\ (exists rest,
        calls (snd out) = (calls s ++ CallGeneratePassword 20 :: rest)%list
        /\ Forall (fun shownRecord => HasCondition shownRecord runtimev1alpha1.Creating)
                  (shown rest)
        /\ In i' (persisted rest))
  /\ (forall err,
        GeneratePassword 20 = inr err ->
        HasCondition i' (runtimev1alpha1.ReconcileError err))
  /\ (forall password err,
        GeneratePassword 20 = inl password ->
        rds.CreateInstance client resourceName password (Spec (instance s)) = Some err ->
        rds.IsErrorAlreadyExists (Some err) = false ->
        HasCondition i' (runtimev1alpha1.ReconcileError err))
  /\ (forall password err,
        GeneratePassword 20 = inl password ->
        rds.CreateInstance client resourceName password (Spec (instance s)) = None ->
        resource.PublishConnection (ManagedConnectionPublisher r) marked
                                   (credentials (instance s) password) = Some err ->
        HasCondition i' (runtimev1alpha1.ReconcileError err)).
Proof.
  intros resourceName marked out i'. subst out i'.
  assert (Hshown : HasCondition marked runtimev1alpha1.Creating) by apply Creating_set.
  split; [|split; [|split; [|split]]].
  - destruct (GeneratePassword 20) as [password|err] eqn:Hpw.
    + destruct (rds.CreateInstance client resourceName password (Spec (instance s)))
        as [err|] eqn:Hcreate.
      * destruct (rds.IsErrorAlreadyExists (Some err)) eqn:Hclass.
        -- rewrite (create_already_exists _ r client s password err Hpw Hcreate Hclass).
           apply created_Creating.
        -- rewrite (create_provider_failed _ r client s password err Hpw Hcreate Hclass).
           apply createFailed_Creating.
      * destruct (resource.PublishConnection (ManagedConnectionPublisher r) marked
                                             (credentials (instance s) password))
          as [err|] eqn:Hpub.
        -- rewrite (create_publish_failed _ r client s password err Hpw Hcreate Hpub).
           apply createFailed_Creating.
        -- rewrite (create_succeeded _ r client s password Hpw Hcreate Hpub).
           apply created_Creating.
    + rewrite (create_password_failed _ r client s err Hpw).
      apply createFailed_Creating.
  - destruct (GeneratePassword 20) as [password|err] eqn:Hpw.
    + destruct (rds.CreateInstance client resourceName password (Spec (instance s)))
        as [err|] eqn:Hcreate.
      * destruct (rds.IsErrorAlreadyExists (Some err)) eqn:Hclass.
        -- rewrite (create_already_exists _ r client s password err Hpw Hcreate Hclass).
           eexists. split; [reflexivity|]. simpl. split; [|left; reflexivity].
           repeat constructor. apply created_Creating.
        -- rewrite (create_provider_failed _ r client s password err Hpw Hcreate Hclass).
           eexists. split; [reflexivity|]. simpl. split; [|left; reflexivity].
           repeat constructor. apply createFailed_Creating.
      * destruct (resource.PublishConnection (ManagedConnectionPublisher r) marked
                                             (credentials (instance s) password))
          as [err|] eqn:Hpub.
        -- rewrite (create_publish_failed _ r client s password err Hpw Hcreate Hpub).
           eexists. split; [reflexivity|]. simpl. split; [|left; reflexivity].
           constructor; [exact Hshown|]. repeat constructor. apply createFailed_Creating.
        -- rewrite (create_succeeded _ r client s password Hpw Hcreate Hpub).
           eexists. split; [reflexivity|]. simpl. split; [|left; reflexivity].
           constructor; [exact Hshown|]. repeat constructor. apply created_Creating.
    + rewrite (create_password_failed _ r client s err Hpw).
      eexists. split; [reflexivity|]. simpl. split; [|left; reflexivity].
      repeat constructor. apply createFailed_Creating.
  - intros err Hpw. rewrite (create_password_failed _ r client s err Hpw).
    apply createFailed_ReconcileError.
  - intros password err Hpw Hcreate Hclass.
    rewrite (create_provider_failed _ r client s password err Hpw Hcreate Hclass).
    apply createFailed_ReconcileError.
  - intros password err Hpw Hcreate Hpub.
    rewrite (create_publish_failed _ r client s password err Hpw Hcreate Hpub).
    apply createFailed_ReconcileError.
Qed.

(** ** The sync phase *)

Section SyncPhase.

Variable r : Embedded.
Variable client : rds.Client.
Variable s : State.

Lemma sync_get_failed (err : error) :
  rds.GetInstance client (InstanceName (Status (instance s))) = inr err ->
  _sync r client s = fail r err (mkState (instance s) (calls s ++ [CallGetInstance (InstanceName (Status (instance s)))])).
Proof. intros Hget. unfold _sync. run. rewrite Hget. reflexivity. Qed.

Variable db : rds.Instance.
Hypothesis Hget : rds.GetInstance client (InstanceName (Status (instance s))) = inl db.

Lemma sync_creating :
  rds.Status db = RDSInstanceStateCreating ->
  let i' := SetConditions [runtimev1alpha1.Creating; runtimev1alpha1.ReconcileSuccess]
                          (observed (instance s) db) in
  _sync r client s
  = ((resultRequeue, client.Update (Client r) i'),
     mkState i' (calls s ++ [CallGetInstance (InstanceName (Status (instance s))); CallUpdate i'])).
Proof.
  intros Hstatus i'. subst i'. unfold _sync. run. rewrite Hget. run.
  unfold observed. rewrite Hstatus. simpl. rewrite <- app_assoc. reflexivity.
Qed.

Lemma sync_failed :
  rds.Status db = RDSInstanceStateFailed ->
  let i' := SetConditions [runtimev1alpha1.Unavailable; runtimev1alpha1.ReconcileSuccess]
                          (observed (instance s) db) in
  _sync r client s
  = ((result, client.Update (Client r) i'),
     mkState i' (calls s ++ [CallGetInstance (InstanceName (Status (instance s))); CallUpdate i'])).
Proof.
  intros Hstatus i'. subst i'. unfold _sync. run. rewrite Hget. run.
  unfold observed. rewrite Hstatus. simpl. rewrite <- app_assoc. reflexivity.
Qed.

Lemma sync_available_published :
  rds.Status db = RDSInstanceStateAvailable ->
  resource.PublishConnection (ManagedConnectionPublisher r) (ready (instance s) db)
                             (connection (instance s) db) = None ->
  let i' := SetConditions [runtimev1alpha1.ReconcileSuccess] (ready (instance s) db) in
  _sync r client s
  = ((result, client.Update (Client r) i'),
     mkState i' (calls s ++ [CallGetInstance (InstanceName (Status (instance s)));
                             CallPublishConnection (ready (instance s) db)
                                                   (connection (instance s) db);
                             CallUpdate i'])).
Proof.
  intros Hstatus Hpub i'. subst i'. unfold _sync. run. rewrite Hget. run.
  unfold ready, connection, observed in *. rewrite Hstatus in *. simpl.
  rewrite Hpub. run. rewrite <- !app_assoc. reflexivity.
Qed.

Lemma sync_available_publish_failed (err : error) :
  rds.Status db = RDSInstanceStateAvailable ->
  resource.PublishConnection (ManagedConnectionPublisher r) (ready (instance s) db)
                             (connection (instance s) db) = Some err ->
  let i' := SetConditions [runtimev1alpha1.ReconcileError err] (ready (instance s) db) in
  _sync r client s
  = ((reconcile.mkResult true 0, client.Update (Client r) i'),
     mkState i' (calls s ++ [CallGetInstance (InstanceName (Status (instance s)));
                             CallPublishConnection (ready (instance s) db)
                                                   (connection (instance s) db);
                             CallUpdate i'])).
Proof.
  intros Hstatus Hpub i'. subst i'. unfold _sync. run. rewrite Hget. run.
  unfold ready, connection, observed in *. rewrite Hstatus in *. simpl.
  rewrite Hpub. run. rewrite <- !app_assoc. reflexivity.
Qed.

Lemma sync_unexpected :
  rds.Status db <> RDSInstanceStateCreating ->
  rds.Status db <> RDSInstanceStateFailed ->
  rds.Status db <> RDSInstanceStateAvailable ->
  let err := errors.Errorf ("unexpected resource status: " ++ rds.Status db) in
  let i' := SetConditions [runtimev1alpha1.ReconcileError err] (observed (instance s) db) in
  _sync r client s
  = ((reconcile.mkResult true 0, client.Update (Client r) i'),
     mkState i' (calls s ++ [CallGetInstance (InstanceName (Status (instance s))); CallUpdate i'])).
Proof.
  intros Hc Hf Ha err i'. subst err i'. apply String.eqb_neq in Hc, Hf, Ha.
  unfold _sync. run. rewrite Hget. run.
  rewrite Hc, Hf, Ha. run. rewrite <- app_assoc. reflexivity.
Qed.

End SyncPhase.

Lemma HasCondition_SetConditions1 (i : RDSInstance) (c : runtimev1alpha1.Condition) :
  HasCondition (SetConditions [c] i) c.
Proof.
  unfold HasCondition. rewrite GetCondition_SetConditions1, String.eqb_refl. reflexivity.
Qed.

Lemma HasCondition_SetConditions_other (i : RDSInstance) (c c' : runtimev1alpha1.Condition) :
  runtimev1alpha1.Type_ c <> runtimev1alpha1.Type_ c' ->
  HasCondition i c' -> HasCondition (SetConditions [c] i) c'.
Proof.
  unfold HasCondition. intros Hne H. rewrite GetCondition_SetConditions1.
  apply String.eqb_neq in Hne. rewrite Hne. exact H.
Qed.

Lemma ready_Available (i : RDSInstance) (db : rds.Instance) :
  HasCondition (ready i db) runtimev1alpha1.Available.
Proof.
  unfold ready.
  change (HasCondition (SetConditions [runtimev1alpha1.Available] (observed i db))
                       runtimev1alpha1.Available).
  apply HasCondition_SetConditions1.
Qed.

(** C2, as amended: when the provider's get succeeds, the sync phase
    dispatches on the external state, and the dispatch is exactly this.
    [creating]: Creating and ReconcileSuccess, immediate requeue, nothing
    published.  [failed]: Unavailable and ReconcileSuccess, no requeue,
    nothing published.  [available]: Available, bindable, the master
    username and the endpoint handed to the publisher; then ReconcileSuccess
    and no requeue when the publisher accepts them, ReconcileError and an
    immediate requeue when it fails.  Any other state: ReconcileError,
    immediate requeue, nothing published.  In every case the record left is
    the record found with the provider's state, endpoint and identifier
    copied in and these conditions written, and nothing else changed (the
    bindable mark only for [available]); the calls are the get, the publish
    for [available] only, and one update of the record left, whose answer is
    the error returned. *)
Theorem sync_dispatches_on_external_state
        (r : Embedded) (client : rds.Client) (s : State) (db : rds.Instance) :
  rds.GetInstance client (InstanceName (Status (instance s))) = inl db ->
  let out := _sync r client s in
  let i' := instance (snd out) in
  let i := instance s in
  let name := InstanceName (Status i) in
  let conditions := runtimev1alpha1.SetConditions (Conditions (Status i)) in
  (rds.Status db = RDSInstanceStateCreating ->
   i' = synced i db (conditions [runtimev1alpha1.Creating; runtimev1alpha1.ReconcileSuccess])
               (Bindable (Status i))
   /\ calls (snd out) = (calls s ++ [CallGetInstance name; CallUpdate i'])%list
   /\ HasCondition i' runtimev1alpha1.Creating
   /\ HasCondition i' runtimev1alpha1.ReconcileSuccess
   /\ fst out = (reconcile.mkResult true 0, client.Update (Client r) i')
   /\ published (calls (snd out)) = published (calls s)
   /\ persisted (calls (snd out)) = (persisted (calls s) ++ [i'])%list)
  /\ (rds.Status db = RDSInstanceStateFailed ->
      i' = synced i db (conditions [runtimev1alpha1.Unavailable; runtimev1alpha1.ReconcileSuccess])
                  (Bindable (Status i))
      /\ calls (snd out) = (calls s ++ [CallGetInstance name; CallUpdate i'])%list
      /\ HasCondition i' runtimev1alpha1.Unavailable
      /\ HasCondition i' runtimev1alpha1.ReconcileSuccess
      /\ fst out = (reconcile.mkResult false 0, client.Update (Client r) i')
      /\ published (calls (snd out)) = published (calls s)
      /\ persisted (calls (snd out)) = (persisted (calls s) ++ [i'])%list)
  /\ (rds.Status db = RDSInstanceStateAvailable ->
      let shown := synced i db (conditions [runtimev1alpha1.Available]) true in
      calls (snd out)
      = (calls s ++ [CallGetInstance name;
                     CallPublishConnection shown (connection i db);
                     CallUpdate i'])%list
      /\ connection i db
         = [(runtimev1alpha1.ResourceCredentialsSecretUserKey, MasterUsername (Spec i));
            (runtimev1alpha1.ResourceCredentialsSecretEndpointKey, rds.Endpoint db)]
      /\ HasCondition i' runtimev1alpha1.Available
      /\ Bindable (Status i') = true
      /\ published (calls (snd out))
         = (published (calls s) ++ [connection i db])%list
      /\ persisted (calls (snd out)) = (persisted (calls s) ++ [i'])%list
      /\ (resource.PublishConnection (ManagedConnectionPublisher r) shown (connection i db)
          = None ->
          i' = synced i db
                      (conditions [runtimev1alpha1.Available; runtimev1alpha1.ReconcileSuccess])
                      true
          /\ HasCondition i' runtimev1alpha1.ReconcileSuccess
          /\ fst out = (reconcile.mkResult false 0, client.Update (Client r) i'))
      /\ (forall err,
          resource.PublishConnection (ManagedConnectionPublisher r) shown (connection i db)
          = Some err ->
          i' = synced i db
                      (conditions [runtimev1alpha1.Available;
                                   runtimev1alpha1.ReconcileError err])
                      true
          /\ HasCondition i' (runtimev1alpha1.ReconcileError err)
          /\ fst out = (reconcile.mkResult true 0, client.Update (Client r) i')))
  /\ (rds.Status db <> RDSInstanceStateCreating ->
      rds.Status db <> RDSInstanceStateFailed ->
      rds.Status db <> RDSInstanceStateAvailable ->
      let err := errors.Errorf ("unexpected resource status: " ++ rds.Status db) in
      i' = synced i db (conditions [runtimev1alpha1.ReconcileError err]) (Bindable (Status i))
      /\ calls (snd out) = (calls s ++ [CallGetInstance name; CallUpdate i'])%list
      /\ HasCondition i' (runtimev1alpha1.ReconcileError err)
      /\ fst out = (reconcile.mkResult true 0, client.Update (Client r) i')
      /\ published (calls (snd out)) = published (calls s)
      /\ persisted (calls (snd out)) = (persisted (calls s) ++ [i'])%list).
Proof.
  intros Hget out i' i name conditions. subst out i' i name conditions.
  split; [|split; [|split]].
  - intros Hstatus. rewrite (sync_creating r client s db Hget Hstatus).
    simpl fst. simpl snd. simpl instance. simpl calls.
    rewrite published_app, persisted_app. simpl. rewrite ?app_nil_r.
    split; [reflexivity|]. split; [reflexivity|].
    repeat split.
    + unfold HasCondition. rewrite GetCondition_SetConditions2. reflexivity.
    + unfold HasCondition. rewrite GetCondition_SetConditions2. reflexivity.
  - intros Hstatus. rewrite (sync_failed r client s db Hget Hstatus).
    simpl fst. simpl snd. simpl instance. simpl calls.
    rewrite published_app, persisted_app. simpl. rewrite ?app_nil_r.
    split; [reflexivity|]. split; [reflexivity|].
    repeat split.
    + unfold HasCondition. rewrite GetCondition_SetConditions2. reflexivity.
    + unfold HasCondition. rewrite GetCondition_SetConditions2. reflexivity.
  - intros Hstatus shown. subst shown.
    change (synced (instance s) db
                   (runtimev1alpha1.SetConditions (Conditions (Status (instance s)))
                                                  [runtimev1alpha1.Available]) true)
      with (ready (instance s) db).
    destruct (resource.PublishConnection (ManagedConnectionPublisher r)
                (ready (instance s) db) (connection (instance s) db)) as [err|] eqn:Hpub.
    + rewrite (sync_available_publish_failed r client s db Hget err Hstatus Hpub).
      simpl fst. simpl snd. simpl instance. simpl calls.
      rewrite published_app, persisted_app. simpl.
      split; [reflexivity|]. split; [reflexivity|].
      split; [|split; [|split; [|split; [|split]]]].
      * apply HasCondition_SetConditions_other; [discriminate|apply ready_Available].
      * reflexivity.
      * reflexivity.
      * rewrite ?app_nil_r. reflexivity.
      * discriminate.
      * intros err' Herr. injection Herr as <-.
        split; [reflexivity|]. split; [apply HasCondition_SetConditions1|reflexivity].
    + rewrite (sync_available_published r client s db Hget Hstatus Hpub).
      simpl fst. simpl snd. simpl instance. simpl calls.
      rewrite published_app, persisted_app. simpl.
      split; [reflexivity|]. split; [reflexivity|].
      split; [|split; [|split; [|split; [|split]]]].
      * apply HasCondition_SetConditions_other; [discriminate|apply ready_Available].
      * reflexivity.
      * reflexivity.
      * rewrite ?app_nil_r. reflexivity.
      * intros _. split; [reflexivity|].
        split; [apply HasCondition_SetConditions1|reflexivity].
      * discriminate.
  - intros Hc Hf Ha err. subst err. rewrite (sync_unexpected r client s db Hget Hc Hf Ha).
    simpl fst. simpl snd. simpl instance. simpl calls.
    rewrite published_app, persisted_app. simpl. rewrite ?app_nil_r.
    split; [reflexivity|]. split; [reflexivity|].
    repeat split. apply HasCondition_SetConditions1.
Qed.

(** ** The delete phase *)

Section DeletePhase.

Variable r : Embedded.
Variable client : rds.Client.
Variable s : State.

Lemma delete_skips_provider :
  ReclaimPolicy (Spec (instance s)) <> runtimev1alpha1.ReclaimDelete ->
  _delete r client s
  = ((result, client.Update (Client r) (released (instance s))),
     mkState (released (instance s)) (calls s ++ [CallUpdate (released (instance s))])).
Proof.
  intros Hpolicy. apply String.eqb_neq in Hpolicy.
  unfold _delete. run. rewrite Hpolicy. reflexivity.
Qed.

Hypothesis Hpolicy : ReclaimPolicy (Spec (instance s)) = runtimev1alpha1.ReclaimDelete.

Lemma delete_completed (answer : option error) :
  rds.DeleteInstance client (InstanceName (Status (instance s))) = answer ->
  answer = None \/ rds.IsErrorNotFound answer = true ->
  _delete r client s
  = ((result, client.Update (Client r) (released (instance s))),
     mkState (released (instance s))
             (calls s ++ [CallDeleteInstance (InstanceName (Status (instance s))); CallUpdate (released (instance s))])).
Proof.
  intros Hdelete Hanswer. apply String.eqb_eq in Hpolicy.
  unfold _delete. run. rewrite Hpolicy. run. rewrite Hdelete.
  destruct Hanswer as [->|Hnf].
  - simpl. rewrite <- app_assoc. reflexivity.
  - rewrite Hnf. simpl. rewrite <- app_assoc. reflexivity.
Qed.

Lemma delete_provider_failed (err : error) :
  rds.DeleteInstance client (InstanceName (Status (instance s))) = Some err ->
  rds.IsErrorNotFound (Some err) = false ->
  _delete r client s
  = ((reconcile.mkResult true 0, client.Update (Client r) (deleteFailed (instance s) err)),
     mkState (deleteFailed (instance s) err)
             (calls s ++ [CallDeleteInstance (InstanceName (Status (instance s)));
                          CallUpdate (deleteFailed (instance s) err)])).
Proof.
  intros Hdelete Hclass. apply String.eqb_eq in Hpolicy.
  unfold _delete. run. rewrite Hpolicy. run. rewrite Hdelete, Hclass.
  simpl. rewrite <- app_assoc. reflexivity.
Qed.

End DeletePhase.

Section ReleasedFacts.

Variable i : RDSInstance.

Lemma released_finalizer : ~ In finalizer (Finalizers (Meta (released i))).
Proof.
  unfold released.
  change (Meta (SetConditions ?c ?x)) with (Meta x).
  apply RemoveFinalizer_not_In.
Qed.

Lemma released_ReconcileSuccess : HasCondition (released i) runtimev1alpha1.ReconcileSuccess.
Proof. apply HasCondition_SetConditions1. Qed.

Lemma released_Deleting : HasCondition (released i) runtimev1alpha1.Deleting.
Proof.
  apply HasCondition_SetConditions_other; [discriminate|].
  exact (HasCondition_SetConditions1 i runtimev1alpha1.Deleting).
Qed.

Lemma released_no_ReconcileError (err : error) :
  ~ HasCondition (released i) (runtimev1alpha1.ReconcileError err).
Proof.
  unfold HasCondition. intros H.
  change (runtimev1alpha1.Type_ (runtimev1alpha1.ReconcileError err))
    with (runtimev1alpha1.Type_ runtimev1alpha1.ReconcileSuccess) in H.
  rewrite released_ReconcileSuccess in H. discriminate H.
Qed.

End ReleasedFacts.

(** C6: with reclaim policy Retain the delete phase never calls the
    provider's delete; it still removes the owned finalizer, leaves the
    Deleting and ReconcileSuccess conditions, persists and returns no
    requeue. *)
Theorem delete_Retain_never_calls_provider
        (r : Embedded) (client : rds.Client) (s : State) :
  ReclaimPolicy (Spec (instance s)) = runtimev1alpha1.ReclaimRetain ->
  let out := _delete r client s in
  let i' := instance (snd out) in
  providerDeletes (calls (snd out)) = providerDeletes (calls s)
  /\ calls (snd out) = (calls s ++ [CallUpdate i'])%list
  /\ ~ In finalizer (Finalizers (Meta i'))
  /\ HasCondition i' runtimev1alpha1.Deleting
  /\ HasCondition i' runtimev1alpha1.ReconcileSuccess
  /\ fst out = (reconcile.mkResult false 0, client.Update (Client r) i').
Proof.
  intros Hpolicy out i'. subst out i'.
  assert (Hne : ReclaimPolicy (Spec (instance s)) <> runtimev1alpha1.ReclaimDelete)
    by (rewrite Hpolicy; discriminate).
  rewrite (delete_skips_provider r client s Hne).
  simpl fst. simpl snd. simpl instance. simpl calls.
  rewrite providerDeletes_app. simpl. rewrite ?app_nil_r.
  split; [reflexivity|]. split; [reflexivity|].
  split; [apply released_finalizer|].
  split; [apply released_Deleting|].
  split; [apply released_ReconcileSuccess|reflexivity].
Qed.

(** C7: with reclaim policy Delete, a provider delete that reports NotFound
    counts as success: the owned finalizer is removed, ReconcileSuccess is
    set and no ReconcileError condition is left, no requeue.  Any other
    provider error sets ReconcileError, leaves the finalizers as they were
    and returns an immediate requeue. *)
Theorem delete_absorbs_NotFound_and_fails_otherwise
        (r : Embedded) (client : rds.Client) (s : State) (err : error) :
  ReclaimPolicy (Spec (instance s)) = runtimev1alpha1.ReclaimDelete ->
  rds.DeleteInstance client (InstanceName (Status (instance s))) = Some err ->
  let out := _delete r client s in
  let i' := instance (snd out) in
  providerDeletes (calls (snd out))
  = (providerDeletes (calls s) ++ [InstanceName (Status (instance s))])%list
  /\ persisted (calls (snd out)) = (persisted (calls s) ++ [i'])%list
  /\ (rds.IsErrorNotFound (Some err) = true ->
      ~ In finalizer (Finalizers (Meta i'))
      /\ HasCondition i' runtimev1alpha1.ReconcileSuccess
      /\ (forall e, ~ HasCondition i' (runtimev1alpha1.ReconcileError e))
      /\ fst out = (reconcile.mkResult false 0, client.Update (Client r) i'))
  /\ (rds.IsErrorNotFound (Some err) = false ->
      HasCondition i' (runtimev1alpha1.ReconcileError err)
      /\ Finalizers (Meta i') = Finalizers (Meta (instance s))
      /\ fst out = (reconcile.mkResult true 0, client.Update (Client r) i')).
Proof.
  intros Hpolicy Hdelete out i'. subst out i'.
  destruct (rds.IsErrorNotFound (Some err)) eqn:Hclass.
  - rewrite (delete_completed r client s Hpolicy (Some err) Hdelete (or_intror Hclass)).
    simpl fst. simpl snd. simpl instance. simpl calls.
    rewrite providerDeletes_app, persisted_app. simpl.
    split; [reflexivity|]. split; [reflexivity|].
    split; [intros _|discriminate].
    split; [apply released_finalizer|].
    split; [apply released_ReconcileSuccess|].
    split; [intros e; apply released_no_ReconcileError|reflexivity].
  - rewrite (delete_provider_failed r client s Hpolicy err Hdelete Hclass).
    simpl fst. simpl snd. simpl instance. simpl calls.
    rewrite providerDeletes_app, persisted_app. simpl.
    split; [reflexivity|]. split; [reflexivity|].
    split; [discriminate|intros _].
    split; [apply HasCondition_SetConditions1|].
    split; reflexivity.
Qed.

(** ** Reference resolution *)

Section Resolution.

Variable r : Embedded.
Variable s : State.

Lemma resolveReferences_skipped :
  referencesResolved (instance s) = true ->
  resolveReferences r s = (None, s).
Proof.
  unfold referencesResolved. intros Hres. unfold resolveReferences. run.
  rewrite Hres. reflexivity.
Qed.

Hypothesis Hunresolved : referencesResolved (instance s) = false.

Lemma resolveReferences_failed (err : error) :
  resource.ResolveReferences (ManagedReferenceResolver r) (instance s) = Some err ->
  let i' := SetConditions [resolutionFailure err] (instance s) in
  resolveReferences r s
  = (Some (reconcile.mkResult false aLongWait,
           errors.Wrap (client.Update (Client r) i') errUpdateManagedStatus),
     mkState i' (calls s ++ [CallResolveReferences (instance s); CallUpdate i'])).
Proof.
  unfold referencesResolved in Hunresolved. intros Herr i'. subst i'.
  unfold resolveReferences. run. rewrite Hunresolved. simpl. rewrite Herr.
  unfold resolutionFailure. simpl. rewrite <- app_assoc. reflexivity.
Qed.

Lemma resolveReferences_succeeded :
  resource.ResolveReferences (ManagedReferenceResolver r) (instance s) = None ->
  resolveReferences r s
  = (None,
     mkState (SetConditions [runtimev1alpha1.ReferenceResolutionSuccess] (instance s))
             (calls s ++ [CallResolveReferences (instance s)])).
Proof.
  unfold referencesResolved in Hunresolved. intros Hok.
  unfold resolveReferences. run. rewrite Hunresolved. simpl. rewrite Hok. reflexivity.
Qed.

End Resolution.

Lemma resolved_after_success (i : RDSInstance) :
  referencesResolved (SetConditions [runtimev1alpha1.ReferenceResolutionSuccess] i) = true.
Proof.
  unfold referencesResolved. rewrite GetCondition_SetConditions1. reflexivity.
Qed.

(** C5: let the record, once the provider client is built, not have a true
    ReferencesResolved condition.  A failed resolution sets one condition on
    it - ReferenceResolutionBlocked for an access error, ReconcileError
    otherwise - persists it and returns a requeue after 60 seconds; whatever
    the create, sync and delete phases are, none of them runs, and
    [Status.InstanceName] is what it was.  A successful resolution sets the
    ReferenceResolutionSuccess condition before the phase is selected, and a
    record whose ReferencesResolved condition is true reaches the phase
    selection with no call to the resolver. *)
Theorem reference_resolution_gates_the_phases
        (r : Reconciler) (request : reconcile.Request) (s s1 : State)
        (fetched : RDSInstance) (rdsClient : rds.Client) :
  client.Get (Client r) (reconcile.Key request) = inl fetched ->
  connect r (fetchedState request fetched s) = (inl rdsClient, s1) ->
  (forall err,
      referencesResolved (instance s1) = false ->
      resource.ResolveReferences (ManagedReferenceResolver r) (instance s1) = Some err ->
      let i' := SetConditions [resolutionFailure err] (instance s1) in
      (forall create' sync' delete',
          Reconcile (withPhases r create' sync' delete') request s
          = ((reconcile.mkResult false (60 * 1000000000),
              errors.Wrap (client.Update (Client r) i') errUpdateManagedStatus),
             mkState i' (calls s1 ++ [CallResolveReferences (instance s1); CallUpdate i'])))
      /\ HasCondition i' (resolutionFailure err)
      /\ resolutionFailure err
         = (if resource.IsReferencesAccessError err
            then runtimev1alpha1.ReferenceResolutionBlocked err
            else runtimev1alpha1.ReconcileError err)
      /\ InstanceName (Status i') = InstanceName (Status (instance s1)))
  /\ (referencesResolved (instance s1) = false ->
      resource.ResolveReferences (ManagedReferenceResolver r) (instance s1) = None ->
      let i' := SetConditions [runtimev1alpha1.ReferenceResolutionSuccess] (instance s1) in
      Reconcile r request s
      = selected r rdsClient (mkState i' (calls s1 ++ [CallResolveReferences (instance s1)]))
      /\ HasCondition i' runtimev1alpha1.ReferenceResolutionSuccess
      /\ referencesResolved i' = true)
  /\ (referencesResolved (instance s1) = true ->
      Reconcile r request s = selected r rdsClient s1).
Proof.
  intros Hget Hconnect.
  split; [|split].
  - intros err Hun Herr i'.
    split; [|split; [|split]].
    + intros c y d.
      apply (Reconcile_resolution_returned (withPhases r c y d) request s s1 _ fetched rdsClient);
        [exact Hget|exact Hconnect|].
      exact (resolveReferences_failed r s1 Hun err Herr).
    + apply HasCondition_SetConditions1.
    + reflexivity.
    + reflexivity.
  - intros Hun Hok i'.
    split; [|split].
    + apply (Reconcile_selects r request s s1 _ fetched rdsClient Hget Hconnect).
      exact (resolveReferences_succeeded r s1 Hun Hok).
    + apply HasCondition_SetConditions1.
    + apply resolved_after_success.
  - intros Hres.
    apply (Reconcile_selects r request s s1 _ fetched rdsClient Hget Hconnect).
    exact (resolveReferences_skipped r s1 Hres).
Qed.

(** ** The deletion timestamp is never written *)

Section Frame.

Lemma keeps_ret {A : Type} (a : A) : keepsDeletionTimestamp (ret a).
Proof. intros s. reflexivity. Qed.

Lemma keeps_load : keepsDeletionTimestamp load.
Proof. intros s. reflexivity. Qed.

Lemma keeps_call {A : Type} (c : Call) (answer : A) : keepsDeletionTimestamp (call c answer).
Proof. intros s. reflexivity. Qed.

Lemma keeps_modify (f : RDSInstance -> RDSInstance) :
  (forall i, DeletionTimestamp (Meta (f i)) = DeletionTimestamp (Meta i)) ->
  keepsDeletionTimestamp (modify f).
Proof. intros Hf s. apply Hf. Qed.

Lemma keeps_bind {A B : Type} (m : M A) (k : A -> M B) :
  keepsDeletionTimestamp m ->
  (forall a, keepsDeletionTimestamp (k a)) ->
  keepsDeletionTimestamp (bind m k).
Proof.
  intros Hm Hk s. unfold bind. specialize (Hm s).
  destruct (m s) as [a s']. simpl in Hm. rewrite (Hk a s'). exact Hm.
Qed.

Lemma AddFinalizer_DeletionTimestamp (f : string) (i : RDSInstance) :
  DeletionTimestamp (Meta (meta.AddFinalizer f i)) = DeletionTimestamp (Meta i).
Proof.
  unfold meta.AddFinalizer, withMeta. simpl.
  destruct (existsb (String.eqb f) (Finalizers (Meta i))); reflexivity.
Qed.

End Frame.

Create HintDb frame.

#[local] Hint Resolve keeps_ret keeps_load keeps_call keeps_bind : frame.
#[local] Hint Extern 1 (keepsDeletionTimestamp (modify _)) =>
  apply keeps_modify; intros;
  first [ reflexivity | apply AddFinalizer_DeletionTimestamp ] : frame.
#[local] Hint Extern 1 (keepsDeletionTimestamp (match ?x with _ => _ end)) =>
  destruct x : frame.

Lemma keeps_Update (r : Embedded) : keepsDeletionTimestamp (Update r).
Proof. unfold Update. auto with frame. Qed.

Lemma keeps_PublishConnection (r : Embedded) (c : resource.ConnectionDetails) :
  keepsDeletionTimestamp (PublishConnection r c).
Proof. unfold PublishConnection. auto with frame. Qed.

Lemma keeps_ResolveReferences (r : Embedded) : keepsDeletionTimestamp (ResolveReferences r).
Proof. unfold ResolveReferences. auto with frame. Qed.

#[local] Hint Resolve keeps_Update keeps_PublishConnection keeps_ResolveReferences : frame.

Lemma keeps_fail (r : Embedded) (err : error) : keepsDeletionTimestamp (fail r err).
Proof. unfold fail. auto with frame. Qed.

#[local] Hint Resolve keeps_fail : frame.

Lemma keeps_resolveReferences (r : Embedded) : keepsDeletionTimestamp (resolveReferences r).
Proof. unfold resolveReferences. auto 12 with frame. Qed.

Section FrameOfPhases.

Variable Config : Type.
Variable RetrieveAwsConfigFromProvider : option ObjectReference -> Config + error.
Variable NewClient : Config -> rds.Client.
Variable GeneratePassword : nat -> string + error.
Variable r : Embedded.
Variable client : rds.Client.

Lemma keeps_connect :
  keepsDeletionTimestamp (_connect Config RetrieveAwsConfigFromProvider NewClient r).
Proof. unfold _connect. auto 12 with frame. Qed.

Lemma keeps_create : keepsDeletionTimestamp (_create GeneratePassword r client).
Proof.
  unfold _create. auto 30 with frame.
Qed.

Lemma keeps_sync : keepsDeletionTimestamp (_sync r client).
Proof.
  unfold _sync. auto 30 with frame.
Qed.

Lemma keeps_delete : keepsDeletionTimestamp (_delete r client).
Proof.
  unfold _delete. auto 30 with frame.
Qed.

End FrameOfPhases.

(** [Reconcile] hands the fetched record's deletion timestamp through,
    whenever the four function fields do. *)
Lemma Reconcile_keeps_fetched_DeletionTimestamp
      (r : Reconciler) (request : reconcile.Request) (s : State) (fetched : RDSInstance) :
  keepsDeletionTimestamp (connect r) ->
  (forall c, keepsDeletionTimestamp (create r c)) ->
  (forall c, keepsDeletionTimestamp (sync r c)) ->
  (forall c, keepsDeletionTimestamp (delete r c)) ->
  client.Get (Client r) (reconcile.Key request) = inl fetched ->
  DeletionTimestamp (Meta (instance (snd (Reconcile r request s))))
  = DeletionTimestamp (Meta fetched).
Proof.
  intros Hconnect Hcreate Hsync Hdelete Hget.
  pose proof (Hconnect (fetchedState request fetched s)) as H1.
  destruct (connect r (fetchedState request fetched s)) as [[rdsClient|err] s1] eqn:Econnect;
    simpl in H1.
  - pose proof (keeps_resolveReferences r s1) as H2.
    destruct (resolveReferences r s1) as [[out|] s2] eqn:Eresolve; simpl in H2.
    + rewrite (Reconcile_resolution_returned r request s s1 s2 fetched rdsClient out
                 Hget Econnect Eresolve).
      simpl. congruence.
    + rewrite (Reconcile_selects r request s s1 s2 fetched rdsClient Hget Econnect Eresolve).
      unfold selected.
      destruct (DeletionTimestamp (Meta (instance s2))) eqn:Edel.
      * rewrite Hdelete. congruence.
      * destruct (InstanceName (Status (instance s2)) =? "").
        -- rewrite Hcreate. congruence.
        -- rewrite Hsync. congruence.
  - rewrite (Reconcile_connect_failed r request s s1 fetched err Hget Econnect).
    rewrite keeps_fail. exact H1.
Qed.

(** C8: no operation of the reconciler writes the deletion timestamp.  The
    connect, create, sync and delete phases return with the timestamp they
    were called with, and [Reconcile] returns with the timestamp of the
    record it fetched. *)
Theorem reconciler_never_writes_DeletionTimestamp
        (Config : Type)
        (RetrieveAwsConfigFromProvider : option ObjectReference -> Config + error)
        (NewClient : Config -> rds.Client)
        (GeneratePassword : nat -> string + error)
        (e : Embedded) :
  keepsDeletionTimestamp (_connect Config RetrieveAwsConfigFromProvider NewClient e)
  /\ (forall client, keepsDeletionTimestamp (_create GeneratePassword e client))
  /\ (forall client, keepsDeletionTimestamp (_sync e client))
  /\ (forall client, keepsDeletionTimestamp (_delete e client))
  /\ (forall request s fetched,
         client.Get (Client e) (reconcile.Key request) = inl fetched ->
         DeletionTimestamp
           (Meta (instance (snd (Reconcile
                                   (SetupWithManager Config RetrieveAwsConfigFromProvider
                                                     NewClient GeneratePassword e)
                                   request s))))
         = DeletionTimestamp (Meta fetched)).
Proof.
  split; [apply keeps_connect|].
  split; [intros; apply keeps_create|].
  split; [intros; apply keeps_sync|].
  split; [intros; apply keeps_delete|].
  intros request s fetched Hget.
  apply Reconcile_keeps_fetched_DeletionTimestamp.
  - apply keeps_connect.
  - intros; apply keeps_create.
  - intros; apply keeps_sync.
  - intros; apply keeps_delete.
  - exact Hget.
Qed.


(** ** The statements on the concrete world *)


(** A missing record: the empty result, and the fetch is the only call. *)
Lemma Reconcile_record_not_found_witness :
  client.Get (Client World.gone) (reconcile.Key World.request) = inr (World.boom KubeNotFound)
  /\ kerrors.IsNotFound (World.boom KubeNotFound) = true
  /\ Reconcile World.gone World.request (World.start zero)
     = ((reconcile.mkResult false 0, None), mkState zero [CallGet World.key]).
Proof.
  split; [reflexivity|]. split; [reflexivity|].
  exact (proj1 (Reconcile_record_not_found World.gone World.request (World.start zero)
                  (World.boom KubeNotFound) eq_refl eq_refl)).
Defined.

(** The provider already has the instance: the name is set, the finalizer
    added, nothing published. *)
Lemma create_AlreadyExists_witness :
  World.GeneratePassword 20 = inl "s3cr3t-s3cr3t-s3cr3t"
  /\ rds.CreateInstance World.taken "postgres-7c1e" "s3cr3t-s3cr3t-s3cr3t" (Spec World.fresh)
     = Some (World.boom RDSAlreadyExists)
  /\ rds.IsErrorAlreadyExists (Some (World.boom RDSAlreadyExists)) = true
  /\ published (calls (snd (_create World.GeneratePassword World.willing World.taken
                                    (World.start World.fresh)))) = []
  /\ InstanceName (Status (instance (snd (_create World.GeneratePassword World.willing
                                                  World.taken (World.start World.fresh)))))
     = "postgres-7c1e".
Proof.
  split; [reflexivity|]. split; [reflexivity|]. split; [reflexivity|].
  pose proof (create_AlreadyExists_succeeds_without_publishing
                World.GeneratePassword World.willing World.taken (World.start World.fresh)
                "s3cr3t-s3cr3t-s3cr3t" (World.boom RDSAlreadyExists)
                eq_refl eq_refl eq_refl) as H.
  split; [exact (proj1 H)|exact (proj1 (proj2 H))].
Defined.

(** The provider refuses the create: the name stays empty. *)
Lemma create_provider_error_witness :
  World.GeneratePassword 20 = inl "s3cr3t-s3cr3t-s3cr3t"
  /\ rds.CreateInstance World.broken "postgres-7c1e" "s3cr3t-s3cr3t-s3cr3t" (Spec World.fresh)
     = Some (World.boom Unclassified)
  /\ rds.IsErrorAlreadyExists (Some (World.boom Unclassified)) = false
  /\ InstanceName (Status (World.fresh)) = ""
  /\ HasCondition (instance (snd (_create World.GeneratePassword World.willing World.broken
                                          (World.start World.fresh))))
                  (runtimev1alpha1.ReconcileError (World.boom Unclassified))
  /\ InstanceName (Status (instance (snd (_create World.GeneratePassword World.willing
                                                  World.broken (World.start World.fresh)))))
     = "".
Proof.
  split; [reflexivity|]. split; [reflexivity|]. split; [reflexivity|]. split; [reflexivity|].
  pose proof (create_provider_error_keeps_name_empty
                World.GeneratePassword World.willing World.broken (World.start World.fresh)
                "s3cr3t-s3cr3t-s3cr3t" (World.boom Unclassified)
                eq_refl eq_refl eq_refl) as H.
  split; [exact (proj1 H)|].
  exact (proj1 (proj2 (proj2 (proj2 (proj2 H)))) eq_refl).
Defined.

(** The password generator fails: Creating and ReconcileError side by side. *)
Lemma create_always_leaves_Creating_witness :
  World.noEntropy 20 = inr (World.boom Unclassified)
  /\ HasCondition (instance (snd (_create World.noEntropy World.willing World.healthy
                                          (World.start World.fresh))))
                  runtimev1alpha1.Creating
  /\ HasCondition (instance (snd (_create World.noEntropy World.willing World.healthy
                                          (World.start World.fresh))))
                  (runtimev1alpha1.ReconcileError (World.boom Unclassified)).
Proof.
  split; [reflexivity|].
  pose proof (create_always_leaves_Creating
                World.noEntropy World.willing World.healthy (World.start World.fresh)) as H.
  split; [exact (proj1 H)|].
  exact (proj1 (proj2 (proj2 H)) (World.boom Unclassified) eq_refl).
Defined.

(** An available external resource and a willing publisher. *)
Lemma sync_dispatches_on_external_state_witness :
  rds.GetInstance World.healthy (InstanceName (Status World.provisioned))
  = inl (World.db "available")
  /\ rds.Status (World.db "available") = RDSInstanceStateAvailable
  /\ resource.PublishConnection (ManagedConnectionPublisher World.willing)
       (ready World.provisioned (World.db "available"))
       (connection World.provisioned (World.db "available")) = None
  /\ HasCondition (instance (snd (_sync World.willing World.healthy
                                        (World.start World.provisioned))))
                  runtimev1alpha1.ReconcileSuccess
  /\ fst (_sync World.willing World.healthy (World.start World.provisioned))
     = (reconcile.mkResult false 0, None).
Proof.
  split; [reflexivity|]. split; [reflexivity|]. split; [reflexivity|].
  pose proof (sync_dispatches_on_external_state
                World.willing World.healthy (World.start World.provisioned)
                (World.db "available") eq_refl) as H.
  destruct H as [_ [_ [Havailable _]]].
  destruct (Havailable eq_refl) as [_ [_ [_ [_ [_ [_ [Hpublished _]]]]]]].
  destruct (Hpublished eq_refl) as [_ [Hcond Hout]].
  split; [exact Hcond|exact Hout].
Defined.

(** C2, as the claim states it, fails: the external state is [available]
    and the provider's get succeeds, yet the publisher fails, so the sync
    phase leaves ReconcileError instead of ReconcileSuccess and returns an
    immediate requeue instead of none. *)
Lemma sync_available_publish_failure_counterexample :
  rds.GetInstance World.healthy (InstanceName (Status World.provisioned))
  = inl (World.db "available")
  /\ rds.Status (World.db "available") = RDSInstanceStateAvailable
  /\ fst (fst (_sync World.mute World.healthy (World.start World.provisioned)))
     = reconcile.mkResult true 0
  /\ GetCondition (instance (snd (_sync World.mute World.healthy
                                        (World.start World.provisioned))))
                  runtimev1alpha1.TypeSynced
     = runtimev1alpha1.ReconcileError (World.boom Unclassified)
  /\ ~ (HasCondition (instance (snd (_sync World.mute World.healthy
                                           (World.start World.provisioned))))
                     runtimev1alpha1.ReconcileSuccess
        /\ reconcile.Requeue (fst (fst (_sync World.mute World.healthy
                                              (World.start World.provisioned)))) = false).
Proof.
  split; [reflexivity|]. split; [reflexivity|]. split; [reflexivity|]. split; [reflexivity|].
  intros [_ Hrequeue]. vm_compute in Hrequeue. discriminate Hrequeue.
Qed.

(** Reclaim policy Retain: the provider is not asked to delete. *)
Lemma delete_Retain_witness :
  ReclaimPolicy (Spec (World.retained (World.deleted World.provisioned)))
  = runtimev1alpha1.ReclaimRetain
  /\ calls (snd (_delete World.willing World.healthy
                         (World.start (World.retained (World.deleted World.provisioned)))))
     = [CallUpdate (released (World.retained (World.deleted World.provisioned)))]
  /\ Finalizers (Meta (instance (snd (_delete World.willing World.healthy
                         (World.start (World.retained (World.deleted World.provisioned)))))))
     = [].
Proof.
  split; [reflexivity|].
  pose proof (delete_Retain_never_calls_provider
                World.willing World.healthy
                (World.start (World.retained (World.deleted World.provisioned)))
                eq_refl) as H.
  split; [exact (proj1 (proj2 H))|reflexivity].
Defined.

(** Reclaim policy Delete and an external resource that is already gone. *)
Lemma delete_absorbs_NotFound_witness :
  ReclaimPolicy (Spec (World.deleted World.provisioned)) = runtimev1alpha1.ReclaimDelete
  /\ rds.DeleteInstance World.vanished (InstanceName (Status (World.deleted World.provisioned)))
     = Some (World.boom RDSNotFound)
  /\ rds.IsErrorNotFound (Some (World.boom RDSNotFound)) = true
  /\ HasCondition (instance (snd (_delete World.willing World.vanished
                                          (World.start (World.deleted World.provisioned)))))
                  runtimev1alpha1.ReconcileSuccess
  /\ fst (_delete World.willing World.vanished (World.start (World.deleted World.provisioned)))
     = (reconcile.mkResult false 0, None).
Proof.
  split; [reflexivity|]. split; [reflexivity|]. split; [reflexivity|].
  pose proof (delete_absorbs_NotFound_and_fails_otherwise
                World.willing World.vanished (World.start (World.deleted World.provisioned))
                (World.boom RDSNotFound) eq_refl eq_refl) as H.
  destruct H as [_ [_ [Habsorbed _]]].
  destruct (Habsorbed eq_refl) as [_ [Hcond [_ Hout]]].
  split; [exact Hcond|exact Hout].
Defined.

(** A resolver that is denied access: blocked, requeue after a minute. *)
Lemma reference_resolution_witness :
  client.Get (Client World.blocked) (reconcile.Key World.request) = inl World.fresh
  /\ connect World.blocked (fetchedState World.request World.fresh (World.start zero))
     = (inl World.healthy, World.blockedConnected)
  /\ referencesResolved (instance World.blockedConnected) = false
  /\ resource.ResolveReferences (ManagedReferenceResolver World.blocked)
       (instance World.blockedConnected) = Some (World.boom ReferencesAccess)
  /\ fst (Reconcile World.blocked World.request (World.start zero))
     = (reconcile.mkResult false 60000000000, None)
  /\ Conditions (Status (instance (snd (Reconcile World.blocked World.request
                                                  (World.start zero)))))
     = [runtimev1alpha1.ReferenceResolutionBlocked (World.boom ReferencesAccess)].
Proof.
  split; [reflexivity|]. split; [reflexivity|]. split; [reflexivity|]. split; [reflexivity|].
  pose proof (reference_resolution_gates_the_phases
                World.blocked World.request (World.start zero) World.blockedConnected
                World.fresh World.healthy eq_refl eq_refl) as H.
  destruct H as [Hfailed _].
  destruct (Hfailed (World.boom ReferencesAccess) eq_refl eq_refl) as [Hrun _].
  specialize (Hrun (create World.blocked) (sync World.blocked) (delete World.blocked)).
  change (withPhases World.blocked (create World.blocked) (sync World.blocked)
                     (delete World.blocked)) with World.blocked in Hrun.
  rewrite Hrun. split; reflexivity.
Defined.

(** A record marked for deletion keeps its timestamp through [Reconcile]. *)
Lemma reconciler_never_writes_DeletionTimestamp_witness :
  client.Get (Client World.leaving) (reconcile.Key World.request)
  = inl (World.deleted World.provisioned)
  /\ DeletionTimestamp (Meta (instance (snd (Reconcile World.leaving World.request
                                                       (World.start zero)))))
     = Some 1572480000%Z.
Proof.
  split; [reflexivity|].
  exact (proj2 (proj2 (proj2 (proj2
           (reconciler_never_writes_DeletionTimestamp
              World.Config World.RetrieveAwsConfigFromProvider (fun _ => World.healthy)
              World.GeneratePassword
              (World.collaborators (inl (World.deleted World.provisioned)) None None)))))
           World.request (World.start zero) (World.deleted World.provisioned) eq_refl).
Defined.

(** ** The paths of the phases

    Each phase, on every input, ends in one of a few ways; a property of the
    phase is a property of each. *)

Lemma finishes_persistedOnce (r : Embedded) (s : State) (pre : list Call)
      (res : reconcile.Result) (i' : RDSInstance) :
  persisted pre = [] ->
  persistedOnce r s (finishes r s pre res i').
Proof.
  intros Hpre. unfold persistedOnce, finishes. simpl.
  split; [|split].
  - exists (calls s ++ pre)%list. rewrite app_assoc. reflexivity.
  - rewrite !persisted_app, Hpre. reflexivity.
  - reflexivity.
Qed.

Lemma fail_finishes (r : Embedded) (err : error) (s : State) :
  fail r err s
  = finishes r s [] (reconcile.mkResult true 0)
             (SetConditions [runtimev1alpha1.ReconcileError err] (instance s)).
Proof. reflexivity. Qed.

Lemma create_paths (P : Outcome * State -> Prop)
      (GeneratePassword : nat -> string + error) (r : Embedded) (client : rds.Client)
      (s : State) :
  (forall err,
      GeneratePassword 20 = inr err ->
      P (finishes r s [CallGeneratePassword 20]
                  (reconcile.mkResult true 0) (createFailed (instance s) err))) ->
  (forall password err,
      GeneratePassword 20 = inl password ->
      rds.CreateInstance client (nameOf (instance s)) password (Spec (instance s)) = Some err ->
      rds.IsErrorAlreadyExists (Some err) = false ->
      P (finishes r s [CallGeneratePassword 20;
                       CallCreateInstance (nameOf (instance s)) password (Spec (instance s))]
                  (reconcile.mkResult true 0) (createFailed (instance s) err))) ->
  (forall password err,
      GeneratePassword 20 = inl password ->
      rds.CreateInstance client (nameOf (instance s)) password (Spec (instance s)) = Some err ->
      rds.IsErrorAlreadyExists (Some err) = true ->
      P (finishes r s [CallGeneratePassword 20;
                       CallCreateInstance (nameOf (instance s)) password (Spec (instance s))]
                  resultRequeue (created (instance s)))) ->
  (forall password err,
      GeneratePassword 20 = inl password ->
      rds.CreateInstance client (nameOf (instance s)) password (Spec (instance s)) = None ->
      resource.PublishConnection (ManagedConnectionPublisher r) (creating (instance s))
                                 (credentials (instance s) password) = Some err ->
      P (finishes r s [CallGeneratePassword 20;
                       CallCreateInstance (nameOf (instance s)) password (Spec (instance s));
                       CallPublishConnection (creating (instance s))
                                             (credentials (instance s) password)]
                  (reconcile.mkResult true 0) (createFailed (instance s) err))) ->
  (forall password,
      GeneratePassword 20 = inl password ->
      rds.CreateInstance client (nameOf (instance s)) password (Spec (instance s)) = None ->
      resource.PublishConnection (ManagedConnectionPublisher r) (creating (instance s))
                                 (credentials (instance s) password) = None ->
      P (finishes r s [CallGeneratePassword 20;
                       CallCreateInstance (nameOf (instance s)) password (Spec (instance s));
                       CallPublishConnection (creating (instance s))
                                             (credentials (instance s) password)]
                  resultRequeue (created (instance s)))) ->
  P (_create GeneratePassword r client s).
Proof.
  intros Hpassword Hprovider Hexists Hpublish Hdone.
  destruct (GeneratePassword 20) as [password|err] eqn:Hpw.
  - destruct (rds.CreateInstance client (nameOf (instance s)) password (Spec (instance s)))
      as [err|] eqn:Hcreate.
    + destruct (rds.IsErrorAlreadyExists (Some err)) eqn:Hclass.
      * rewrite (create_already_exists _ r client s password err Hpw Hcreate Hclass).
        exact (Hexists password err eq_refl Hcreate Hclass).
      * rewrite (create_provider_failed _ r client s password err Hpw Hcreate Hclass).
        exact (Hprovider password err eq_refl Hcreate Hclass).
    + destruct (resource.PublishConnection (ManagedConnectionPublisher r)
                  (creating (instance s)) (credentials (instance s) password))
        as [err|] eqn:Hpub.
      * rewrite (create_publish_failed _ r client s password err Hpw Hcreate Hpub).
        exact (Hpublish password err eq_refl Hcreate Hpub).
      * rewrite (create_succeeded _ r client s password Hpw Hcreate Hpub).
        exact (Hdone password eq_refl Hcreate Hpub).
  - rewrite (create_password_failed _ r client s err Hpw).
    exact (Hpassword err eq_refl).
Qed.

Lemma sync_paths (P : Outcome * State -> Prop) (r : Embedded) (client : rds.Client) (s : State) :
  let name := InstanceName (Status (instance s)) in
  (forall err,
      rds.GetInstance client name = inr err ->
      P (finishes r s [CallGetInstance name] (reconcile.mkResult true 0)
                  (SetConditions [runtimev1alpha1.ReconcileError err] (instance s)))) ->
  (forall db,
      rds.GetInstance client name = inl db ->
      rds.Status db = RDSInstanceStateCreating ->
      P (finishes r s [CallGetInstance name] resultRequeue
                  (SetConditions [runtimev1alpha1.Creating; runtimev1alpha1.ReconcileSuccess]
                                 (observed (instance s) db)))) ->
  (forall db,
      rds.GetInstance client name = inl db ->
      rds.Status db = RDSInstanceStateFailed ->
      P (finishes r s [CallGetInstance name] result
                  (SetConditions [runtimev1alpha1.Unavailable; runtimev1alpha1.ReconcileSuccess]
                                 (observed (instance s) db)))) ->
  (forall db,
      rds.GetInstance client name = inl db ->
      rds.Status db = RDSInstanceStateAvailable ->
      resource.PublishConnection (ManagedConnectionPublisher r) (ready (instance s) db)
                                 (connection (instance s) db) = None ->
      P (finishes r s [CallGetInstance name;
                       CallPublishConnection (ready (instance s) db)
                                             (connection (instance s) db)]
                  result
                  (SetConditions [runtimev1alpha1.ReconcileSuccess] (ready (instance s) db)))) ->
  (forall db err,
      rds.GetInstance client name = inl db ->
      rds.Status db = RDSInstanceStateAvailable ->
      resource.PublishConnection (ManagedConnectionPublisher r) (ready (instance s) db)
                                 (connection (instance s) db) = Some err ->
      P (finishes r s [CallGetInstance name;
                       CallPublishConnection (ready (instance s) db)
                                             (connection (instance s) db)]
                  (reconcile.mkResult true 0)
                  (SetConditions [runtimev1alpha1.ReconcileError err] (ready (instance s) db)))) ->
  (forall db,
      rds.GetInstance client name = inl db ->
      rds.Status db <> RDSInstanceStateCreating ->
      rds.Status db <> RDSInstanceStateFailed ->
      rds.Status db <> RDSInstanceStateAvailable ->
      P (finishes r s [CallGetInstance name] (reconcile.mkResult true 0)
                  (SetConditions
                     [runtimev1alpha1.ReconcileError
                        (errors.Errorf ("unexpected resource status: " ++ rds.Status db))]
                     (observed (instance s) db)))) ->
  P (_sync r client s).
Proof.
  intros name Hfail Hcreating Hfailed Havailable Hmute Hother. subst name.
  destruct (rds.GetInstance client (InstanceName (Status (instance s)))) as [db|err] eqn:Hget.
  - destruct (String.eqb_spec (rds.Status db) RDSInstanceStateCreating) as [Hc|Hc].
    { rewrite (sync_creating r client s db Hget Hc). exact (Hcreating db eq_refl Hc). }
    destruct (String.eqb_spec (rds.Status db) RDSInstanceStateFailed) as [Hf|Hf].
    { rewrite (sync_failed r client s db Hget Hf). exact (Hfailed db eq_refl Hf). }
    destruct (String.eqb_spec (rds.Status db) RDSInstanceStateAvailable) as [Ha|Ha].
    { destruct (resource.PublishConnection (ManagedConnectionPublisher r)
                  (ready (instance s) db) (connection (instance s) db)) as [err|] eqn:Hpub.
      - rewrite (sync_available_publish_failed r client s db Hget err Ha Hpub).
        exact (Hmute db err eq_refl Ha Hpub).
      - rewrite (sync_available_published r client s db Hget Ha Hpub).
        exact (Havailable db eq_refl Ha Hpub). }
    rewrite (sync_unexpected r client s db Hget Hc Hf Ha).
    exact (Hother db eq_refl Hc Hf Ha).
  - rewrite (sync_get_failed r client s err Hget). rewrite fail_finishes.
    specialize (Hfail err eq_refl). unfold finishes in *.
    cbn [calls instance app] in *. rewrite <- app_assoc. exact Hfail.
Qed.

Lemma delete_paths (P : Outcome * State -> Prop) (r : Embedded) (client : rds.Client) (s : State) :
  let name := InstanceName (Status (instance s)) in
  (ReclaimPolicy (Spec (instance s)) <> runtimev1alpha1.ReclaimDelete ->
   P (finishes r s [] result (released (instance s)))) ->
  (forall answer,
      ReclaimPolicy (Spec (instance s)) = runtimev1alpha1.ReclaimDelete ->
      rds.DeleteInstance client name = answer ->
      answer = None \/ rds.IsErrorNotFound answer = true ->
      P (finishes r s [CallDeleteInstance name] result (released (instance s)))) ->
  (forall err,
      ReclaimPolicy (Spec (instance s)) = runtimev1alpha1.ReclaimDelete ->
      rds.DeleteInstance client name = Some err ->
      rds.IsErrorNotFound (Some err) = false ->
      P (finishes r s [CallDeleteInstance name] (reconcile.mkResult true 0)
                  (deleteFailed (instance s) err))) ->
  P (_delete r client s).
Proof.
  intros name Hskip Hdone Hfail. subst name.
  destruct (String.eqb_spec (ReclaimPolicy (Spec (instance s))) runtimev1alpha1.ReclaimDelete)
    as [Hpolicy|Hpolicy].
  - destruct (rds.DeleteInstance client (InstanceName (Status (instance s))))
      as [err|] eqn:Hdelete.
    + destruct (rds.IsErrorNotFound (Some err)) eqn:Hclass.
      * rewrite (delete_completed r client s Hpolicy (Some err) Hdelete (or_intror Hclass)).
        exact (Hdone (Some err) Hpolicy eq_refl (or_intror Hclass)).
      * rewrite (delete_provider_failed r client s Hpolicy err Hdelete Hclass).
        exact (Hfail err Hpolicy eq_refl Hclass).
    + rewrite (delete_completed r client s Hpolicy None Hdelete (or_introl eq_refl)).
      exact (Hdone None Hpolicy eq_refl (or_introl eq_refl)).
  - rewrite (delete_skips_provider r client s Hpolicy). exact (Hskip Hpolicy).
Qed.

(** ** The paths of [Reconcile] as [SetupWithManager] wires it *)

Section WiredReconcile.

Variable Config : Type.
Variable RetrieveAwsConfigFromProvider : option ObjectReference -> Config + error.
Variable NewClient : Config -> rds.Client.
Variable GeneratePassword : nat -> string + error.
Variable e : Embedded.

Lemma connect_runs (s : State) :
  _connect Config RetrieveAwsConfigFromProvider NewClient e s
  = (match RetrieveAwsConfigFromProvider (ProviderReference (Spec (instance s))) with
     | inl config => inl (NewClient config)
     | inr err => inr err
     end,
     mkState (instance s)
             (calls s ++ [CallRetrieveAwsConfigFromProvider
                            (ProviderReference (Spec (instance s)))])).
Proof.
  unfold _connect. run.
  destruct (RetrieveAwsConfigFromProvider (ProviderReference (Spec (instance s))));
    reflexivity.
Qed.

Lemma Reconcile_paths (P : Outcome * State -> Prop) (request : reconcile.Request) (s : State) :
  let r := SetupWithManager Config RetrieveAwsConfigFromProvider NewClient GeneratePassword e in
  let key := reconcile.Key request in
  (forall err,
      client.Get (Client e) key = inr err ->
      P ((reconcile.empty, if kerrors.IsNotFound err then None else Some err),
         mkState zero (calls s ++ [CallGet key]))) ->
  (forall fetched err,
      client.Get (Client e) key = inl fetched ->
      RetrieveAwsConfigFromProvider (ProviderReference (Spec fetched)) = inr err ->
      P (finishes e s [CallGet key;
                       CallRetrieveAwsConfigFromProvider (ProviderReference (Spec fetched))]
                  (reconcile.mkResult true 0)
                  (SetConditions [runtimev1alpha1.ReconcileError err] fetched))) ->
  (forall fetched config err,
      client.Get (Client e) key = inl fetched ->
      RetrieveAwsConfigFromProvider (ProviderReference (Spec fetched)) = inl config ->
      referencesResolved fetched = false ->
      resource.ResolveReferences (ManagedReferenceResolver e) fetched = Some err ->
      let i' := SetConditions [resolutionFailure err] fetched in
      P ((reconcile.mkResult false aLongWait,
          errors.Wrap (client.Update (Client e) i') errUpdateManagedStatus),
         mkState i' (calls s ++ [CallGet key;
                                 CallRetrieveAwsConfigFromProvider
                                   (ProviderReference (Spec fetched));
                                 CallResolveReferences fetched] ++ [CallUpdate i']))) ->
  (forall fetched config,
      client.Get (Client e) key = inl fetched ->
      RetrieveAwsConfigFromProvider (ProviderReference (Spec fetched)) = inl config ->
      referencesResolved fetched = true ->
      P (selected r (NewClient config)
                  (mkState fetched
                           (calls s ++ [CallGet key;
                                        CallRetrieveAwsConfigFromProvider
                                          (ProviderReference (Spec fetched))])))) ->
  (forall fetched config,
      client.Get (Client e) key = inl fetched ->
      RetrieveAwsConfigFromProvider (ProviderReference (Spec fetched)) = inl config ->
      referencesResolved fetched = false ->
      resource.ResolveReferences (ManagedReferenceResolver e) fetched = None ->
      P (selected r (NewClient config)
                  (mkState (SetConditions [runtimev1alpha1.ReferenceResolutionSuccess] fetched)
                           (calls s ++ [CallGet key;
                                        CallRetrieveAwsConfigFromProvider
                                          (ProviderReference (Spec fetched));
                                        CallResolveReferences fetched])))) ->
  P (Reconcile r request s).
Proof.
  intros r key Hmissing Hconnect Hblocked Hresolved Hresolves. subst key.
  destruct (client.Get (Client e) (reconcile.Key request)) as [fetched|err] eqn:Hget.
  - pose proof (connect_runs (fetchedState request fetched s)) as Hrun.
    cbn [instance calls fetchedState] in Hrun.
    set (s1 := mkState fetched
                 ((calls s ++ [CallGet (reconcile.Key request)]) ++
                  [CallRetrieveAwsConfigFromProvider (ProviderReference (Spec fetched))]))
      in Hrun.
    destruct (RetrieveAwsConfigFromProvider (ProviderReference (Spec fetched)))
      as [config|err] eqn:Hconfig.
    + destruct (referencesResolved fetched) eqn:Hres.
      * rewrite (Reconcile_selects r request s s1 s1 fetched (NewClient config) Hget Hrun
                   (resolveReferences_skipped e s1 Hres)).
        subst s1. rewrite <- app_assoc.
        exact (Hresolved fetched config eq_refl Hconfig Hres).
      * destruct (resource.ResolveReferences (ManagedReferenceResolver e) fetched)
          as [err|] eqn:Hresolve.
        -- rewrite (Reconcile_resolution_returned r request s s1 _ fetched (NewClient config) _
                      Hget Hrun (resolveReferences_failed e s1 Hres err Hresolve)).
           subst s1. cbn [instance calls]. rewrite <- !app_assoc.
           exact (Hblocked fetched config err eq_refl Hconfig Hres Hresolve).
        -- rewrite (Reconcile_selects r request s s1 _ fetched (NewClient config) Hget Hrun
                      (resolveReferences_succeeded e s1 Hres Hresolve)).
           subst s1. cbn [instance calls]. rewrite <- !app_assoc.
           exact (Hresolves fetched config eq_refl Hconfig Hres Hresolve).
    + rewrite (Reconcile_connect_failed r request s s1 fetched err Hget Hrun).
      rewrite fail_finishes. subst s1. unfold finishes. cbn [instance calls].
      rewrite <- !app_assoc.
      exact (Hconnect fetched err eq_refl Hconfig).
  - rewrite (Reconcile_fetch_failed r request s err Hget).
    exact (Hmissing err eq_refl).
Qed.

End WiredReconcile.

Lemma selected_paths (P : Outcome * State -> Prop) (r : Reconciler) (rdsClient : rds.Client)
      (s : State) :
  (DeletionTimestamp (Meta (instance s)) <> None -> P (delete r rdsClient s)) ->
  (DeletionTimestamp (Meta (instance s)) = None ->
   InstanceName (Status (instance s)) = "" -> P (create r rdsClient s)) ->
  (DeletionTimestamp (Meta (instance s)) = None ->
   InstanceName (Status (instance s)) <> "" -> P (sync r rdsClient s)) ->
  P (selected r rdsClient s).
Proof.
  intros Hdelete Hcreate Hsync. unfold selected.
  destruct (DeletionTimestamp (Meta (instance s))) eqn:Hdel.
  - apply Hdelete. discriminate.
  - destruct (String.eqb_spec (InstanceName (Status (instance s))) "") as [Hname|Hname].
    + exact (Hcreate eq_refl Hname).
    + exact (Hsync eq_refl Hname).
Qed.

(** ** Errors of the fetch and of the connect *)

(** X1: a fetch error other than NotFound is returned as it is, with the
    empty result; the record in hand is still the zero value and the fetch
    is the only call made. *)
Theorem Reconcile_fetch_error_is_returned
        (r : Reconciler) (request : reconcile.Request) (s : State) (err : error) :
  client.Get (Client r) (reconcile.Key request) = inr err ->
  kerrors.IsNotFound err = false ->
  Reconcile r request s
  = ((reconcile.mkResult false 0, Some err),
     mkState zero (calls s ++ [CallGet (reconcile.Key request)])).
Proof.
  intros Hget Hclass.
  rewrite (Reconcile_fetch_failed r request s err Hget), Hclass. reflexivity.
Qed.

(** X2: when the provider client cannot be built, [Reconcile] records the
    error on the fetched record, persists it and asks for an immediate
    requeue; it calls neither the resolver nor the provider, and it leaves
    the finalizers alone, also when the record is marked for deletion. *)
Theorem Reconcile_connect_failure_only_records_the_error
        (Config : Type)
        (RetrieveAwsConfigFromProvider : option ObjectReference -> Config + error)
        (NewClient : Config -> rds.Client)
        (GeneratePassword : nat -> string + error)
        (e : Embedded) (request : reconcile.Request) (s : State)
        (fetched : RDSInstance) (err : error) :
  client.Get (Client e) (reconcile.Key request) = inl fetched ->
  RetrieveAwsConfigFromProvider (ProviderReference (Spec fetched)) = inr err ->
  let out := Reconcile (SetupWithManager Config RetrieveAwsConfigFromProvider NewClient
                                         GeneratePassword e) request s in
  let i' := SetConditions [runtimev1alpha1.ReconcileError err] fetched in
  out = ((reconcile.mkResult true 0, client.Update (Client e) i'),
         mkState i' (calls s ++ [CallGet (reconcile.Key request);
                                 CallRetrieveAwsConfigFromProvider
                                   (ProviderReference (Spec fetched));
                                 CallUpdate i']))
  /\ resolverCalls (calls (snd out)) = resolverCalls (calls s)
  /\ providerCalls (calls (snd out)) = providerCalls (calls s)
  /\ Meta (instance (snd out)) = Meta fetched
  /\ InstanceName (Status (instance (snd out))) = InstanceName (Status fetched).
Proof.
  intros Hget Hconfig out i'.
  assert (Hout : out = finishes e s [CallGet (reconcile.Key request);
                                     CallRetrieveAwsConfigFromProvider
                                       (ProviderReference (Spec fetched))]
                                (reconcile.mkResult true 0) i').
  { subst out i'. apply Reconcile_paths; intros; congruence. }
  rewrite Hout. unfold finishes. cbn [fst snd instance calls app].
  split; [reflexivity|].
  unfold resolverCalls, providerCalls.
  rewrite flat_map_app, filter_app. cbn. rewrite !app_nil_r.
  repeat split.
Qed.

(** ** Persisting *)


Lemma create_persistedOnce (GeneratePassword : nat -> string + error) (r : Embedded)
      (client : rds.Client) (s : State) :
  persistedOnce r s (_create GeneratePassword r client s).
Proof. apply create_paths; intros; apply finishes_persistedOnce; reflexivity. Qed.

Lemma sync_persistedOnce (r : Embedded) (client : rds.Client) (s : State) :
  persistedOnce r s (_sync r client s).
Proof. apply sync_paths; intros; apply finishes_persistedOnce; reflexivity. Qed.

Lemma delete_persistedOnce (r : Embedded) (client : rds.Client) (s : State) :
  persistedOnce r s (_delete r client s).
Proof. apply delete_paths; intros; apply finishes_persistedOnce; reflexivity. Qed.


(** X4: for a fetched record, [Reconcile] as wired persists exactly once,
    as its last call, the record it leaves; the error it returns is nil
    exactly when that update succeeded. *)
Theorem Reconcile_persists_once_and_reports_it
        (Config : Type)
        (RetrieveAwsConfigFromProvider : option ObjectReference -> Config + error)
        (NewClient : Config -> rds.Client)
        (GeneratePassword : nat -> string + error)
        (e : Embedded) (request : reconcile.Request) (s : State) (fetched : RDSInstance) :
  client.Get (Client e) (reconcile.Key request) = inl fetched ->
  let out := Reconcile (SetupWithManager Config RetrieveAwsConfigFromProvider NewClient
                                         GeneratePassword e) request s in
  (exists earlier, calls (snd out) = (earlier ++ [CallUpdate (instance (snd out))])%list)
  /\ persisted (calls (snd out)) = (persisted (calls s) ++ [instance (snd out)])%list
  /\ (snd (fst out) = None <-> client.Update (Client e) (instance (snd out)) = None).
Proof.
  intros Hget out. subst out.
  assert (Hphase : forall s2 (o : Outcome * State),
             persisted (calls s2) = persisted (calls s) ->
             persistedOnce e s2 o ->
             (exists earlier, calls (snd o) = (earlier ++ [CallUpdate (instance (snd o))])%list)
             /\ persisted (calls (snd o)) = (persisted (calls s) ++ [instance (snd o)])%list
             /\ (snd (fst o) = None <-> client.Update (Client e) (instance (snd o)) = None)).
  { intros s2 o Hsame [Hlast [Hone Herr]].
    split; [exact Hlast|]. split; [rewrite Hone, Hsame; reflexivity|].
    rewrite Herr. tauto. }
  assert (Hselected : forall rdsClient s2,
             persistedOnce e s2
               (selected (SetupWithManager Config RetrieveAwsConfigFromProvider NewClient
                                           GeneratePassword e) rdsClient s2)).
  { intros rdsClient s2.
    apply selected_paths; intros;
      [apply delete_persistedOnce|apply create_persistedOnce|apply sync_persistedOnce]. }
  apply Reconcile_paths.
  - intros err Herr. congruence.
  - intros fetched0 err _ _. apply (Hphase s); [reflexivity|].
    apply finishes_persistedOnce. reflexivity.
  - intros fetched0 config err _ _ _ _ i'. cbn [fst snd instance calls].
    split; [|split].
    + eexists. rewrite app_assoc. reflexivity.
    + rewrite !persisted_app. cbn. reflexivity.
    + unfold errors.Wrap. destruct (client.Update (Client e) i'); split; congruence.
  - intros fetched0 config _ _ _. eapply Hphase; [|apply Hselected].
    cbn [calls]. rewrite persisted_app. cbn. apply app_nil_r.
  - intros fetched0 config _ _ _ _. eapply Hphase; [|apply Hselected].
    cbn [calls]. rewrite persisted_app. cbn. apply app_nil_r.
Qed.

(** ** The create phase, on every path *)

Lemma nameOf_nonempty (i : RDSInstance) : nameOf i <> "".
Proof.
  unfold nameOf. destruct (Engine (Spec i)); simpl; discriminate.
Qed.

Lemma createFailed_not_ReconcileSuccess (i : RDSInstance) (err : error) :
  ~ HasCondition (createFailed i err) runtimev1alpha1.ReconcileSuccess.
Proof.
  unfold HasCondition. intros H.
  change (runtimev1alpha1.Type_ runtimev1alpha1.ReconcileSuccess)
    with (runtimev1alpha1.Type_ (runtimev1alpha1.ReconcileError err)) in H.
  rewrite createFailed_ReconcileError in H. discriminate H.
Qed.

(** X5: the create phase always asks for an immediate requeue, and it
    writes the provisioning marker and the finalizer together or not at all:
    either it leaves ReconcileSuccess, the derived name and the owned
    finalizer, or it leaves ReconcileError and the name and the finalizers
    it found. *)
Theorem create_marks_the_record_all_or_nothing
        (GeneratePassword : nat -> string + error) (r : Embedded) (client : rds.Client)
        (s : State) :
  let out := _create GeneratePassword r client s in
  let i' := instance (snd out) in
  fst (fst out) = reconcile.mkResult true 0
  /\ ((HasCondition i' runtimev1alpha1.ReconcileSuccess
       /\ InstanceName (Status i') = Engine (Spec (instance s)) ++ "-" ++ UID (Meta (instance s))
       /\ In finalizer (Finalizers (Meta i')))
      \/ (exists err,
             HasCondition i' (runtimev1alpha1.ReconcileError err)
             /\ InstanceName (Status i') = InstanceName (Status (instance s))
             /\ Finalizers (Meta i') = Finalizers (Meta (instance s)))).
Proof.
  intros out i'. subst out i'.
  pattern (_create GeneratePassword r client s). apply create_paths; intros;
    unfold finishes; cbn [fst snd instance]; (split; [reflexivity|]).
  - right. exists err. split; [apply createFailed_ReconcileError|split; reflexivity].
  - right. exists err. split; [apply createFailed_ReconcileError|split; reflexivity].
  - left. split; [apply created_ReconcileSuccess|]. split; [reflexivity|apply created_finalizer].
  - right. exists err. split; [apply createFailed_ReconcileError|split; reflexivity].
  - left. split; [apply created_ReconcileSuccess|]. split; [reflexivity|apply created_finalizer].
Qed.

(** X6: the create phase calls the provider once, with the generated
    password, unless the generator failed, and it publishes once - the
    master username and that same password - exactly when the provider's
    create answered with no error; in every other case it publishes
    nothing. *)
Theorem create_publishes_only_what_it_created
        (GeneratePassword : nat -> string + error) (r : Embedded) (client : rds.Client)
        (s : State) :
  let out := _create GeneratePassword r client s in
  let name := Engine (Spec (instance s)) ++ "-" ++ UID (Meta (instance s)) in
  providerCalls (calls (snd out))
  = (providerCalls (calls s)
     ++ match GeneratePassword 20 with
        | inl password => [CallCreateInstance name password (Spec (instance s))]
        | inr _ => []
        end)%list
  /\ published (calls (snd out))
     = (published (calls s)
        ++ match GeneratePassword 20 with
           | inl password =>
             match rds.CreateInstance client name password (Spec (instance s)) with
             | None => [[(runtimev1alpha1.ResourceCredentialsSecretUserKey,
                          MasterUsername (Spec (instance s)));
                         (runtimev1alpha1.ResourceCredentialsSecretPasswordKey, password)]]
             | Some _ => []
             end
           | inr _ => []
           end)%list.
Proof.
  intros out name. subst out name.
  change (Engine (Spec (instance s)) ++ "-" ++ UID (Meta (instance s)))
    with (nameOf (instance s)).
  pattern (_create GeneratePassword r client s). apply create_paths; intros;
    unfold finishes, providerCalls; cbn [snd calls];
    rewrite !published_app, !filter_app;
    repeat match goal with H : _ = _ |- _ => rewrite H end;
    cbn; rewrite ?app_nil_r; split; reflexivity.
Qed.

(** X7: a create phase that reports success leaves a record on which a
    later phase selection never selects the create phase again: the derived
    name contains the separator, so it is not empty. *)
Theorem create_success_is_followed_by_sync
        (GeneratePassword : nat -> string + error) (r : Embedded) (client : rds.Client)
        (s : State) :
  let i' := instance (snd (_create GeneratePassword r client s)) in
  HasCondition i' runtimev1alpha1.ReconcileSuccess ->
  InstanceName (Status i') <> ""
  /\ forall (next : Reconciler) (rdsClient : rds.Client) (log : list Call),
      selected next rdsClient (mkState i' log)
      = match DeletionTimestamp (Meta (instance s)) with
        | Some _ => delete next rdsClient (mkState i' log)
        | None => sync next rdsClient (mkState i' log)
        end.
Proof.
  intros i'. subst i'.
  pattern (_create GeneratePassword r client s). apply create_paths; intros;
    unfold finishes in *; cbn [snd instance] in *;
    try (exfalso; eapply createFailed_not_ReconcileSuccess; eassumption).
  - split; [apply nameOf_nonempty|].
    intros next rdsClient log. unfold selected. cbn [instance].
    change (DeletionTimestamp (Meta (created (instance s))))
      with (DeletionTimestamp
              (Meta (meta.AddFinalizer finalizer
                       (withStatus (setInstanceName (nameOf (instance s)))
                                   (creating (instance s)))))).
    rewrite AddFinalizer_DeletionTimestamp. cbn [Meta withStatus creating SetConditions].
    destruct (DeletionTimestamp (Meta (instance s))); [reflexivity|].
    rewrite created_InstanceName.
    pose proof (nameOf_nonempty (instance s)) as Hne.
    apply String.eqb_neq in Hne. unfold nameOf in Hne. rewrite Hne. reflexivity.
  - split; [apply nameOf_nonempty|].
    intros next rdsClient log. unfold selected. cbn [instance].
    change (DeletionTimestamp (Meta (created (instance s))))
      with (DeletionTimestamp
              (Meta (meta.AddFinalizer finalizer
                       (withStatus (setInstanceName (nameOf (instance s)))
                                   (creating (instance s)))))).
    rewrite AddFinalizer_DeletionTimestamp. cbn [Meta withStatus creating SetConditions].
    destruct (DeletionTimestamp (Meta (instance s))); [reflexivity|].
    rewrite created_InstanceName.
    pose proof (nameOf_nonempty (instance s)) as Hne.
    apply String.eqb_neq in Hne. unfold nameOf in Hne. rewrite Hne. reflexivity.
Qed.

(** ** The sync phase, on every path *)

(** X8: whenever the provider's get succeeds, the sync phase copies the
    reported state, endpoint and identifier into the status, whatever the
    state is and whether or not the publish succeeds; it marks the record
    bindable for an available resource and never unmarks it; it asks the
    provider nothing else, and it leaves the name, the metadata and the spec
    alone. *)
Theorem sync_copies_what_the_provider_reports
        (r : Embedded) (client : rds.Client) (s : State) (db : rds.Instance) :
  rds.GetInstance client (InstanceName (Status (instance s))) = inl db ->
  let out := _sync r client s in
  let i' := instance (snd out) in
  databasev1alpha2.State (Status i') = rds.Status db
  /\ Endpoint (Status i') = rds.Endpoint db
  /\ ProviderID (Status i') = rds.ARN db
  /\ Bindable (Status i')
     = (Bindable (Status (instance s)) || (rds.Status db =? RDSInstanceStateAvailable))%bool
  /\ providerCalls (calls (snd out))
     = (providerCalls (calls s) ++ [CallGetInstance (InstanceName (Status (instance s)))])%list
  /\ InstanceName (Status i') = InstanceName (Status (instance s))
  /\ Meta i' = Meta (instance s)
  /\ Spec i' = Spec (instance s).
Proof.
  intros Hget out i'. subst out i'.
  pattern (_sync r client s). apply sync_paths; intros;
    try congruence;
    match goal with
    | H : rds.GetInstance _ _ = inl ?d |- _ =>
      assert (d = db) by congruence; subst d; clear H
    end;
    unfold finishes, providerCalls; cbn [snd calls instance];
    rewrite !filter_app; cbn; rewrite ?app_nil_r;
    repeat match goal with
           | H : rds.Status db = _ |- _ => rewrite H
           | H : rds.Status db <> _ |- _ => apply String.eqb_neq in H; rewrite H
           end;
    cbn; rewrite ?orb_true_r, ?orb_false_r; repeat split; reflexivity.
Qed.

(** X9: the sync phase does not classify the error of the provider's get:
    whatever it is, NotFound included, it is recorded as ReconcileError with
    an immediate requeue; the status keeps the state, endpoint and
    identifier it had, and nothing is published. *)
Theorem sync_get_error_keeps_the_last_view
        (r : Embedded) (client : rds.Client) (s : State) (err : error) :
  rds.GetInstance client (InstanceName (Status (instance s))) = inr err ->
  let out := _sync r client s in
  let i' := SetConditions [runtimev1alpha1.ReconcileError err] (instance s) in
  out = ((reconcile.mkResult true 0, client.Update (Client r) i'),
         mkState i' (calls s ++ [CallGetInstance (InstanceName (Status (instance s)));
                                 CallUpdate i']))
  /\ HasCondition (instance (snd out)) (runtimev1alpha1.ReconcileError err)
  /\ externalView (instance (snd out)) = externalView (instance s)
  /\ published (calls (snd out)) = published (calls s).
Proof.
  intros Hget out i'. subst out i'.
  rewrite (sync_get_failed r client s err Hget), fail_finishes.
  unfold finishes. cbn [fst snd instance calls app].
  rewrite <- app_assoc.
  split; [reflexivity|]. split; [apply HasCondition_SetConditions1|].
  split; [reflexivity|].
  rewrite published_app. cbn. apply app_nil_r.
Qed.

(** ** The delete phase, on every path *)

(** X10: the delete phase compares the reclaim policy with Delete only: for
    every other value, the empty one included, it does not call the
    provider and completes - finalizer removed, ReconcileSuccess, no
    requeue. *)
Theorem delete_treats_any_other_policy_as_Retain
        (r : Embedded) (client : rds.Client) (s : State) :
  ReclaimPolicy (Spec (instance s)) <> runtimev1alpha1.ReclaimDelete ->
  let out := _delete r client s in
  let i' := instance (snd out) in
  calls (snd out) = (calls s ++ [CallUpdate i'])%list
  /\ ~ In finalizer (Finalizers (Meta i'))
  /\ HasCondition i' runtimev1alpha1.ReconcileSuccess
  /\ fst out = (reconcile.mkResult false 0, client.Update (Client r) i').
Proof.
  intros Hpolicy out i'. subst out i'.
  rewrite (delete_skips_provider r client s Hpolicy).
  cbn [fst snd instance calls].
  split; [reflexivity|]. split; [apply released_finalizer|].
  split; [apply released_ReconcileSuccess|reflexivity].
Qed.

(** X11: the delete phase always leaves the Deleting condition and the
    name, the status view and the spec it found, and it releases the record
    or not at all: either it leaves ReconcileSuccess with the owned
    finalizer removed and asks for no requeue, or the policy is Delete, the
    provider's delete failed with an error that is not NotFound, and it
    leaves that error as ReconcileError, the finalizers as they were, and
    asks for an immediate requeue. *)
Theorem delete_releases_the_record_or_nothing
        (r : Embedded) (client : rds.Client) (s : State) :
  let out := _delete r client s in
  let i' := instance (snd out) in
  HasCondition i' runtimev1alpha1.Deleting
  /\ InstanceName (Status i') = InstanceName (Status (instance s))
  /\ externalView i' = externalView (instance s)
  /\ Spec i' = Spec (instance s)
  /\ providerDeletes (calls (snd out))
     = (providerDeletes (calls s)
        ++ if ReclaimPolicy (Spec (instance s)) =? runtimev1alpha1.ReclaimDelete
           then [InstanceName (Status (instance s))] else [])%list
  /\ ((fst (fst out) = reconcile.mkResult false 0
       /\ HasCondition i' runtimev1alpha1.ReconcileSuccess
       /\ ~ In finalizer (Finalizers (Meta i')))
      \/ (exists err,
             ReclaimPolicy (Spec (instance s)) = runtimev1alpha1.ReclaimDelete
             /\ rds.DeleteInstance client (InstanceName (Status (instance s))) = Some err
             /\ rds.IsErrorNotFound (Some err) = false
             /\ fst (fst out) = reconcile.mkResult true 0
             /\ HasCondition i' (runtimev1alpha1.ReconcileError err)
             /\ Finalizers (Meta i') = Finalizers (Meta (instance s)))).
Proof.
  intros out i'. subst out i'.
  pattern (_delete r client s). apply delete_paths; intros;
    unfold finishes; cbn [fst snd instance calls];
    rewrite !providerDeletes_app;
    repeat match goal with
           | H : ReclaimPolicy _ = _ |- _ => rewrite H
           | H : ReclaimPolicy _ <> _ |- _ =>
             let H' := fresh in pose proof H as H'; apply String.eqb_neq in H'; rewrite H'
           end;
    cbn [providerDeletes flat_map app String.eqb Ascii.eqb Bool.eqb runtimev1alpha1.ReclaimDelete];
    rewrite ?app_nil_r.
  - split; [apply released_Deleting|]. repeat (split; [reflexivity|]).
    left. split; [reflexivity|]. split; [apply released_ReconcileSuccess|apply released_finalizer].
  - split; [apply released_Deleting|]. repeat (split; [reflexivity|]).
    left. split; [reflexivity|]. split; [apply released_ReconcileSuccess|apply released_finalizer].
  - split.
    { apply HasCondition_SetConditions_other; [discriminate|].
      exact (HasCondition_SetConditions1 (instance s) runtimev1alpha1.Deleting). }
    repeat (split; [reflexivity|]).
    right. exists err. repeat (split; [assumption || reflexivity|]).
    split; [apply HasCondition_SetConditions1|reflexivity].
Qed.

(** ** What the reconciler never writes *)

Section Frames.

Context {B : Type} (proj : RDSInstance -> B).

Lemma frame_ret {A : Type} (a : A) : keeps proj (ret a).
Proof. intros s. reflexivity. Qed.

Lemma frame_load : keeps proj load.
Proof. intros s. reflexivity. Qed.

Lemma frame_call {A : Type} (c : Call) (answer : A) : keeps proj (call c answer).
Proof. intros s. reflexivity. Qed.

Lemma frame_modify (f : RDSInstance -> RDSInstance) :
  (forall i, proj (f i) = proj i) -> keeps proj (modify f).
Proof. intros Hf s. apply Hf. Qed.

Lemma frame_bind {A C : Type} (m : M A) (k : A -> M C) :
  keeps proj m -> (forall a, keeps proj (k a)) -> keeps proj (bind m k).
Proof.
  intros Hm Hk s. unfold bind. specialize (Hm s).
  destruct (m s) as [a s']. simpl in Hm. rewrite (Hk a s'). exact Hm.
Qed.

End Frames.

Create HintDb frames.

#[local] Hint Resolve frame_ret frame_load frame_call frame_bind : frames.
#[local] Hint Extern 1 (keeps _ (modify _)) =>
  apply frame_modify; intros;
  unfold referencesResolved, meta.AddFinalizer, withMeta;
  rewrite ?GetCondition_SetConditions1, ?GetCondition_SetConditions2;
  cbn;
  try match goal with |- context [existsb ?f ?l] => destruct (existsb f l) end;
  reflexivity : frames.
#[local] Hint Extern 1 (keeps _ (match ?x with _ => _ end)) => destruct x : frames.
#[local] Hint Extern 2 (keeps _ (Update _)) => unfold Update : frames.
#[local] Hint Extern 2 (keeps _ (PublishConnection _ _)) => unfold PublishConnection : frames.
#[local] Hint Extern 2 (keeps _ (ResolveReferences _)) => unfold ResolveReferences : frames.
#[local] Hint Extern 2 (keeps _ (fail _ _)) => unfold fail : frames.

(** The desired spec and the identity of the record. *)
Lemma Reconcile_frame
      {B : Type} (proj : RDSInstance -> B)
      (Config : Type)
      (RetrieveAwsConfigFromProvider : option ObjectReference -> Config + error)
      (NewClient : Config -> rds.Client)
      (GeneratePassword : nat -> string + error)
      (e : Embedded) (request : reconcile.Request) (s : State) (fetched : RDSInstance) :
  (forall c i, proj (SetConditions c i) = proj i) ->
  (forall client, keeps proj (_create GeneratePassword e client)) ->
  (forall client, keeps proj (_sync e client)) ->
  (forall client, keeps proj (_delete e client)) ->
  client.Get (Client e) (reconcile.Key request) = inl fetched ->
  proj (instance (snd (Reconcile
                         (SetupWithManager Config RetrieveAwsConfigFromProvider NewClient
                                           GeneratePassword e) request s)))
  = proj fetched.
Proof.
  intros Hconditions Hcreate Hsync Hdelete Hget.
  apply Reconcile_paths.
  - intros err Herr. congruence.
  - intros fetched0 err Hget0 _. assert (fetched0 = fetched) by congruence. subst fetched0.
    apply Hconditions.
  - intros fetched0 config err Hget0 _ _ _ i'.
    assert (fetched0 = fetched) by congruence. subst fetched0. apply Hconditions.
  - intros fetched0 config Hget0 _ _. assert (fetched0 = fetched) by congruence. subst fetched0.
    apply selected_paths; intros; cbn [create sync delete SetupWithManager];
      first [rewrite Hcreate | rewrite Hsync | rewrite Hdelete]; reflexivity.
  - intros fetched0 config Hget0 _ _ _. assert (fetched0 = fetched) by congruence. subst fetched0.
    apply selected_paths; intros; cbn [create sync delete SetupWithManager];
      first [rewrite Hcreate | rewrite Hsync | rewrite Hdelete]; apply Hconditions.
Qed.

(** X12: the reconciler never writes the desired spec or the identity of
    the record: each phase returns with the spec, namespace, name and UID it
    was called with, and [Reconcile] returns with those of the record it
    fetched. *)
Theorem reconciler_never_writes_the_spec
        (Config : Type)
        (RetrieveAwsConfigFromProvider : option ObjectReference -> Config + error)
        (NewClient : Config -> rds.Client)
        (GeneratePassword : nat -> string + error)
        (e : Embedded) :
  let given := fun i => (Spec i, Namespace (Meta i), Name (Meta i), UID (Meta i)) in
  keeps given (_connect Config RetrieveAwsConfigFromProvider NewClient e)
  /\ (forall client, keeps given (_create GeneratePassword e client))
  /\ (forall client, keeps given (_sync e client))
  /\ (forall client, keeps given (_delete e client))
  /\ (forall request s fetched,
         client.Get (Client e) (reconcile.Key request) = inl fetched ->
         given (instance (snd (Reconcile
                                 (SetupWithManager Config RetrieveAwsConfigFromProvider
                                                   NewClient GeneratePassword e)
                                 request s)))
         = given fetched).
Proof.
  intros given.
  assert (Hcreate : forall client, keeps given (_create GeneratePassword e client))
    by (intros; unfold _create; auto 40 with frames).
  assert (Hsync : forall client, keeps given (_sync e client))
    by (intros; unfold _sync; auto 40 with frames).
  assert (Hdelete : forall client, keeps given (_delete e client))
    by (intros; unfold _delete; auto 40 with frames).
  split; [unfold _connect; auto 20 with frames|].
  split; [exact Hcreate|]. split; [exact Hsync|]. split; [exact Hdelete|].
  intros request s fetched Hget.
  apply (Reconcile_frame given); [reflexivity|exact Hcreate|exact Hsync|exact Hdelete|exact Hget].
Qed.

(** ** One invocation of [Reconcile] as wired *)

Lemma phases_keep_referencesResolved
      (GeneratePassword : nat -> string + error) (e : Embedded) (client : rds.Client) :
  keeps referencesResolved (_create GeneratePassword e client)
  /\ keeps referencesResolved (_sync e client)
  /\ keeps referencesResolved (_delete e client).
Proof.
  split; [|split].
  - unfold _create. auto 40 with frames.
  - unfold _sync. auto 40 with frames.
  - unfold _delete. auto 40 with frames.
Qed.

Lemma resolutionFailure_not_resolved (err : error) (i : RDSInstance) :
  referencesResolved i = false ->
  referencesResolved (SetConditions [resolutionFailure err] i) = false.
Proof.
  intros H. unfold referencesResolved, resolutionFailure in *.
  rewrite GetCondition_SetConditions1.
  destruct (resource.IsReferencesAccessError err); cbn; [reflexivity|exact H].
Qed.

(** X13: after an invocation on a fetched record, the ReferencesResolved
    condition is true exactly when it was true before or the provider client
    was built and the resolver succeeded: no phase clears it, and a failed
    resolution leaves it not true, so that the next invocation resolves
    again. *)
Theorem Reconcile_resolves_once_and_for_all
        (Config : Type)
        (RetrieveAwsConfigFromProvider : option ObjectReference -> Config + error)
        (NewClient : Config -> rds.Client)
        (GeneratePassword : nat -> string + error)
        (e : Embedded) (request : reconcile.Request) (s : State) (fetched : RDSInstance) :
  client.Get (Client e) (reconcile.Key request) = inl fetched ->
  referencesResolved
    (instance (snd (Reconcile
                      (SetupWithManager Config RetrieveAwsConfigFromProvider NewClient
                                        GeneratePassword e) request s)))
  = match RetrieveAwsConfigFromProvider (ProviderReference (Spec fetched)) with
    | inl _ =>
      (referencesResolved fetched
       || isNil (resource.ResolveReferences (ManagedReferenceResolver e) fetched))%bool
    | inr _ => referencesResolved fetched
    end.
Proof.
  intros Hget.
  assert (Hselected : forall rdsClient s2,
             referencesResolved
               (instance (snd (selected
                                 (SetupWithManager Config RetrieveAwsConfigFromProvider
                                                   NewClient GeneratePassword e)
                                 rdsClient s2)))
             = referencesResolved (instance s2)).
  { intros rdsClient s2.
    destruct (phases_keep_referencesResolved GeneratePassword e rdsClient)
      as [Hcreate [Hsync Hdelete]].
    apply selected_paths; intros; cbn [create sync delete SetupWithManager];
      [apply Hdelete|apply Hcreate|apply Hsync]. }
  apply Reconcile_paths.
  - intros err Herr. congruence.
  - intros fetched0 err Hget0 Hconfig.
    assert (fetched0 = fetched) by congruence. subst fetched0. rewrite Hconfig.
    unfold finishes, referencesResolved. cbn [snd instance].
    rewrite GetCondition_SetConditions1. reflexivity.
  - intros fetched0 config err Hget0 Hconfig Hres Hresolve i'.
    assert (fetched0 = fetched) by congruence. subst fetched0.
    rewrite Hconfig, Hres, Hresolve. cbn [snd instance isNil orb]. subst i'.
    apply resolutionFailure_not_resolved. exact Hres.
  - intros fetched0 config Hget0 Hconfig Hres.
    assert (fetched0 = fetched) by congruence. subst fetched0.
    rewrite Hselected, Hconfig. cbn [instance]. rewrite Hres. reflexivity.
  - intros fetched0 config Hget0 Hconfig Hres Hresolve.
    assert (fetched0 = fetched) by congruence. subst fetched0.
    rewrite Hselected, Hconfig, Hres, Hresolve. cbn [instance isNil orb].
    apply resolved_after_success.
Qed.

(** X14: a fetched record that is marked for deletion and has reclaim
    policy Delete is deleted at the provider by its [Status.InstanceName]
    whatever that name is - the provisioning marker is not consulted, so a
    record that was never created asks the provider to delete the empty
    name - once the provider client is built and the references are
    resolved; no other provider call is made. *)
Theorem Reconcile_deletes_by_timestamp_alone
        (Config : Type)
        (RetrieveAwsConfigFromProvider : option ObjectReference -> Config + error)
        (NewClient : Config -> rds.Client)
        (GeneratePassword : nat -> string + error)
        (e : Embedded) (request : reconcile.Request) (s : State) (fetched : RDSInstance)
        (config : Config) :
  client.Get (Client e) (reconcile.Key request) = inl fetched ->
  RetrieveAwsConfigFromProvider (ProviderReference (Spec fetched)) = inl config ->
  referencesResolved fetched = true
  \/ resource.ResolveReferences (ManagedReferenceResolver e) fetched = None ->
  DeletionTimestamp (Meta fetched) <> None ->
  ReclaimPolicy (Spec fetched) = runtimev1alpha1.ReclaimDelete ->
  providerCalls
    (calls (snd (Reconcile
                   (SetupWithManager Config RetrieveAwsConfigFromProvider NewClient
                                     GeneratePassword e) request s)))
  = (providerCalls (calls s) ++ [CallDeleteInstance (InstanceName (Status fetched))])%list.
Proof.
  intros Hget Hconfig Hresolved Hdel Hpolicy.
  assert (Hphase : forall i log,
             Meta i = Meta fetched -> Spec i = Spec fetched ->
             InstanceName (Status i) = InstanceName (Status fetched) ->
             providerCalls log = providerCalls (calls s) ->
             providerCalls
               (calls (snd (selected
                              (SetupWithManager Config RetrieveAwsConfigFromProvider
                                                NewClient GeneratePassword e)
                              (NewClient config) (mkState i log))))
             = (providerCalls (calls s)
                ++ [CallDeleteInstance (InstanceName (Status fetched))])%list).
  { intros i log Hmeta Hspec Hname Hlog.
    apply selected_paths; cbn [instance create sync delete SetupWithManager].
    - intros _. apply delete_paths; cbn [instance]; intros;
        try (rewrite Hspec in *; congruence);
        unfold finishes, providerCalls; cbn [snd calls];
        rewrite !filter_app; fold (providerCalls log); rewrite Hlog, Hname; reflexivity.
    - intros Hnone. rewrite Hmeta in Hnone. contradiction.
    - intros Hnone. rewrite Hmeta in Hnone. contradiction. }
  apply Reconcile_paths.
  - intros err Herr. congruence.
  - intros fetched0 err Hget0 Herr.
    assert (fetched0 = fetched) by congruence. subst fetched0. congruence.
  - intros fetched0 config0 err Hget0 _ Hres Hresolve i'.
    assert (fetched0 = fetched) by congruence. subst fetched0.
    destruct Hresolved; congruence.
  - intros fetched0 config0 Hget0 Hconfig0 _.
    assert (fetched0 = fetched) by congruence. subst fetched0.
    assert (config0 = config) by congruence. subst config0.
    apply Hphase; try reflexivity.
    unfold providerCalls. rewrite filter_app. cbn. apply app_nil_r.
  - intros fetched0 config0 Hget0 Hconfig0 _ _.
    assert (fetched0 = fetched) by congruence. subst fetched0.
    assert (config0 = config) by congruence. subst config0.
    apply Hphase; try reflexivity.
    unfold providerCalls. rewrite filter_app. cbn. apply app_nil_r.
Qed.

(** X15: one invocation of [Reconcile] starts with the fetch and then makes
    at most one call to the provider, at most one to the publisher, at most
    one to the resolver and at most one update, on every path. *)
Theorem Reconcile_is_frugal
        (Config : Type)
        (RetrieveAwsConfigFromProvider : option ObjectReference -> Config + error)
        (NewClient : Config -> rds.Client)
        (GeneratePassword : nat -> string + error)
        (e : Embedded) (request : reconcile.Request) (s : State) :
  exists rest,
    calls (snd (Reconcile
                  (SetupWithManager Config RetrieveAwsConfigFromProvider NewClient
                                    GeneratePassword e) request s))
    = (calls s ++ CallGet (reconcile.Key request) :: rest)%list
    /\ frugal rest.
Proof.
  apply Reconcile_paths; intros;
    [ | | | apply selected_paths; intros; cbn [create sync delete SetupWithManager];
            [apply delete_paths|apply create_paths|apply sync_paths]; intros
        | apply selected_paths; intros; cbn [create sync delete SetupWithManager];
            [apply delete_paths|apply create_paths|apply sync_paths]; intros ];
    unfold finishes; cbn [snd calls instance];
    rewrite <- ?app_assoc; cbn [app];
    (eexists; split; [reflexivity|]);
    unfold frugal; cbn; repeat split; lia.
Qed.

(** X16: the first invocation on a new record, when every collaborator
    succeeds: fetch, configuration, reference resolution, password, provider
    create, publish and update, in this order; the record left carries the
    derived name, the finalizer and the ReferenceResolutionSuccess, Creating
    and ReconcileSuccess conditions, and an immediate requeue is asked
    for. *)
Theorem Reconcile_first_invocation
        (Config : Type)
        (RetrieveAwsConfigFromProvider : option ObjectReference -> Config + error)
        (NewClient : Config -> rds.Client)
        (GeneratePassword : nat -> string + error)
        (e : Embedded) (request : reconcile.Request) (s : State) (fetched : RDSInstance)
        (config : Config) (password : string) :
  let resolved := SetConditions [runtimev1alpha1.ReferenceResolutionSuccess] fetched in
  let name := Engine (Spec fetched) ++ "-" ++ UID (Meta fetched) in
  let secret := [(runtimev1alpha1.ResourceCredentialsSecretUserKey, MasterUsername (Spec fetched));
                 (runtimev1alpha1.ResourceCredentialsSecretPasswordKey, password)] in
  client.Get (Client e) (reconcile.Key request) = inl fetched ->
  DeletionTimestamp (Meta fetched) = None ->
  InstanceName (Status fetched) = "" ->
  referencesResolved fetched = false ->
  RetrieveAwsConfigFromProvider (ProviderReference (Spec fetched)) = inl config ->
  resource.ResolveReferences (ManagedReferenceResolver e) fetched = None ->
  GeneratePassword 20 = inl password ->
  rds.CreateInstance (NewClient config) name password (Spec fetched) = None ->
  resource.PublishConnection (ManagedConnectionPublisher e)
    (SetConditions [runtimev1alpha1.Creating] resolved) secret = None ->
  let out := Reconcile (SetupWithManager Config RetrieveAwsConfigFromProvider NewClient
                                         GeneratePassword e) request s in
  let i' := instance (snd out) in
  calls (snd out)
  = (calls s ++ [CallGet (reconcile.Key request);
                 CallRetrieveAwsConfigFromProvider (ProviderReference (Spec fetched));
                 CallResolveReferences fetched;
                 CallGeneratePassword 20;
                 CallCreateInstance name password (Spec fetched);
                 CallPublishConnection (SetConditions [runtimev1alpha1.Creating] resolved) secret;
                 CallUpdate i'])%list
  /\ fst out = (reconcile.mkResult true 0, client.Update (Client e) i')
  /\ InstanceName (Status i') = name
  /\ In finalizer (Finalizers (Meta i'))
  /\ HasCondition i' runtimev1alpha1.ReferenceResolutionSuccess
  /\ HasCondition i' runtimev1alpha1.Creating
  /\ HasCondition i' runtimev1alpha1.ReconcileSuccess.
Proof.
  intros resolved name secret Hget Hdel Hname Hres Hconfig Hresolve Hpw Hcreate Hpub out i'.
  assert (Hout : out = finishes e
                         (mkState resolved
                            (calls s ++ [CallGet (reconcile.Key request);
                                         CallRetrieveAwsConfigFromProvider
                                           (ProviderReference (Spec fetched));
                                         CallResolveReferences fetched]))
                         [CallGeneratePassword 20;
                          CallCreateInstance name password (Spec fetched);
                          CallPublishConnection
                            (SetConditions [runtimev1alpha1.Creating] resolved) secret]
                         resultRequeue (created resolved)).
  { subst out. apply Reconcile_paths; intros; try congruence.
    assert (fetched0 = fetched) by congruence. subst fetched0.
    assert (config0 = config) by congruence. subst config0.
    unfold selected. cbn [instance create SetupWithManager]. fold resolved.
    change (DeletionTimestamp (Meta resolved)) with (DeletionTimestamp (Meta fetched)).
    change (InstanceName (Status resolved)) with (InstanceName (Status fetched)).
    rewrite Hdel, Hname. cbn [String.eqb].
    exact (create_succeeded GeneratePassword e (NewClient config)
             (mkState resolved
                (calls s ++ [CallGet (reconcile.Key request);
                             CallRetrieveAwsConfigFromProvider
                               (ProviderReference (Spec fetched));
                             CallResolveReferences fetched]))
             password Hpw Hcreate Hpub). }
  subst i'. rewrite Hout. unfold finishes. cbn [fst snd instance calls].
  split; [rewrite <- app_assoc; reflexivity|].
  split; [reflexivity|]. split; [reflexivity|].
  split; [apply created_finalizer|].
  split.
  { unfold created.
    apply HasCondition_SetConditions_other; [discriminate|].
    unfold HasCondition.
    change (GetCondition (SetConditions [runtimev1alpha1.Creating] resolved)
                         (runtimev1alpha1.Type_ runtimev1alpha1.ReferenceResolutionSuccess)
            = runtimev1alpha1.ReferenceResolutionSuccess).
    apply HasCondition_SetConditions_other; [discriminate|].
    apply HasCondition_SetConditions1. }
  split; [apply created_Creating|apply created_ReconcileSuccess].
Qed.

(** ** Repeating the sync phase *)

Section WritesSettle.

Import runtimev1alpha1.

Lemma setCondition_present (l : list Condition) (c : Condition) :
  existsb (fun x => Type_ x =? Type_ c) (setCondition l c) = true.
Proof.
  apply existsb_exists. exists c. split; [apply ConditionFacts.In_setCondition|].
  apply String.eqb_refl.
Qed.

Lemma setCondition_absorbs (l : list Condition) (c : Condition) :
  existsb (fun x => Type_ x =? Type_ c) l = true ->
  (forall x, In x l -> Type_ x = Type_ c -> x = c) ->
  setCondition l c = l.
Proof.
  intros Hex Hall. unfold setCondition. rewrite Hex.
  rewrite <- (map_id l) at 2. apply map_ext_in. intros x Hx.
  destruct (String.eqb_spec (Type_ x) (Type_ c)) as [Ht|Ht]; [|reflexivity].
  symmetry. exact (Hall x Hx Ht).
Qed.

Lemma setCondition_keeps_present (l : list Condition) (c c' : Condition) :
  existsb (fun x => Type_ x =? Type_ c) l = true ->
  existsb (fun x => Type_ x =? Type_ c) (setCondition l c') = true.
Proof.
  intros Hex. apply existsb_exists in Hex. destruct Hex as [x [Hx Ht]].
  apply existsb_exists. unfold setCondition.
  destruct (existsb (fun y => Type_ y =? Type_ c') l).
  - exists (if Type_ x =? Type_ c' then c' else x). split.
    + apply in_map_iff. exists x. split; [reflexivity|exact Hx].
    + destruct (String.eqb_spec (Type_ x) (Type_ c')) as [Hxc|Hxc]; [|exact Ht].
      rewrite <- Hxc. exact Ht.
  - exists x. split; [apply in_or_app; left; exact Hx|exact Ht].
Qed.

Lemma setCondition_keeps_settled (l : list Condition) (c c' : Condition) :
  Type_ c' <> Type_ c ->
  (forall x, In x l -> Type_ x = Type_ c -> x = c) ->
  forall x, In x (setCondition l c') -> Type_ x = Type_ c -> x = c.
Proof.
  intros Hne Hall x Hx Ht. unfold setCondition in Hx.
  destruct (existsb (fun y => Type_ y =? Type_ c') l).
  - apply in_map_iff in Hx. destruct Hx as [y [Hy Hin]].
    destruct (String.eqb_spec (Type_ y) (Type_ c')) as [Hyc|Hyc].
    + subst x. contradiction.
    + subst x. exact (Hall y Hin Ht).
  - apply in_app_or in Hx. destruct Hx as [Hx|[Hx|[]]].
    + exact (Hall x Hx Ht).
    + subst x. contradiction.
Qed.

Lemma SetConditions_one_settles (l : list Condition) (a : Condition) :
  SetConditions (SetConditions l [a]) [a] = SetConditions l [a].
Proof.
  unfold SetConditions. simpl.
  apply setCondition_absorbs; [apply setCondition_present|].
  intros x Hx Ht. exact (ConditionFacts.setCondition_unique l a x Hx Ht).
Qed.

Lemma SetConditions_two_settle (l : list Condition) (a b : Condition) :
  Type_ a <> Type_ b ->
  setCondition (setCondition (setCondition (setCondition l a) b) a) b
  = setCondition (setCondition l a) b.
Proof.
  intros Hne.
  assert (Ha : setCondition (setCondition (setCondition l a) b) a
               = setCondition (setCondition l a) b).
  { apply setCondition_absorbs.
    - apply setCondition_keeps_present, setCondition_present.
    - apply setCondition_keeps_settled; [congruence|].
      intros x Hx Ht. exact (ConditionFacts.setCondition_unique l a x Hx Ht). }
  rewrite Ha.
  apply setCondition_absorbs; [apply setCondition_present|].
  intros x Hx Ht. exact (ConditionFacts.setCondition_unique _ b x Hx Ht).
Qed.

End WritesSettle.

Lemma SetConditions_observed (c : list runtimev1alpha1.Condition) (i : RDSInstance)
      (db : rds.Instance) :
  SetConditions c (observed i db)
  = mkRDSInstance (Meta i) (Spec i)
      (mkRDSInstanceStatus (runtimev1alpha1.SetConditions (Conditions (Status i)) c)
                           (Bindable (Status i)) (rds.Status db) (rds.Endpoint db)
                           (rds.ARN db) (InstanceName (Status i))).
Proof. reflexivity. Qed.

Lemma resync_one (i : RDSInstance) (db : rds.Instance) (a : runtimev1alpha1.Condition) :
  SetConditions [a] (observed (SetConditions [a] (observed i db)) db)
  = SetConditions [a] (observed i db).
Proof.
  rewrite (SetConditions_observed [a] i db), SetConditions_observed.
  cbn [Meta Spec Status Conditions Bindable InstanceName].
  f_equal. f_equal. exact (SetConditions_one_settles _ a).
Qed.

Lemma resync_two (i : RDSInstance) (db : rds.Instance) (a b : runtimev1alpha1.Condition) :
  runtimev1alpha1.Type_ a <> runtimev1alpha1.Type_ b ->
  SetConditions [a; b] (observed (SetConditions [a; b] (observed i db)) db)
  = SetConditions [a; b] (observed i db).
Proof.
  intros Hne.
  rewrite (SetConditions_observed [a; b] i db), SetConditions_observed.
  cbn [Meta Spec Status Conditions Bindable InstanceName].
  f_equal. f_equal. exact (SetConditions_two_settle _ a b Hne).
Qed.

Lemma SetConditions_ready (b : runtimev1alpha1.Condition) (i : RDSInstance)
      (db : rds.Instance) :
  SetConditions [b] (ready i db)
  = mkRDSInstance (Meta i) (Spec i)
      (mkRDSInstanceStatus
         (runtimev1alpha1.SetConditions (Conditions (Status i)) [runtimev1alpha1.Available; b])
         true (rds.Status db) (rds.Endpoint db) (rds.ARN db) (InstanceName (Status i))).
Proof. reflexivity. Qed.

Lemma resync_ready (i : RDSInstance) (db : rds.Instance) (b : runtimev1alpha1.Condition) :
  runtimev1alpha1.Type_ runtimev1alpha1.Available <> runtimev1alpha1.Type_ b ->
  SetConditions [b] (ready (SetConditions [b] (ready i db)) db)
  = SetConditions [b] (ready i db).
Proof.
  intros Hne.
  rewrite (SetConditions_ready b i db), SetConditions_ready.
  cbn [Meta Spec Status Conditions Bindable InstanceName].
  f_equal. f_equal. exact (SetConditions_two_settle _ runtimev1alpha1.Available b Hne).
Qed.

(** X17: the sync phase settles: run again on the record it left, with
    the provider answering as before and a publisher whose answer depends on
    the metadata and the spec only, it leaves the same record - the same
    status view and the same conditions, on every path. *)
Theorem sync_settles
        (r : Embedded) (client : rds.Client) (s : State) :
  (forall a b d,
      Meta a = Meta b -> Spec a = Spec b ->
      resource.PublishConnection (ManagedConnectionPublisher r) a d
      = resource.PublishConnection (ManagedConnectionPublisher r) b d) ->
  let i' := instance (snd (_sync r client s)) in
  forall log, instance (snd (_sync r client (mkState i' log))) = i'.
Proof.
  intros Hpublisher i' log. subst i'.
  pattern (_sync r client s). apply sync_paths; unfold finishes; cbn [snd instance].
  - intros err Hget.
    rewrite (sync_get_failed r client
               (mkState (SetConditions [runtimev1alpha1.ReconcileError err] (instance s)) log)
               err Hget), fail_finishes.
    unfold finishes. cbn [snd instance].
    unfold SetConditions, withStatus, setConditionsField.
    cbn [Meta Spec Status Conditions Bindable databasev1alpha2.State Endpoint ProviderID
         InstanceName].
    f_equal. f_equal. exact (SetConditions_one_settles _ _).
  - intros db Hget Hstatus.
    rewrite (sync_creating r client
               (mkState (SetConditions [runtimev1alpha1.Creating; runtimev1alpha1.ReconcileSuccess]
                                       (observed (instance s) db)) log)
               db Hget Hstatus).
    cbn [snd instance]. apply resync_two. discriminate.
  - intros db Hget Hstatus.
    rewrite (sync_failed r client
               (mkState (SetConditions [runtimev1alpha1.Unavailable; runtimev1alpha1.ReconcileSuccess]
                                       (observed (instance s) db)) log)
               db Hget Hstatus).
    cbn [snd instance]. apply resync_two. discriminate.
  - intros db Hget Hstatus Hpub.
    assert (Hagain : resource.PublishConnection (ManagedConnectionPublisher r)
                       (ready (SetConditions [runtimev1alpha1.ReconcileSuccess]
                                             (ready (instance s) db)) db)
                       (connection (instance s) db) = None).
    { rewrite <- Hpub. apply Hpublisher; reflexivity. }
    rewrite (sync_available_published r client
               (mkState (SetConditions [runtimev1alpha1.ReconcileSuccess]
                                       (ready (instance s) db)) log)
               db Hget Hstatus Hagain).
    cbn [snd instance]. apply resync_ready. discriminate.
  - intros db err Hget Hstatus Hpub.
    assert (Hagain : resource.PublishConnection (ManagedConnectionPublisher r)
                       (ready (SetConditions [runtimev1alpha1.ReconcileError err]
                                             (ready (instance s) db)) db)
                       (connection (instance s) db) = Some err).
    { rewrite <- Hpub. apply Hpublisher; reflexivity. }
    rewrite (sync_available_publish_failed r client
               (mkState (SetConditions [runtimev1alpha1.ReconcileError err]
                                       (ready (instance s) db)) log)
               db Hget err Hstatus Hagain).
    cbn [snd instance]. apply resync_ready. discriminate.
  - intros db Hget Hc Hf Ha.
    rewrite (sync_unexpected r client
               (mkState (SetConditions
                           [runtimev1alpha1.ReconcileError
                              (errors.Errorf ("unexpected resource status: " ++ rds.Status db))]
                           (observed (instance s) db)) log)
               db Hget Hc Hf Ha).
    cbn [snd instance]. apply resync_one.
Qed.


(** ** The further statements on the concrete world *)

Lemma Reconcile_fetch_error_witness :
  client.Get (Client Scenes.unreachable) (reconcile.Key World.request)
  = inr (World.boom Unclassified)
  /\ kerrors.IsNotFound (World.boom Unclassified) = false
  /\ Reconcile Scenes.unreachable World.request (World.start zero)
     = ((reconcile.mkResult false 0, Some (World.boom Unclassified)),
        mkState zero [CallGet World.key]).
Proof.
  split; [reflexivity|]. split; [reflexivity|].
  exact (Reconcile_fetch_error_is_returned Scenes.unreachable World.request
           (World.start zero) (World.boom Unclassified) eq_refl eq_refl).
Defined.

Lemma Reconcile_connect_failure_witness :
  client.Get (Client (Scenes.holding Scenes.orphan)) (reconcile.Key World.request)
  = inl Scenes.orphan
  /\ World.RetrieveAwsConfigFromProvider (ProviderReference (Spec Scenes.orphan))
     = inr (World.boom Unclassified)
  /\ DeletionTimestamp (Meta Scenes.orphan) = Some 1572480000%Z
  /\ providerCalls (calls (snd (Reconcile (Scenes.over Scenes.orphan) World.request
                                          (World.start zero)))) = []
  /\ Finalizers (Meta (instance (snd (Reconcile (Scenes.over Scenes.orphan) World.request
                                                (World.start zero)))))
     = [finalizer].
Proof.
  split; [reflexivity|]. split; [reflexivity|]. split; [reflexivity|].
  pose proof (Reconcile_connect_failure_only_records_the_error
                World.Config World.RetrieveAwsConfigFromProvider (fun _ => World.healthy)
                World.GeneratePassword (Scenes.holding Scenes.orphan) World.request
                (World.start zero) Scenes.orphan (World.boom Unclassified)
                eq_refl eq_refl) as H.
  destruct H as [_ [_ [Hprovider [Hmeta _]]]].
  split; [exact Hprovider|].
  exact (f_equal Finalizers Hmeta).
Defined.

Lemma Reconcile_persists_once_witness :
  client.Get (Client (Scenes.holding World.provisioned)) (reconcile.Key World.request)
  = inl World.provisioned
  /\ persisted (calls (snd (Reconcile (Scenes.over World.provisioned) World.request
                                      (World.start zero))))
     = [instance (snd (Reconcile (Scenes.over World.provisioned) World.request
                                 (World.start zero)))].
Proof.
  split; [reflexivity|].
  exact (proj1 (proj2 (Reconcile_persists_once_and_reports_it
                         World.Config World.RetrieveAwsConfigFromProvider
                         (fun _ => World.healthy) World.GeneratePassword
                         (Scenes.holding World.provisioned) World.request
                         (World.start zero) World.provisioned eq_refl))).
Defined.

Lemma create_success_is_followed_by_sync_witness :
  HasCondition (instance (snd (_create World.GeneratePassword World.willing World.healthy
                                       (World.start World.fresh))))
               runtimev1alpha1.ReconcileSuccess
  /\ InstanceName (Status (instance (snd (_create World.GeneratePassword World.willing
                                                  World.healthy (World.start World.fresh)))))
     <> "".
Proof.
  assert (H : HasCondition
                (instance (snd (_create World.GeneratePassword World.willing World.healthy
                                        (World.start World.fresh))))
                runtimev1alpha1.ReconcileSuccess) by reflexivity.
  split; [exact H|].
  exact (proj1 (create_success_is_followed_by_sync
                  World.GeneratePassword World.willing World.healthy
                  (World.start World.fresh) H)).
Defined.

Lemma sync_copies_what_the_provider_reports_witness :
  rds.GetInstance World.taken (InstanceName (Status World.provisioned))
  = inl (World.db "creating")
  /\ Endpoint (Status (instance (snd (_sync World.willing World.taken
                                            (World.start World.provisioned)))))
     = "db.example.com:5432".
Proof.
  split; [reflexivity|].
  exact (proj1 (proj2 (sync_copies_what_the_provider_reports
                         World.willing World.taken (World.start World.provisioned)
                         (World.db "creating") eq_refl))).
Defined.

Lemma sync_get_error_witness :
  rds.GetInstance World.vanished (InstanceName (Status World.provisioned))
  = inr (World.boom RDSNotFound)
  /\ HasCondition (instance (snd (_sync World.willing World.vanished
                                        (World.start World.provisioned))))
                  (runtimev1alpha1.ReconcileError (World.boom RDSNotFound)).
Proof.
  split; [reflexivity|].
  exact (proj1 (proj2 (sync_get_error_keeps_the_last_view
                         World.willing World.vanished (World.start World.provisioned)
                         (World.boom RDSNotFound) eq_refl))).
Defined.

Lemma delete_unset_policy_witness :
  ReclaimPolicy (Spec Scenes.unset) = ""
  /\ ReclaimPolicy (Spec Scenes.unset) <> runtimev1alpha1.ReclaimDelete
  /\ calls (snd (_delete World.willing World.healthy (World.start Scenes.unset)))
     = [CallUpdate (instance (snd (_delete World.willing World.healthy
                                           (World.start Scenes.unset))))].
Proof.
  assert (H : ReclaimPolicy (Spec Scenes.unset) <> runtimev1alpha1.ReclaimDelete)
    by (vm_compute; discriminate).
  split; [reflexivity|]. split; [exact H|].
  exact (proj1 (delete_treats_any_other_policy_as_Retain
                  World.willing World.healthy (World.start Scenes.unset) H)).
Defined.

Lemma reconciler_never_writes_the_spec_witness :
  client.Get (Client (Scenes.holding World.fresh)) (reconcile.Key World.request)
  = inl World.fresh
  /\ Spec (instance (snd (Reconcile (Scenes.over World.fresh) World.request
                                    (World.start zero))))
     = Spec World.fresh.
Proof.
  split; [reflexivity|].
  pose proof (proj2 (proj2 (proj2 (proj2
                (reconciler_never_writes_the_spec
                   World.Config World.RetrieveAwsConfigFromProvider
                   (fun _ => World.healthy) World.GeneratePassword
                   (Scenes.holding World.fresh)))))
                World.request (World.start zero) World.fresh eq_refl) as H.
  exact (f_equal (fun t => fst (fst (fst t))) H).
Defined.

Lemma Reconcile_resolves_once_witness :
  client.Get (Client World.blocked) (reconcile.Key World.request) = inl World.fresh
  /\ referencesResolved (instance (snd (Reconcile World.blocked World.request
                                                  (World.start zero))))
     = false.
Proof.
  split; [reflexivity|].
  exact (Reconcile_resolves_once_and_for_all
           World.Config World.RetrieveAwsConfigFromProvider (fun _ => World.healthy)
           World.GeneratePassword
           (World.collaborators (inl World.fresh) (Some (World.boom ReferencesAccess)) None)
           World.request (World.start zero) World.fresh eq_refl).
Defined.

Lemma Reconcile_deletes_by_timestamp_witness :
  client.Get (Client (Scenes.holding (World.deleted World.fresh))) (reconcile.Key World.request)
  = inl (World.deleted World.fresh)
  /\ InstanceName (Status (World.deleted World.fresh)) = ""
  /\ providerCalls (calls (snd (Reconcile (Scenes.over (World.deleted World.fresh))
                                          World.request (World.start zero))))
     = [CallDeleteInstance ""].
Proof.
  split; [reflexivity|]. split; [reflexivity|].
  assert (Hdel : DeletionTimestamp (Meta (World.deleted World.fresh)) <> None)
    by (vm_compute; discriminate).
  exact (Reconcile_deletes_by_timestamp_alone
           World.Config World.RetrieveAwsConfigFromProvider (fun _ => World.healthy)
           World.GeneratePassword (Scenes.holding (World.deleted World.fresh))
           World.request (World.start zero) (World.deleted World.fresh) tt
           eq_refl eq_refl (or_intror eq_refl) Hdel eq_refl).
Defined.

Lemma Reconcile_first_invocation_witness :
  client.Get (Client (Scenes.holding World.fresh)) (reconcile.Key World.request)
  = inl World.fresh
  /\ InstanceName (Status (instance (snd (Reconcile (Scenes.over World.fresh) World.request
                                                    (World.start zero)))))
     = "postgres-7c1e".
Proof.
  split; [reflexivity|].
  exact (proj1 (proj2 (proj2 (Reconcile_first_invocation
                                World.Config World.RetrieveAwsConfigFromProvider
                                (fun _ => World.healthy) World.GeneratePassword
                                (Scenes.holding World.fresh) World.request
                                (World.start zero) World.fresh tt "s3cr3t-s3cr3t-s3cr3t"
                                eq_refl eq_refl eq_refl eq_refl eq_refl eq_refl eq_refl
                                eq_refl eq_refl)))).
Defined.

Lemma sync_settles_witness :
  (forall a b d,
      Meta a = Meta b -> Spec a = Spec b ->
      resource.PublishConnection (ManagedConnectionPublisher World.willing) a d
      = resource.PublishConnection (ManagedConnectionPublisher World.willing) b d)
  /\ Bindable (Status (instance (snd (_sync World.willing World.healthy
      (mkState (instance (snd (_sync World.willing World.healthy
                                     (World.start World.provisioned)))) [])))))
     = true.
Proof.
  assert (H : forall a b d,
             Meta a = Meta b -> Spec a = Spec b ->
             resource.PublishConnection (ManagedConnectionPublisher World.willing) a d
             = resource.PublishConnection (ManagedConnectionPublisher World.willing) b d)
    by reflexivity.
  split; [exact H|].
  rewrite (sync_settles World.willing World.healthy (World.start World.provisioned) H []).
  reflexivity.
Defined.

(** ** The deep copies of the AKS cluster spec *)

Section SetFacts.
Import v1alpha1.
Local Open Scope list_scope.
Local Open Scope nat_scope.
Context {T : Type}.

Lemma length_set (l : list T) (n : nat) (v : T) : length (set l n v) = length l.
Proof. revert n. induction l as [|x l IH]; intros [|n]; simpl; auto. Qed.

Lemma nth_set_eq (l : list T) (n : nat) (v : T) :
  n < length l -> nth_error (set l n v) n = Some v.
Proof.
  revert n. induction l as [|x l IH]; intros [|n] H; simpl in *; try lia; auto.
  apply IH. lia.
Qed.

Lemma nth_set_ne (l : list T) (n m : nat) (v : T) :
  m <> n -> nth_error (set l n v) m = nth_error l m.
Proof.
  revert n m. induction l as [|x l IH]; intros [|n] [|m] H; simpl; auto; try lia.
Qed.

Lemma set_set (l : list T) (n : nat) (v w : T) : set (set l n v) n w = set l n w.
Proof. revert n. induction l as [|x l IH]; intros [|n]; simpl; auto. f_equal. apply IH. Qed.

Lemma set_app_last (l : list T) (z v : T) : set (l ++ [z]) (length l) v = l ++ [v].
Proof. induction l as [|x l IH]; simpl; auto. f_equal. exact IH. Qed.

Lemma set_same (l : list T) (n : nat) (v : T) : nth_error l n = Some v -> set l n v = l.
Proof.
  revert n. induction l as [|x l IH]; intros [|n] H; simpl in *; auto; try congruence.
  f_equal. apply IH. exact H.
Qed.

Lemma set_app2 (l more : list T) (n : nat) (v : T) :
  length l <= n -> set (l ++ more) n v = l ++ set more (n - length l) v.
Proof.
  revert n. induction l as [|x l IH]; intros n Hn; cbn [app length].
  - rewrite Nat.sub_0_r. reflexivity.
  - destruct n as [|n]; [cbn in Hn; lia|]. cbn [set length Nat.sub]. f_equal.
    apply IH. cbn in Hn. lia.
Qed.

Lemma nth_error_old (l : list T) (n : nat) (d : T) :
  n < length l -> nth_error l n = Some (nth n l d).
Proof. intros H. apply nth_error_nth'. exact H. Qed.

End SetFacts.

Section AKSClusterSpecCopies.
Import v1alpha1.
Local Open Scope list_scope.
Local Open Scope nat_scope.
Variable ObjectReference : Type.
Variable LocalObjectReference : Type.
Variable Plain : Type.
Variable zeroObjectReference : ObjectReference.
Variable zeroLocalObjectReference : LocalObjectReference.
Variable zeroPlain : Plain.

Local Abbreviation Heap := (@Heap ObjectReference LocalObjectReference Plain).
Local Abbreviation SpecCell := (@AKSClusterSpec LocalObjectReference Plain).
Local Abbreviation DeepCopyInto := (DeepCopyInto zeroObjectReference zeroLocalObjectReference).
Local Abbreviation DeepCopy := (DeepCopy zeroObjectReference zeroLocalObjectReference zeroPlain).
Local Abbreviation copiedInto :=
  (copiedInto zeroObjectReference zeroLocalObjectReference zeroPlain).
Local Abbreviation zeroSpec := (zeroAKSClusterSpec zeroLocalObjectReference zeroPlain).

(** *** Heaps without dangling pointers *)

Lemma inStore_old {T : Type} (cells : list T) (a : nat) (d : T) :
  inStore cells (Some a) = true -> nth_error cells a = Some (nth a cells d).
Proof.
  unfold inStore. intros H. apply Nat.ltb_lt in H. apply nth_error_nth'. exact H.
Qed.

Lemma inStore_grow {T : Type} (cells more : list T) (p : Ptr) :
  inStore cells p = true -> inStore (cells ++ more) p = true.
Proof.
  destruct p as [a|]; [|reflexivity]. unfold inStore. intros H.
  apply Nat.ltb_lt in H. apply Nat.ltb_lt. rewrite length_app. lia.
Qed.

Lemma inStore_longer {T : Type} (cells cells' : list T) (p : Ptr) :
  length cells <= length cells' -> inStore cells p = true -> inStore cells' p = true.
Proof.
  destruct p as [a|]; [|reflexivity]. unfold inStore. intros Hlen H.
  apply Nat.ltb_lt in H. apply Nat.ltb_lt. lia.
Qed.

Lemma localInHeap_longer (h h' : Heap) (p : LocalPtr) :
  length (locals h) <= length (locals h') ->
  length (specs h) <= length (specs h') ->
  localInHeap h p = true -> localInHeap h' p = true.
Proof.
  destruct p as [[a|b]|]; [| |reflexivity]; unfold localInHeap; intros Hl Hs H;
    apply Nat.ltb_lt in H; apply Nat.ltb_lt; lia.
Qed.

Lemma specInHeap_parts (h : Heap) (v : SpecCell) :
  specInHeap h v = true
  <-> inStore (ints h) (NodeCount v) = true
      /\ inStore (references h) (ClaimRef v) = true
      /\ inStore (references h) (ClassRef v) = true
      /\ localInHeap h (ConnectionSecretRef v) = true.
Proof.
  unfold specInHeap. rewrite !andb_true_iff. tauto.
Qed.

Lemma specInHeap_longer (h h' : Heap) (v : SpecCell) :
  length (ints h) <= length (ints h') ->
  length (references h) <= length (references h') ->
  length (locals h) <= length (locals h') ->
  length (specs h) <= length (specs h') ->
  specInHeap h v = true -> specInHeap h' v = true.
Proof.
  intros Hi Hr Hl Hs Hv. apply specInHeap_parts in Hv.
  destruct Hv as [Hnc [Hcr [Hcl Hcs]]]. apply specInHeap_parts.
  split; [exact (inStore_longer _ _ _ Hi Hnc)|].
  split; [exact (inStore_longer _ _ _ Hr Hcr)|].
  split; [exact (inStore_longer _ _ _ Hr Hcl)|].
  exact (localInHeap_longer h h' _ Hl Hs Hcs).
Qed.

Lemma wellFormed_nth (h : Heap) :
  wellFormed h = true
  <-> forall b v, nth_error (specs h) b = Some v -> specInHeap h v = true.
Proof.
  unfold wellFormed. rewrite forallb_forall. split.
  - intros H b v Hb. apply H. eapply nth_error_In. exact Hb.
  - intros H v Hv. apply In_nth_error in Hv. destruct Hv as [b Hb]. exact (H b v Hb).
Qed.

Lemma wellFormed_spec (h : Heap) (a : nat) (i : SpecCell) :
  wellFormed h = true -> nth_error (specs h) a = Some i -> specInHeap h i = true.
Proof. intros Hwf Ha. exact (proj1 (wellFormed_nth h) Hwf a i Ha). Qed.

Lemma wellFormed_parts (h : Heap) (a : nat) (i : SpecCell) :
  wellFormed h = true -> nth_error (specs h) a = Some i ->
  inStore (ints h) (NodeCount i) = true
  /\ inStore (references h) (ClaimRef i) = true
  /\ inStore (references h) (ClassRef i) = true
  /\ localInHeap h (ConnectionSecretRef i) = true.
Proof.
  intros Hwf Ha. apply specInHeap_parts. exact (wellFormed_spec h a i Hwf Ha).
Qed.

Lemma pointsInto_fresh (h : Heap) (a : nat) (i : SpecCell) :
  wellFormed h = true -> nth_error (specs h) a = Some i ->
  pointsInto i (length (specs h)) = false.
Proof.
  intros Hwf Ha. destruct (wellFormed_parts h a i Hwf Ha) as [_ [_ [_ Hcs]]].
  unfold pointsInto. destruct (ConnectionSecretRef i) as [[c|b]|]; try reflexivity.
  cbn [localInHeap] in Hcs. apply Nat.ltb_lt in Hcs. apply Nat.eqb_neq. lia.
Qed.

(** *** The two runs of [DeepCopyInto] *)

Lemma DeepCopyInto_runs (h : Heap) (src out : nat) (i : SpecCell) :
  wellFormed h = true ->
  nth_error (specs h) src = Some i ->
  out < length (specs h) ->
  src <> out ->
  DeepCopyInto (Some src) (Some out) h = Some (tt, copiedInto h i out).
Proof.
  intros Hwf Hsrc Hout Hne.
  destruct (wellFormed_parts h src i Hwf Hsrc) as [Hnc [Hcr [Hcl Hcs]]].
  destruct h as [I R L S]. destruct i as [f nc cr cl cs pr].
  cbn [ints references locals specs NodeCount ClaimRef ClassRef ConnectionSecretRef]
    in Hsrc, Hout, Hnc, Hcr, Hcl, Hcs.
  assert (Hltb : (out <? length S) = true) by (apply Nat.ltb_lt; exact Hout).
  unfold DeepCopyInto, copiedInto, bindM, retM, getSpec, putSpec, deref,
    newInt, getInt, putInt, newReference, getReference, putReference,
    newLocal, getLocal, putLocal, localAt, copyLocal, freshLocal.
  cbn [ints references locals specs].
  destruct nc as [pn|], cr as [pr1|], cl as [pr2|], cs as [[pl|pb]|];
    try pose proof (inStore_old I pn 0%Z Hnc) as Hpn;
    try pose proof (inStore_old R pr1 zeroObjectReference Hcr) as Hpr1;
    try pose proof (inStore_old R pr2 zeroObjectReference Hcl) as Hpr2;
    cbn [inStore localInHeap locals specs] in *;
    repeat match goal with H : (_ <? _) = true |- _ => apply Nat.ltb_lt in H end;
    try pose proof (nth_error_old L pl zeroLocalObjectReference Hcs) as Hpl;
    try pose proof (nth_error_old S pb zeroSpec Hcs) as Hpb;
    try (destruct (Nat.eqb_spec pb out) as [Hsame|Hother]; [subst pb|]);
    repeat first
      [ rewrite Hsrc
      | rewrite length_set
      | rewrite set_set
      | rewrite set_app_last
      | rewrite nth_set_ne by congruence
      | rewrite nth_set_eq by (rewrite ?length_set; lia)
      | rewrite nth_error_app1 by (rewrite ?length_app; cbn; lia)
      | rewrite Hpn | rewrite Hpr1 | rewrite Hpr2 | rewrite Hpl | rewrite Hpb
      | rewrite Nat.eqb_refl
      | match goal with
        | Hother : ?b <> out |- context [?b =? out] =>
          rewrite (proj2 (Nat.eqb_neq b out) Hother)
        end
      | match goal with
        | |- context [?a <? ?b] =>
          rewrite (proj2 (Nat.ltb_lt a b)) by (rewrite ?length_set, ?length_app; cbn; lia)
        end
      | progress cbn [ints references locals specs Fields NodeCount ClaimRef ClassRef
                      ConnectionSecretRef ProviderRef withNodeCount withClaimRef withClassRef
                      withConnectionSecretRef withProviderRef isNil copyCell freshPtr
                      option_map] ];
    rewrite ?app_nil_r; try reflexivity.
Qed.

Lemma DeepCopyInto_onto_itself_runs (h : Heap) (a : nat) (i : SpecCell) :
  nth_error (specs h) a = Some i ->
  DeepCopyInto (Some a) (Some a) h
  = Some (tt, copiedOntoItself zeroObjectReference zeroLocalObjectReference h i a).
Proof.
  intros Hsrc.
  assert (Hlt : a < length (specs h)) by (apply nth_error_Some; congruence).
  destruct h as [I R L S]. destruct i as [f nc cr cl cs pr].
  cbn in Hsrc, Hlt.
  unfold DeepCopyInto, copiedOntoItself, bindM, retM, getSpec, putSpec, deref,
    newInt, getInt, putInt, newReference, getReference, putReference,
    newLocal, getLocal, putLocal, localAt, freshLocal.
  cbn [ints references locals specs].
  destruct nc as [pn|], cr as [pr1|], cl as [pr2|], cs as [[pl|pb]|];
    repeat first
      [ rewrite Hsrc
      | rewrite length_set
      | rewrite set_set
      | rewrite set_app_last
      | rewrite nth_set_eq by (rewrite ?length_set; lia)
      | rewrite nth_error_app2 by lia
      | rewrite Nat.sub_diag
      | match goal with
        | |- context [?a <? ?b] =>
          rewrite (proj2 (Nat.ltb_lt a b)) by (rewrite ?length_set, ?length_app; cbn; lia)
        end
      | progress cbn [ints references locals specs Fields NodeCount ClaimRef ClassRef
                      ConnectionSecretRef ProviderRef withNodeCount withClaimRef withClassRef
                      withConnectionSecretRef withProviderRef isNil zeroCell freshPtr
                      nth_error] ];
    rewrite ?app_nil_r; try reflexivity.
Qed.

(** *** What the pointers of the copy point to *)

Lemma pointee_old {T : Type} (cells more : list T) (p : Ptr) :
  inStore cells p = true -> pointee (cells ++ more) p = pointee cells p.
Proof.
  destruct p as [a|]; [|reflexivity]. unfold inStore, pointee. intros H.
  apply Nat.ltb_lt in H. rewrite nth_error_app1 by exact H. reflexivity.
Qed.

Lemma pointee_copy {T : Type} (cells : list T) (zero : T) (p : Ptr) :
  inStore cells p = true ->
  pointee (cells ++ copyCell cells zero p) (freshPtr cells p) = pointee cells p.
Proof.
  destruct p as [a|]; [|reflexivity]. intros H.
  unfold pointee, freshPtr, copyCell.
  rewrite nth_error_app2 by lia. rewrite Nat.sub_diag. cbn.
  rewrite (inStore_old cells a zero H). reflexivity.
Qed.

Lemma pointee_copy_then {T : Type} (cells more : list T) (zero : T) (p : Ptr) :
  inStore cells p = true ->
  pointee ((cells ++ copyCell cells zero p) ++ more) (freshPtr cells p) = pointee cells p.
Proof.
  intros H. rewrite <- (pointee_copy cells zero p H).
  apply pointee_old. destruct p as [a|]; [|reflexivity].
  unfold inStore, freshPtr, copyCell. apply Nat.ltb_lt. rewrite length_app. cbn. lia.
Qed.

Lemma pointee_copy_after {T : Type} (cells before : list T) (zero : T) (p : Ptr) :
  inStore cells p = true ->
  pointee ((cells ++ before) ++ copyCell cells zero p) (freshPtr (cells ++ before) p)
  = pointee cells p.
Proof.
  destruct p as [a|]; [|reflexivity]. intros H.
  unfold pointee, freshPtr, copyCell.
  rewrite nth_error_app2 by lia. rewrite Nat.sub_diag. cbn.
  rewrite (inStore_old cells a zero H). reflexivity.
Qed.

Lemma localPointee_of_copy (h : Heap) (i : SpecCell) (out : nat) :
  localInHeap h (ConnectionSecretRef i) = true ->
  localPointee (copiedInto h i out) (freshLocal h (ConnectionSecretRef i))
  = secretAfter h i out.
Proof.
  unfold secretAfter, pointsInto, localPointee, localAt, freshLocal, copiedInto, copyLocal.
  cbn [locals specs].
  destruct (ConnectionSecretRef i) as [[a|b]|]; cbn [localInHeap]; intros H;
    [| |reflexivity]; apply Nat.ltb_lt in H;
    rewrite nth_error_app2 by lia; rewrite Nat.sub_diag; cbn [nth_error].
  - rewrite (nth_error_old _ a zeroLocalObjectReference H). reflexivity.
  - destruct (b =? out); [reflexivity|].
    rewrite (nth_error_old _ b zeroSpec H). reflexivity.
Qed.

Lemma localPointee_of_original (h : Heap) (i : SpecCell) (out : nat) :
  out < length (specs h) ->
  localInHeap h (ConnectionSecretRef i) = true ->
  localPointee (copiedInto h i out) (ConnectionSecretRef i) = secretAfter h i out.
Proof.
  unfold secretAfter, pointsInto, localPointee, localAt, copiedInto.
  cbn [locals specs]. intros Hout.
  destruct (ConnectionSecretRef i) as [[a|b]|]; cbn [localInHeap]; intros H;
    [| |reflexivity]; apply Nat.ltb_lt in H.
  - rewrite nth_error_app1 by exact H. reflexivity.
  - destruct (Nat.eqb_spec b out) as [->|Hb].
    + rewrite nth_set_eq by exact Hout. reflexivity.
    + rewrite nth_set_ne by exact Hb. reflexivity.
Qed.

Section Copied.

Variable h : Heap.
Variable src out : nat.
Variable i : SpecCell.
Hypothesis Hwf : wellFormed h = true.
Hypothesis Hsrc : nth_error (specs h) src = Some i.
Hypothesis Hout : out < length (specs h).

Lemma value_before :
  exists n c k s,
    pointee (ints h) (NodeCount i) = Some n
    /\ pointee (references h) (ClaimRef i) = Some c
    /\ pointee (references h) (ClassRef i) = Some k
    /\ localPointee h (ConnectionSecretRef i) = Some s
    /\ value h src = Some (mkValue (Fields i) n c k s (ProviderRef i)).
Proof.
  destruct (wellFormed_parts h src i Hwf Hsrc) as [Hnc [Hcr [Hcl Hcs]]].
  unfold value. rewrite Hsrc. unfold pointee, localPointee, localAt.
  destruct (NodeCount i) as [pn|], (ClaimRef i) as [p1|], (ClassRef i) as [p2|],
    (ConnectionSecretRef i) as [[pl|pb]|];
    cbn [inStore localInHeap] in *;
    try rewrite (inStore_old _ pn 0%Z Hnc);
    try rewrite (inStore_old _ p1 zeroObjectReference Hcr);
    try rewrite (inStore_old _ p2 zeroObjectReference Hcl);
    try (apply Nat.ltb_lt in Hcs);
    try rewrite (nth_error_old _ pl zeroLocalObjectReference Hcs);
    try rewrite (nth_error_old _ pb zeroSpec Hcs);
    cbn [option_map];
    do 4 eexists; repeat split; reflexivity.
Qed.

Lemma copiedInto_value_of_copy :
  value (copiedInto h i out) out
  = match secretAfter h i out with
    | Some s => option_map (withSecret s) (value h src)
    | None => None
    end.
Proof.
  destruct (wellFormed_parts h src i Hwf Hsrc) as [Hnc [Hcr [Hcl Hcs]]].
  destruct value_before as [n [c [k [s [Hn [Hc [Hk [Hs Hv]]]]]]]].
  rewrite Hv. unfold value.
  pose proof (localPointee_of_copy h i out Hcs) as Hlocal.
  unfold copiedInto in *. cbn [ints references locals specs] in *.
  rewrite nth_set_eq by exact Hout.
  cbn [Fields NodeCount ClaimRef ClassRef ConnectionSecretRef ProviderRef].
  rewrite Hlocal.
  rewrite (pointee_copy _ _ _ Hnc), (pointee_copy_then _ _ _ _ Hcr),
    (pointee_copy_after _ _ _ _ Hcl), Hn, Hc, Hk.
  destruct (secretAfter h i out); reflexivity.
Qed.

Lemma copiedInto_value_of_original :
  src <> out ->
  value (copiedInto h i out) src
  = match secretAfter h i out with
    | Some s => option_map (withSecret s) (value h src)
    | None => None
    end.
Proof.
  intros Hne.
  destruct (wellFormed_parts h src i Hwf Hsrc) as [Hnc [Hcr [Hcl Hcs]]].
  destruct value_before as [n [c [k [s [Hn [Hc [Hk [Hs Hv]]]]]]]].
  rewrite Hv. unfold value.
  pose proof (localPointee_of_original h i out Hout Hcs) as Hlocal.
  unfold copiedInto in *. cbn [ints references locals specs] in *.
  rewrite nth_set_ne by exact Hne. rewrite Hsrc.
  rewrite Hlocal.
  rewrite <- app_assoc.
  rewrite (pointee_old _ _ _ Hnc), (pointee_old _ _ _ Hcr), (pointee_old _ _ _ Hcl),
    Hn, Hc, Hk.
  destruct (secretAfter h i out); reflexivity.
Qed.

Lemma secretAfter_apart :
  pointsInto i out = false ->
  match secretAfter h i out with
  | Some s => option_map (withSecret s) (value h src)
  | None => None
  end = value h src.
Proof.
  intros Hapart. unfold secretAfter. rewrite Hapart.
  destruct value_before as [n [c [k [s [_ [_ [_ [Hs Hv]]]]]]]].
  rewrite Hs, Hv. reflexivity.
Qed.

Lemma copiedInto_keepsCells : keepsCells out h (copiedInto h i out).
Proof.
  unfold keepsCells, copiedInto. cbn [ints references locals specs].
  split; [eexists; reflexivity|].
  split; [eexists; rewrite <- app_assoc; reflexivity|].
  split; [eexists; reflexivity|].
  intros b Hb _. apply nth_set_ne. exact Hb.
Qed.

Lemma copiedInto_sharesNothing :
  exists c, nth_error (specs (copiedInto h i out)) out = Some c /\ sharesNothing h c.
Proof.
  eexists. split.
  - unfold copiedInto. cbn [specs]. apply nth_set_eq. exact Hout.
  - unfold sharesNothing, newIn, newLocalIn, freshPtr, freshLocal.
    cbn [NodeCount ClaimRef ClassRef ConnectionSecretRef].
    destruct (NodeCount i), (ClaimRef i), (ClassRef i), (ConnectionSecretRef i);
      repeat split; rewrite ?length_app; lia.
Qed.

Lemma copiedInto_wellFormed : wellFormed (copiedInto h i out) = true.
Proof.
  apply wellFormed_nth. intros b v Hb.
  assert (Hi : length (ints h) <= length (ints (copiedInto h i out)))
    by (unfold copiedInto; cbn [ints]; rewrite length_app; lia).
  assert (Hr : length (references h) <= length (references (copiedInto h i out)))
    by (unfold copiedInto; cbn [references]; rewrite !length_app; lia).
  assert (Hl : length (locals h) <= length (locals (copiedInto h i out)))
    by (unfold copiedInto; cbn [locals]; rewrite length_app; lia).
  assert (Hs : length (specs h) <= length (specs (copiedInto h i out)))
    by (unfold copiedInto; cbn [specs]; rewrite length_set; lia).
  destruct (Nat.eq_dec b out) as [->|Hne].
  - unfold copiedInto in Hb. cbn [specs] in Hb.
    rewrite nth_set_eq in Hb by exact Hout. injection Hb as <-.
    apply specInHeap_parts.
    unfold copiedInto, inStore, localInHeap, freshPtr, freshLocal, copyLocal.
    cbn [ints references locals specs NodeCount ClaimRef ClassRef ConnectionSecretRef].
    destruct (NodeCount i), (ClaimRef i), (ClassRef i), (ConnectionSecretRef i) as [[?|?]|];
      cbn [copyCell];
      repeat split; try reflexivity; apply Nat.ltb_lt; rewrite ?length_app; cbn; lia.
  - unfold copiedInto in Hb. cbn [specs] in Hb.
    rewrite nth_set_ne in Hb by exact Hne.
    exact (specInHeap_longer h _ v Hi Hr Hl Hs (proj1 (wellFormed_nth h) Hwf b v Hb)).
Qed.

End Copied.

Lemma value_defined (h : Heap) (a : nat) (i : SpecCell) :
  wellFormed h = true -> nth_error (specs h) a = Some i -> exists v, value h a = Some v.
Proof.
  intros Hwf Ha.
  destruct (value_before h a i Hwf Ha) as [n [c [k [s [_ [_ [_ [_ Hv]]]]]]]].
  eexists. exact Hv.
Qed.

(** X18: [DeepCopyInto] from one cell into another cell of a heap without
    dangling pointers, when no pointer of the source points into the target
    cell, does not panic and leaves a heap without dangling pointers in
    which the target has the value the source had, the source still has
    that value, every other cell is where and what it was, no spec cell was
    added, and every pointer of the target is nil or names a cell that did
    not exist before. *)
Theorem DeepCopyInto_copies_into_another_cell (h : Heap) (src out : nat) (i : SpecCell) :
  wellFormed h = true ->
  nth_error (specs h) src = Some i ->
  out < length (specs h) ->
  src <> out ->
  pointsInto i out = false ->
  exists h' v,
    DeepCopyInto (Some src) (Some out) h = Some (tt, h')
    /\ value h src = Some v
    /\ value h' out = Some v
    /\ value h' src = Some v
    /\ keepsCells out h h'
    /\ length (specs h') = length (specs h)
    /\ (exists c, nth_error (specs h') out = Some c /\ sharesNothing h c)
    /\ wellFormed h' = true.
Proof.
  intros Hwf Hsrc Hout Hne Hapart.
  destruct (value_defined h src i Hwf Hsrc) as [v Hv].
  exists (copiedInto h i out), v.
  split; [exact (DeepCopyInto_runs h src out i Hwf Hsrc Hout Hne)|].
  split; [exact Hv|].
  split.
  { rewrite <- Hv, (copiedInto_value_of_copy h src out i Hwf Hsrc Hout).
    exact (secretAfter_apart h src out i Hwf Hsrc Hapart). }
  split.
  { rewrite <- Hv, (copiedInto_value_of_original h src out i Hwf Hsrc Hout Hne).
    exact (secretAfter_apart h src out i Hwf Hsrc Hapart). }
  split; [exact (copiedInto_keepsCells h out i)|].
  split; [unfold v1alpha1.copiedInto; cbn [specs]; apply length_set|].
  split; [exact (copiedInto_sharesNothing h out i Hout)|].
  exact (copiedInto_wellFormed h out i Hwf Hout).
Qed.

(** X22: when the connection secret of the source is the [ProviderRef]
    field of the target cell, [DeepCopyInto] still does not panic, and its
    first assignment overwrites what the source points to: afterwards the
    source and the target both have the value the source had but for the
    connection secret, which is now the source's own [ProviderRef]. *)
Theorem DeepCopyInto_overwrites_a_secret_in_the_target
        (h : Heap) (src out : nat) (i : SpecCell) :
  wellFormed h = true ->
  nth_error (specs h) src = Some i ->
  src <> out ->
  ConnectionSecretRef i = Some (ProviderRefOf out) ->
  exists h' v o,
    DeepCopyInto (Some src) (Some out) h = Some (tt, h')
    /\ nth_error (specs h) out = Some o
    /\ value h src = Some v
    /\ vConnectionSecretRef v = Some (ProviderRef o)
    /\ value h' src = Some (withSecret (Some (ProviderRef i)) v)
    /\ value h' out = Some (withSecret (Some (ProviderRef i)) v).
Proof.
  intros Hwf Hsrc Hne Hinto.
  destruct (wellFormed_parts h src i Hwf Hsrc) as [_ [_ [_ Hcs]]].
  rewrite Hinto in Hcs. cbn [localInHeap] in Hcs. apply Nat.ltb_lt in Hcs.
  destruct (nth_error (specs h) out) as [o|] eqn:Ho;
    [|apply nth_error_None in Ho; lia].
  destruct (value_before h src i Hwf Hsrc) as [n [c [k [s [_ [_ [_ [Hs Hv]]]]]]]].
  assert (Hsecret : secretAfter h i out = Some (Some (ProviderRef i))).
  { unfold secretAfter, pointsInto. rewrite Hinto, Nat.eqb_refl. reflexivity. }
  exists (copiedInto h i out), (mkValue (Fields i) n c k s (ProviderRef i)), o.
  split; [exact (DeepCopyInto_runs h src out i Hwf Hsrc Hcs Hne)|].
  split; [reflexivity|]. split; [exact Hv|].
  split.
  { cbn [vConnectionSecretRef]. rewrite Hinto in Hs.
    unfold localPointee, localAt in Hs. rewrite Ho in Hs. cbn [option_map] in Hs.
    congruence. }
  split.
  - rewrite (copiedInto_value_of_original h src out i Hwf Hsrc Hcs Hne), Hsecret, Hv.
    reflexivity.
  - rewrite (copiedInto_value_of_copy h src out i Hwf Hsrc Hcs), Hsecret, Hv. reflexivity.
Qed.

Lemma wellFormed_newSpec (h : Heap) :
  wellFormed h = true ->
  wellFormed (mkHeap (ints h) (references h) (locals h) (specs h ++ [zeroSpec])) = true.
Proof.
  intros Hwf. apply wellFormed_nth. cbn [specs]. intros b v Hb.
  destruct (Nat.lt_ge_cases b (length (specs h))) as [Hlt|Hge].
  - rewrite nth_error_app1 in Hb by exact Hlt.
    apply (specInHeap_longer h); cbn [ints references locals specs];
      try lia; [rewrite length_app; lia|].
    exact (proj1 (wellFormed_nth h) Hwf b v Hb).
  - rewrite nth_error_app2 in Hb by exact Hge.
    destruct (b - length (specs h)) as [|n]; cbn in Hb; [|destruct n; discriminate].
    injection Hb as <-. reflexivity.
Qed.

Lemma value_of_extension (h k : Heap) (a : nat) (i : SpecCell) :
  wellFormed h = true ->
  nth_error (specs h) a = Some i ->
  (exists more, ints k = ints h ++ more) ->
  (exists more, references k = references h ++ more) ->
  (exists more, locals k = locals h ++ more) ->
  (forall b, b < length (specs h) -> nth_error (specs k) b = nth_error (specs h) b) ->
  value k a = value h a.
Proof.
  intros Hwf Ha [mi Hi] [mr Hr] [ml Hl] Hs.
  destruct (wellFormed_parts h a i Hwf Ha) as [Hnc [Hcr [Hcl Hcs]]].
  assert (Hlt : a < length (specs h)) by (apply nth_error_Some; congruence).
  unfold value. rewrite (Hs a Hlt), Ha, Hi, Hr.
  rewrite (pointee_old _ _ _ Hnc), (pointee_old _ _ _ Hcr), (pointee_old _ _ _ Hcl).
  assert (Hlocal : localPointee k (ConnectionSecretRef i)
                   = localPointee h (ConnectionSecretRef i)).
  { unfold localPointee, localAt.
    destruct (ConnectionSecretRef i) as [[c|b]|]; cbn [localInHeap] in Hcs;
      [| |reflexivity]; apply Nat.ltb_lt in Hcs.
    - rewrite Hl, nth_error_app1 by exact Hcs. reflexivity.
    - rewrite (Hs b Hcs). reflexivity. }
  rewrite Hlocal. reflexivity.
Qed.

Lemma DeepCopy_copies (h : Heap) (a : nat) (i : SpecCell) :
  wellFormed h = true ->
  nth_error (specs h) a = Some i ->
  exists h' v,
    DeepCopy (Some a) h = Some (Some (length (specs h)), h')
    /\ value h a = Some v
    /\ value h' (length (specs h)) = Some v
    /\ value h' a = Some v
    /\ keepsCells (length (specs h)) h h'
    /\ length (specs h') = S (length (specs h))
    /\ (exists c, nth_error (specs h') (length (specs h)) = Some c /\ sharesNothing h c)
    /\ wellFormed h' = true.
Proof.
  intros Hwf Ha.
  assert (Hlt : a < length (specs h)) by (apply nth_error_Some; congruence).
  set (h1 := mkHeap (ints h) (references h) (locals h) (specs h ++ [zeroSpec])).
  assert (Hwf1 : wellFormed h1 = true) by exact (wellFormed_newSpec h Hwf).
  assert (Ha1 : nth_error (specs h1) a = Some i).
  { subst h1. cbn [specs]. rewrite nth_error_app1 by exact Hlt. exact Ha. }
  assert (Hout1 : length (specs h) < length (specs h1)).
  { subst h1. cbn [specs]. rewrite length_app. cbn. lia. }
  assert (Hne : a <> length (specs h)) by lia.
  pose proof (pointsInto_fresh h a i Hwf Ha) as Hapart.
  destruct (value_defined h a i Hwf Ha) as [v Hv].
  assert (Hv1 : value h1 a = Some v).
  { rewrite <- Hv. apply (value_of_extension h h1 a i Hwf Ha);
      subst h1; cbn [ints references locals specs];
      try (exists []; rewrite app_nil_r; reflexivity).
    intros b Hb. apply nth_error_app1. exact Hb. }
  exists (copiedInto h1 i (length (specs h))), v.
  split.
  { unfold v1alpha1.DeepCopy, bindM, newSpec, retM. fold h1.
    rewrite (DeepCopyInto_runs h1 a (length (specs h)) i Hwf1 Ha1 Hout1 Hne). reflexivity. }
  split; [exact Hv|].
  split.
  { rewrite <- Hv1, (copiedInto_value_of_copy h1 a _ i Hwf1 Ha1 Hout1).
    exact (secretAfter_apart h1 a _ i Hwf1 Ha1 Hapart). }
  split.
  { rewrite <- Hv1, (copiedInto_value_of_original h1 a _ i Hwf1 Ha1 Hout1 Hne).
    exact (secretAfter_apart h1 a _ i Hwf1 Ha1 Hapart). }
  split.
  { destruct (copiedInto_keepsCells h1 (length (specs h)) i) as [Hi [Hr [Hl Hs]]].
    split; [exact Hi|]. split; [exact Hr|]. split; [exact Hl|].
    intros b Hb Hblt. rewrite (Hs b Hb) by lia.
    subst h1. cbn [specs]. apply nth_error_app1. exact Hblt. }
  split.
  { unfold v1alpha1.copiedInto. cbn [specs]. rewrite length_set.
    subst h1. cbn [specs]. rewrite length_app. cbn. lia. }
  split; [|exact (copiedInto_wellFormed h1 _ i Hwf1 Hout1)].
  destruct (copiedInto_sharesNothing h1 (length (specs h)) i Hout1) as [c [Hc Hshare]].
  exists c. split; [exact Hc|exact Hshare].
Qed.

(** X19: [DeepCopy] of nil is nil and leaves the heap alone.  [DeepCopy] of
    a pointer to a spec on a heap without dangling pointers does not panic
    and returns a pointer to a new cell, the one past the end of the store;
    the new cell has the value of the original, the original keeps its value
    and every old cell its place and content, one spec cell was added, every
    pointer of the copy is nil or names a cell that did not exist before, and
    the heap is again without dangling pointers. *)
Theorem DeepCopy_makes_an_equal_copy_that_shares_nothing (h : Heap) :
  DeepCopy None h = Some (None, h)
  /\ forall a i,
      wellFormed h = true ->
      nth_error (specs h) a = Some i ->
      exists h' v,
        DeepCopy (Some a) h = Some (Some (length (specs h)), h')
        /\ value h a = Some v
        /\ value h' (length (specs h)) = Some v
        /\ value h' a = Some v
        /\ keepsCells (length (specs h)) h h'
        /\ length (specs h') = S (length (specs h))
        /\ (exists c, nth_error (specs h') (length (specs h)) = Some c /\ sharesNothing h c)
        /\ wellFormed h' = true.
Proof.
  split; [reflexivity|]. intros a i. exact (DeepCopy_copies h a i).
Qed.

(** X20: after [DeepCopy] of a spec on a heap without dangling pointers,
    a write through any pointer of the copy (its node count, claim, class or
    connection secret) does not panic and leaves the value of the original
    what it was before the copy. *)
Theorem writes_through_the_copy_leave_the_original
        (h h' : Heap) (a : nat) (i c : SpecCell) :
  wellFormed h = true ->
  nth_error (specs h) a = Some i ->
  DeepCopy (Some a) h = Some (Some (length (specs h)), h') ->
  nth_error (specs h') (length (specs h)) = Some c ->
  (forall p z, NodeCount c = Some p ->
     exists h'', putInt p z h' = Some (tt, h'') /\ value h'' a = value h a)
  /\ (forall p z, ClaimRef c = Some p \/ ClassRef c = Some p ->
     exists h'', putReference p z h' = Some (tt, h'') /\ value h'' a = value h a)
  /\ (forall t z, ConnectionSecretRef c = Some t ->
     exists h'', putLocal t z h' = Some (tt, h'') /\ value h'' a = value h a).
Proof.
  intros Hwf Ha Hrun Hc.
  assert (Hlt : a < length (specs h)) by (apply nth_error_Some; congruence).
  destruct (DeepCopy_copies h a i Hwf Ha)
    as [k [v [Hrun' [_ [_ [_ [Hkeeps [_ [[c' [Hc' Hshare]] Hwf']]]]]]]]].
  rewrite Hrun in Hrun'. injection Hrun' as <-.
  assert (c' = c) by congruence. subst c'.
  destruct Hkeeps as [[mi Hi] [[mr Hr] [[ml Hl] Hs]]].
  assert (Hold : forall b, b < length (specs h) ->
                           nth_error (specs h') b = nth_error (specs h) b).
  { intros b Hb. apply Hs; lia. }
  destruct (wellFormed_parts h' _ c Hwf' Hc) as [Hnc [Hcr [Hcl Hcs]]].
  destruct Hshare as [Snc [Scr [Scl Scs]]].
  split; [|split].
  - intros p z Hp. rewrite Hp in Hnc, Snc. cbn [inStore newIn] in Hnc, Snc.
    unfold putInt. rewrite Hnc. eexists. split; [reflexivity|].
    apply (value_of_extension h _ a i Hwf Ha); cbn [specs ints references locals];
      [|eexists; exact Hr|eexists; exact Hl|exact Hold].
    rewrite Hi, set_app2 by exact Snc. eexists. reflexivity.
  - intros p z Hp.
    assert (Hvalid : (p <? length (references h')) = true /\ length (references h) <= p).
    { destruct Hp as [Hp|Hp].
      - rewrite Hp in Hcr, Scr. cbn [inStore newIn] in Hcr, Scr. split; assumption.
      - rewrite Hp in Hcl, Scl. cbn [inStore newIn] in Hcl, Scl. split; assumption. }
    destruct Hvalid as [Hvalid Hnew].
    unfold putReference. rewrite Hvalid. eexists. split; [reflexivity|].
    apply (value_of_extension h _ a i Hwf Ha); cbn [specs ints references locals];
      [eexists; exact Hi| |eexists; exact Hl|exact Hold].
    rewrite Hr, set_app2 by exact Hnew. eexists. reflexivity.
  - intros t z Hp. rewrite Hp in Hcs, Scs.
    destruct t as [p|b]; cbn [localInHeap newLocalIn] in Hcs, Scs; [|contradiction].
    unfold putLocal. rewrite Hcs. eexists. split; [reflexivity|].
    apply (value_of_extension h _ a i Hwf Ha); cbn [specs ints references locals];
      [eexists; exact Hi|eexists; exact Hr| |exact Hold].
    rewrite Hl, set_app2 by exact Scs. eexists. reflexivity.
Qed.

Lemma pointee_zero {T : Type} (cells : list T) (zero : T) (p : Ptr) (x : option T) :
  pointee cells p = Some x ->
  pointee (cells ++ zeroCell zero p) (freshPtr cells p)
  = Some (option_map (fun _ => zero) x).
Proof.
  destruct p as [a|]; cbn [pointee zeroCell freshPtr].
  - destruct (nth_error cells a); [|discriminate]. intros [= <-].
    rewrite nth_error_app2 by lia. rewrite Nat.sub_diag. reflexivity.
  - intros [= <-]. reflexivity.
Qed.

Lemma pointee_zero_then {T : Type} (cells more : list T) (zero : T) (p : Ptr) (x : option T) :
  pointee cells p = Some x ->
  pointee ((cells ++ zeroCell zero p) ++ more) (freshPtr cells p)
  = Some (option_map (fun _ => zero) x).
Proof.
  intros H. rewrite <- (pointee_zero cells zero p x H).
  apply pointee_old. destruct p as [a|]; [|reflexivity].
  unfold inStore, freshPtr, zeroCell. apply Nat.ltb_lt. rewrite length_app. cbn. lia.
Qed.

Lemma pointee_zero_after {T : Type} (cells before : list T) (zero : T) (p : Ptr) (x : option T) :
  pointee cells p = Some x ->
  pointee ((cells ++ before) ++ zeroCell zero p) (freshPtr (cells ++ before) p)
  = Some (option_map (fun _ => zero) x).
Proof.
  destruct p as [a|]; cbn [pointee zeroCell freshPtr].
  - destruct (nth_error cells a); [|discriminate]. intros [= <-].
    rewrite nth_error_app2 by lia. rewrite Nat.sub_diag. reflexivity.
  - intros [= <-]. reflexivity.
Qed.

Lemma localPointee_zero (h : Heap) (i : SpecCell) (a : nat)
      (x : option LocalObjectReference) :
  localPointee h (ConnectionSecretRef i) = Some x ->
  localPointee (copiedOntoItself zeroObjectReference zeroLocalObjectReference h i a)
               (freshLocal h (ConnectionSecretRef i))
  = Some (option_map (fun _ => zeroLocalObjectReference) x).
Proof.
  unfold localPointee, localAt, copiedOntoItself, freshLocal. cbn [locals specs].
  destruct (ConnectionSecretRef i) as [t|]; cbn [zeroCell].
  - intros Hx.
    assert (Hsome : exists y, x = Some y).
    { destruct t; [destruct (nth_error (locals h) a0)
                  |destruct (option_map ProviderRef (nth_error (specs h) a0))];
        try discriminate; injection Hx as <-; eexists; reflexivity. }
    destruct Hsome as [y ->].
    rewrite nth_error_app2 by lia. rewrite Nat.sub_diag. reflexivity.
  - intros [= <-]. reflexivity.
Qed.

(** X21: [DeepCopyInto] with the same pointer for [in] and [out] does not
    panic, and it loses what the spec pointed to: afterwards every pointer of
    the spec that was not nil points to a new cell holding the zero value;
    the fields that are no pointers stay. *)
Theorem DeepCopyInto_onto_itself_zeroes_the_pointees (h : Heap) (a : nat) (v : Value) :
  value h a = Some v ->
  exists h',
    DeepCopyInto (Some a) (Some a) h = Some (tt, h')
    /\ value h' a = Some (zeroed zeroObjectReference zeroLocalObjectReference v).
Proof.
  intros Hv. unfold value in Hv.
  destruct (nth_error (specs h) a) as [i|] eqn:Ha; [|discriminate].
  destruct (pointee (ints h) (NodeCount i)) as [n|] eqn:Hn; [|discriminate].
  destruct (pointee (references h) (ClaimRef i)) as [c|] eqn:Hc; [|discriminate].
  destruct (pointee (references h) (ClassRef i)) as [k|] eqn:Hk; [|discriminate].
  destruct (localPointee h (ConnectionSecretRef i)) as [s|] eqn:Hs; [|discriminate].
  injection Hv as <-.
  assert (Hlt : a < length (specs h)) by (apply nth_error_Some; congruence).
  eexists. split; [exact (DeepCopyInto_onto_itself_runs h a i Ha)|].
  unfold value.
  pose proof (localPointee_zero h i a s Hs) as Hlocal.
  unfold copiedOntoItself in *. cbn [ints references locals specs] in *.
  rewrite nth_set_eq by exact Hlt.
  cbn [Fields NodeCount ClaimRef ClassRef ConnectionSecretRef ProviderRef].
  rewrite Hlocal.
  rewrite (pointee_zero _ _ _ _ Hn), (pointee_zero_then _ _ _ _ _ Hc),
    (pointee_zero_after _ _ _ _ _ Hk).
  reflexivity.
Qed.

End AKSClusterSpecCopies.

(** ** The deep copies on a concrete heap *)

Lemma DeepCopyInto_copies_into_another_cell_witness :
  v1alpha1.wellFormed Cluster.heap = true
  /\ nth_error (v1alpha1.specs Cluster.heap) 0
     = Some (v1alpha1.mkAKSClusterSpec "aks" (Some 0) (Some 0) None
                                       (Some (v1alpha1.Cell 0)) "provider")
  /\ 1 < length (v1alpha1.specs Cluster.heap)
  /\ 0 <> 1
  /\ v1alpha1.pointsInto
       (v1alpha1.mkAKSClusterSpec "aks" (Some 0) (Some 0) None
                                  (Some (v1alpha1.Cell 0)) "provider") 1 = false
  /\ exists h',
      Cluster.DeepCopyInto (Some 0) (Some 1) Cluster.heap = Some (tt, h')
      /\ v1alpha1.value h' 1 = Some Cluster.original
      /\ v1alpha1.value h' 0 = Some Cluster.original.
Proof.
  assert (Hout : 1 < length (v1alpha1.specs Cluster.heap)) by (cbn; lia).
  assert (Hne : 0 <> 1) by discriminate.
  split; [reflexivity|]. split; [reflexivity|]. split; [exact Hout|]. split; [exact Hne|].
  split; [reflexivity|].
  destruct (DeepCopyInto_copies_into_another_cell
              string string string "" "" "" Cluster.heap 0 1 _ eq_refl eq_refl Hout Hne eq_refl)
    as [h' [v [Hrun [Hv [Hcopy [Horig _]]]]]].
  change (Some Cluster.original = Some v) in Hv. injection Hv as <-.
  exists h'. split; [exact Hrun|]. split; [exact Hcopy|exact Horig].
Defined.

Lemma DeepCopyInto_overwrites_a_secret_witness :
  v1alpha1.wellFormed Cluster.aliased = true
  /\ v1alpha1.value Cluster.aliased 0
     = Some (v1alpha1.mkValue "aks" None None None (Some "elsewhere") "provider")
  /\ exists h',
      Cluster.DeepCopyInto (Some 0) (Some 1) Cluster.aliased = Some (tt, h')
      /\ v1alpha1.value h' 0
         = Some (v1alpha1.mkValue "aks" None None None (Some "provider") "provider")
      /\ v1alpha1.value h' 1
         = Some (v1alpha1.mkValue "aks" None None None (Some "provider") "provider").
Proof.
  assert (Hne : 0 <> 1) by discriminate.
  split; [reflexivity|]. split; [reflexivity|].
  destruct (DeepCopyInto_overwrites_a_secret_in_the_target
              string string string "" "" "" Cluster.aliased 0 1 _ eq_refl eq_refl Hne eq_refl)
    as [h' [v [o [Hrun [_ [Hv [_ [Horig Hcopy]]]]]]]].
  change (Some (v1alpha1.mkValue "aks" None None None (Some "elsewhere") "provider") = Some v)
    in Hv.
  injection Hv as <-.
  exists h'. split; [exact Hrun|]. split; [exact Horig|exact Hcopy].
Defined.

Lemma DeepCopy_makes_an_equal_copy_witness :
  v1alpha1.wellFormed Cluster.heap = true
  /\ exists h',
      Cluster.DeepCopy (Some 0) Cluster.heap = Some (Some 2, h')
      /\ v1alpha1.value h' 2 = Some Cluster.original
      /\ v1alpha1.value h' 0 = Some Cluster.original
      /\ length (v1alpha1.specs h') = 3.
Proof.
  split; [reflexivity|].
  destruct (proj2 (DeepCopy_makes_an_equal_copy_that_shares_nothing
                     string string string "" "" "" Cluster.heap)
                  0 _ eq_refl eq_refl)
    as [h' [v [Hrun [Hv [Hcopy [Horig [_ [Hlen _]]]]]]]].
  change (Some Cluster.original = Some v) in Hv. injection Hv as <-.
  exists h'.
  split; [exact Hrun|]. split; [exact Hcopy|]. split; [exact Horig|exact Hlen].
Defined.

Lemma writes_through_the_copy_witness :
  v1alpha1.wellFormed Cluster.heap = true
  /\ Cluster.DeepCopy (Some 0) Cluster.heap = Some (Some 2, Cluster.copied)
  /\ nth_error (v1alpha1.specs Cluster.copied) 2
     = Some (v1alpha1.mkAKSClusterSpec "aks" (Some 1) (Some 1) None
                                       (Some (v1alpha1.Cell 1)) "provider")
  /\ exists h'',
      @v1alpha1.putInt string string string 1 7%Z Cluster.copied = Some (tt, h'')
      /\ v1alpha1.value h'' 0 = Some Cluster.original.
Proof.
  split; [reflexivity|]. split; [reflexivity|]. split; [reflexivity|].
  exact (proj1 (writes_through_the_copy_leave_the_original
                  string string string "" "" "" Cluster.heap Cluster.copied 0 _ _
                  eq_refl eq_refl eq_refl eq_refl)
               1 7%Z eq_refl).
Defined.

Lemma DeepCopyInto_onto_itself_witness :
  v1alpha1.value Cluster.heap 0 = Some Cluster.original
  /\ exists h',
      Cluster.DeepCopyInto (Some 0) (Some 0) Cluster.heap = Some (tt, h')
      /\ v1alpha1.value h' 0
         = Some (v1alpha1.mkValue "aks" (Some 0%Z) (Some "") None (Some "") "provider").
Proof.
  split; [reflexivity|].
  exact (DeepCopyInto_onto_itself_zeroes_the_pointees
           string string string "" "" Cluster.heap 0 Cluster.original eq_refl).
Defined.
